(** * The slot-booking component: a shallow embedding and its properties

    The repository holds two revisions of one React component,
    [ClientInterface]:

    - [src/components/ClientInterface.jsx], which talks to a backend
      ([/api/slots], [/api/book]) and posts its notifications to a script
      endpoint; it is embedded in [Module Backend];
    - the SheetDB revision, which reads and patches a sheet and sends its
      notifications through EmailJS; it is embedded in [Module SheetDB].

    Both revisions share the comparator handed to [Array.prototype.sort];
    only the first has [formatTimeToStandard].

    Conventions of the embedding.
    - A JavaScript string is a [string]; the character functions
      ([toUpperCase], white space) are the ASCII ones.
    - A JavaScript number is [NaN] or an integer ([number]).
    - An [async] function is a function of the outcomes of the requests it
      awaits; it runs in a small state-and-exception monad ([Eff]) that
      threads the component's state and the trace of requests.
    - A handler reads the state of the render that created it (its closure,
      an explicit argument [r]) and writes through the setters. *)

From Stdlib Require Import String Ascii List ZArith Bool Lia.
From Stdlib Require Import DecimalString Sorted Permutation.
Import ListNotations.

Open Scope string_scope.
Open Scope Z_scope.

(* ================================================================== *)
(** * Part I: definitions *)
(* ================================================================== *)

(** ** JavaScript values and built-ins *)

Module JS.

(** A number: the values the component computes with are integers or
    [NaN]. *)
Inductive number : Type :=
| NaN
| Int (z : Z).

(** [x - y]. *)
Definition sub (x y : number) : number :=
  match x, y with
  | Int a, Int b => Int (a - b)
  | _, _ => NaN
  end.

(** [x !== 0]: [NaN] is different from every number. *)
Definition neq_zero (x : number) : bool :=
  match x with
  | NaN => true
  | Int z => negb (z =? 0)
  end.

(** [x >= k]: every comparison with [NaN] is false. *)
Definition geb (x : number) (k : Z) : bool :=
  match x with
  | NaN => false
  | Int z => k <=? z
  end.

(** [x % k]: the remainder has the sign of the dividend. *)
Definition rem (x : number) (k : Z) : number :=
  match x with
  | NaN => NaN
  | Int z => Int (Z.rem z k)
  end.

(** [x || d] on numbers: [NaN] and zero are falsy. *)
Definition or_else (x : number) (d : number) : number :=
  match x with
  | NaN => d
  | Int 0 => d
  | Int _ => x
  end.

(** [String(x)], as a template literal renders a number. *)
Definition to_string (x : number) : string :=
  match x with
  | NaN => "NaN"
  | Int z => NilZero.string_of_int (Z.to_int z)
  end.

(** [ToString(v)] of a string that may be [undefined]: what a template
    literal and a string argument make of it. *)
Definition ToString (v : option string) : string :=
  match v with
  | Some s => s
  | None => "undefined"
  end.

Definition upper_char (c : ascii) : ascii :=
  let n := nat_of_ascii c in
  if (Nat.leb 97 n && Nat.leb n 122)%bool then ascii_of_nat (n - 32) else c.

(** [s.toUpperCase()]. *)
Fixpoint toUpperCase (s : string) : string :=
  match s with
  | EmptyString => EmptyString
  | String c s' => String (upper_char c) (toUpperCase s')
  end.

(** [s.includes(t)]. *)
Fixpoint includes (s t : string) : bool :=
  if prefix t s then true
  else match s with
       | EmptyString => false
       | String _ s' => includes s' t
       end.

(** [s.split(sep)] for a separator of one character: never empty. *)
Fixpoint split (sep : ascii) (s : string) : list string :=
  match s with
  | EmptyString => [EmptyString]
  | String c s' =>
      if Ascii.eqb c sep then EmptyString :: split sep s'
      else match split sep s' with
           | piece :: rest => String c piece :: rest
           | [] => [String c EmptyString]
           end
  end.

Definition is_white_space (c : ascii) : bool :=
  let n := nat_of_ascii c in
  ((Nat.leb 9 n && Nat.leb n 13) || Nat.eqb n 32)%bool.

Fixpoint skip_white_space (s : string) : string :=
  match s with
  | String c s' => if is_white_space c then skip_white_space s' else s
  | EmptyString => EmptyString
  end.

Definition digit_of (c : ascii) : option Z :=
  let n := nat_of_ascii c in
  if (Nat.leb 48 n && Nat.leb n 57)%bool then Some (Z.of_nat (n - 48)) else None.

(** The longest prefix of decimal digits, read with accumulator [acc];
    [seen] tells whether a digit was read. *)
Fixpoint digits (s : string) (seen : bool) (acc : Z) : option Z :=
  match s with
  | EmptyString => if seen then Some acc else None
  | String c s' =>
      match digit_of c with
      | Some d => digits s' true (10 * acc + d)
      | None => if seen then Some acc else None
      end
  end.

(** [parseInt(s, 10)]: leading white space, an optional sign, then the
    longest run of digits; [NaN] when there is none.  The result is the
    exact integer: it is the engine's result as long as that is below
    [2 ^ 53] in absolute value; beyond, the engine rounds to the nearest
    double, and the statements on [parseInt] keep below that bound. *)
Definition parseInt (s : string) : number :=
  match skip_white_space s with
  | String "-" s' =>
      match digits s' false 0 with Some n => Int (- n) | None => NaN end
  | String "+" s' =>
      match digits s' false 0 with Some n => Int n | None => NaN end
  | s' =>
      match digits s' false 0 with Some n => Int n | None => NaN end
  end.

(** How a statement completes: normally with a value, or by throwing an
    error, of which the component only reads [message]. *)
Inductive completion (A : Type) : Type :=
| Normal (a : A)
| Throw (message : string).
Arguments Normal {A} a.
Arguments Throw {A} message.

End JS.

(** ** [formatTimeToStandard] (ClientInterface.jsx, lines 26-37)

    The argument is [None] for a missing ([undefined]) time. *)
Definition formatTimeToStandard (time : option string) : string :=
  match time with
  | None => ""
  | Some "" => ""
  | Some time =>
      if (JS.includes (JS.toUpperCase time) "AM"
          || JS.includes (JS.toUpperCase time) "PM")%bool
      then time
      else
        let pieces := JS.split ":" time in
        let hours := nth 0 pieces "" in
        let minutes := nth_error pieces 1 in
        let hour := JS.parseInt hours in
        let ampm := if JS.geb hour 12 then "PM" else "AM" in
        let standardHour := JS.or_else (JS.rem hour 12) (JS.Int 12) in
        JS.to_string standardHour ++ ":" ++ JS.ToString minutes ++ " " ++ ampm
  end.

(** ** The platform

    Two built-ins the comparator calls are the engine's, not the
    repository's: date parsing and locale-sensitive collation.  The third,
    the syntax check of an [<input type="email">], is the browser's.
    - [Date_value s] is the time value of [new Date(s)], as the subtraction
      in the comparator reads it: milliseconds, or [NaN] for an invalid date.
    - [localeCompare a b] is [a.localeCompare(b)]: negative, zero or positive.
    - [emailSyntax v] tells whether [v] is accepted by an e-mail control. *)
Class Platform : Type := {
  Date_value : string -> JS.number;
  localeCompare : string -> string -> Z;
  emailSyntax : string -> bool
}.

(** What ECMA-402 promises of a collation: the comparison is a total
    preorder. *)
Record consistent_collation (P : Platform) : Prop := {
  collation_opp : forall a b, Z.sgn (localeCompare b a) = - Z.sgn (localeCompare a b);
  collation_trans : forall a b c,
      localeCompare a b <= 0 -> localeCompare b c <= 0 -> localeCompare a c <= 0
}.

(** ** Slots *)

(** A row of the store.  [time] and [status] are [None] when the row has no
    such field ([undefined]); the backend revision never reads [status]. *)
Record Slot : Type := {
  id : string;
  date : string;
  time : option string;
  status : option string
}.

Definition TypeError_localeCompare : string :=
  "Cannot read properties of undefined (reading 'localeCompare')".

(** The comparator of both revisions:
<<
  (a, b) => {
    const dateComparison = new Date(a.date) - new Date(b.date);
    if (dateComparison !== 0) return dateComparison;
    return a.time.localeCompare(b.time);
  }
>>
    [a.time.localeCompare] throws when [a.time] is undefined; an undefined
    argument is compared as the string ["undefined"]. *)
Definition compareSlots {P : Platform} (a b : Slot) : JS.completion JS.number :=
  let dateComparison := JS.sub (Date_value (date a)) (Date_value (date b)) in
  if JS.neq_zero dateComparison then JS.Normal dateComparison
  else match time a with
       | None => JS.Throw TypeError_localeCompare
       | Some t => JS.Normal (JS.Int (localeCompare t (JS.ToString (time b))))
       end.

(** ** [Array.prototype.sort]

    The standard leaves the algorithm and the sequence of comparator calls to
    the engine, and requires, for a consistent comparator, the stable
    ascending order.  The model is the insertion sort that computes it; a
    comparator result of [NaN] counts as zero, and an exception of the
    comparator ends the sort.  Where the comparator is not consistent (a
    date that does not parse, a row without a time) the standard fixes
    neither the order of the result nor the calls made: there the model is
    one of the behaviours an engine may show. *)
Module ArraySort.
Section Sort.
Context {A : Type} (comparefn : A -> A -> JS.completion JS.number).

Definition SortCompare (v : JS.number) : Z :=
  match v with
  | JS.NaN => 0
  | JS.Int z => z
  end.

Fixpoint insert (x : A) (l : list A) : JS.completion (list A) :=
  match l with
  | [] => JS.Normal [x]
  | y :: l' =>
      match comparefn x y with
      | JS.Throw m => JS.Throw m
      | JS.Normal v =>
          if 0 <? SortCompare v
          then match insert x l' with
               | JS.Normal r => JS.Normal (y :: r)
               | JS.Throw m => JS.Throw m
               end
          else JS.Normal (x :: y :: l')
      end
  end.

Fixpoint sort (l : list A) : JS.completion (list A) :=
  match l with
  | [] => JS.Normal []
  | x :: l' =>
      match sort l' with
      | JS.Normal s => insert x s
      | JS.Throw m => JS.Throw m
      end
  end.
End Sort.
End ArraySort.

(** ** Requests and their outcomes *)

(** A value of a request body.  Dates formatted for display are kept as the
    call that formats them. *)
#[warnings="-register-all"]
Inductive Value : Type :=
| VStr (s : string)
| VLocaleDate (date : string) (options : list (string * string))
| VGetDate (date : string)
| VToday
| VUndefined
| VObject (fields : list (string * Value)).

(** A field that may be [undefined]. *)
Definition VField (v : option string) : Value :=
  match v with
  | Some s => VStr s
  | None => VUndefined
  end.

(** What the component asks of the outside, in order. *)
Inductive Call : Type :=
| Fetch (method url : string) (body : list (string * Value))
| EmailJS (service template : string) (params : list (string * Value)) (key : string)
| SetInterval (handle : nat)
| ClearInterval (handle : nat)
| ConsoleLog (message : string)
| ConsoleError (label message : string).

(** The body of a response, as [response.json()] gives it: the text is no
    JSON ([BadJson], with the message of the [SyntaxError]), or it is the
    value [null], or a value other than [null] that is no array (an object,
    a number, a string, a boolean), or an array of rows. *)
Inductive Body : Type :=
| BadJson (message : string)
| JsonNull
| NotArray
| Rows (rows : list Slot).

(** The outcome of a [fetch]: the promise rejects, or resolves with a
    response. *)
Inductive FetchOutcome : Type :=
| Rejected (message : string)
| Response (ok : bool) (body : Body).

(** The outcome of [emailjs.send]. *)
Inductive SendOutcome : Type :=
| Sent
| SendFailed (message : string).

(** ** The monad of the handlers: state, trace and exceptions *)

Section Eff.
Context {St : Type}.

Definition Eff (A : Type) : Type :=
  St * list Call -> JS.completion A * (St * list Call).

Definition ret {A} (a : A) : Eff A := fun w => (JS.Normal a, w).

Definition bind {A B} (m : Eff A) (k : A -> Eff B) : Eff B :=
  fun w =>
    match m w with
    | (JS.Normal a, w') => k a w'
    | (JS.Throw e, w') => (JS.Throw e, w')
    end.

Definition throw {A} (message : string) : Eff A := fun w => (JS.Throw message, w).

(** A setter. *)
Definition set (f : St -> St) : Eff unit := fun w => (JS.Normal tt, (f (fst w), snd w)).

Definition call (c : Call) : Eff unit :=
  fun w => (JS.Normal tt, (fst w, (snd w ++ [c])%list)).

Definition lift {A} (c : JS.completion A) : Eff A := fun w => (c, w).

Definition when (b : bool) (m : Eff unit) : Eff unit := if b then m else ret tt.

(** [try { body } catch (error) { handler }]. *)
Definition try_catch {A} (body : Eff A) (handler : string -> Eff A) : Eff A :=
  fun w =>
    match body w with
    | (JS.Normal a, w') => (JS.Normal a, w')
    | (JS.Throw e, w') => handler e w'
    end.

(** [try { body } finally { final }]: [final] runs in both cases. *)
Definition try_finally {A} (body : Eff A) (final : Eff unit) : Eff A :=
  fun w =>
    match body w with
    | (r, w') =>
        match final w' with
        | (JS.Normal _, w'') => (r, w'')
        | (JS.Throw e, w'') => (JS.Throw e, w'')
        end
    end.

(** [await fetch(...)]: the request goes out; a rejection is thrown. *)
Definition fetch (method url : string) (body : list (string * Value))
           (o : FetchOutcome) : Eff (bool * Body) :=
  bind (call (Fetch method url body))
       (fun _ => match o with
                 | Rejected m => throw m
                 | Response ok b => ret (ok, b)
                 end).

(** The handle [setInterval] returns: a positive integer, fresh. *)
Definition fresh_handle (trace : list Call) : nat :=
  S (length (filter (fun c => match c with SetInterval _ => true | _ => false end) trace)).

Definition setInterval : Eff nat :=
  fun w => let h := fresh_handle (snd w) in
           (JS.Normal h, (fst w, (snd w ++ [SetInterval h])%list)).
End Eff.

Arguments Eff St A : clear implicits.

(** The three parts of what a handler leaves. *)
Definition completion_of {St A} (x : JS.completion A * (St * list Call)) : JS.completion A :=
  fst x.
Definition state_after {St A} (x : JS.completion A * (St * list Call)) : St :=
  fst (snd x).
Definition trace_after {St A} (x : JS.completion A * (St * list Call)) : list Call :=
  snd (snd x).

Declare Scope eff_scope.
Delimit Scope eff_scope with eff.
Notation "x <- m ;; k" := (bind m (fun x => k))
  (at level 61, m at next level, right associativity) : eff_scope.
Notation "m ;; k" := (bind m (fun _ => k))
  (at level 61, right associativity) : eff_scope.

(** The intervals that are running after a trace. *)
Fixpoint timers_after (running : list nat) (trace : list Call) : list nat :=
  match trace with
  | [] => running
  | SetInterval h :: trace' => timers_after (running ++ [h])%list trace'
  | ClearInterval h :: trace' =>
      timers_after (filter (fun k => negb (Nat.eqb k h)) running) trace'
  | _ :: trace' => timers_after running trace'
  end.

Definition timers (trace : list Call) : list nat := timers_after [] trace.

(** How many times [clearInterval] was called. *)
Definition cancellations (trace : list Call) : nat :=
  length (filter (fun c => match c with ClearInterval _ => true | _ => false end) trace).

(** [if (h)] on an interval handle held in state: [null] and [0] are
    falsy. *)
Definition truthy_handle (h : option nat) : bool :=
  match h with
  | Some (S _) => true
  | _ => false
  end.

(** [await response.json()] followed by the first array method the handler
    calls on the result: reading the method of [null] throws, and so does
    calling what another value that is no array has under that name. *)
Definition json_rows {St : Type} (method : string) (b : Body) : Eff St (list Slot) :=
  match b with
  | BadJson m => throw m
  | JsonNull => throw ("Cannot read properties of null (reading '" ++ method ++ "')")
  | NotArray => throw ("data." ++ method ++ " is not a function")
  | Rows rows => ret rows
  end.

(** ** Forms: the browser's constraint validation

    A form without [noValidate] is validated when it is submitted; the
    [submit] event, and so the [onSubmit] handler, is fired only if every
    control is valid. *)
Inductive InputType : Type := text | email_input | checkbox.

Record Input : Type := {
  input_type : InputType;
  required : bool;
  value : string
}.

Definition valueMissing (i : Input) : bool :=
  (required i && (value i =? ""))%bool%string.

Definition typeMismatch {P : Platform} (i : Input) : bool :=
  match input_type i with
  | email_input => (negb (value i =? "")%string && negb (emailSyntax (value i)))%bool
  | _ => false
  end.

Definition checkValidity {P : Platform} (form : list Input) : bool :=
  forallb (fun i => (negb (valueMissing i) && negb (typeMismatch i))%bool) form.

(** ** The backend revision (src/components/ClientInterface.jsx) *)

Module Backend.

Record UserInfo : Type := {
  firstName : string;
  lastName : string;
  email : string;
  isScholarship : bool
}.

Record State : Type := {
  availableSlots : list Slot;
  selectedSlot : option Slot;
  userInfo : UserInfo;
  bookingComplete : bool;
  isLoading : bool;
  errorMessage : string;
  refreshInterval : option nat
}.

(** The arguments of the [useState] calls. *)
Definition initialState : State := {|
  availableSlots := [];
  selectedSlot := None;
  userInfo := {| firstName := ""; lastName := ""; email := ""; isScholarship := false |};
  bookingComplete := false;
  isLoading := true;
  errorMessage := "";
  refreshInterval := None
|}.

(** The state with one field replaced, and the setters of [useState]. *)
Definition with_availableSlots (v : list Slot) (st : State) : State :=
  {| availableSlots := v; selectedSlot := selectedSlot st;
     userInfo := userInfo st; bookingComplete := bookingComplete st;
     isLoading := isLoading st; errorMessage := errorMessage st;
     refreshInterval := refreshInterval st |}.

Definition with_selectedSlot (v : option Slot) (st : State) : State :=
  {| availableSlots := availableSlots st; selectedSlot := v;
     userInfo := userInfo st; bookingComplete := bookingComplete st;
     isLoading := isLoading st; errorMessage := errorMessage st;
     refreshInterval := refreshInterval st |}.

Definition with_userInfo (v : UserInfo) (st : State) : State :=
  {| availableSlots := availableSlots st; selectedSlot := selectedSlot st;
     userInfo := v; bookingComplete := bookingComplete st;
     isLoading := isLoading st; errorMessage := errorMessage st;
     refreshInterval := refreshInterval st |}.

Definition with_bookingComplete (v : bool) (st : State) : State :=
  {| availableSlots := availableSlots st; selectedSlot := selectedSlot st;
     userInfo := userInfo st; bookingComplete := v;
     isLoading := isLoading st; errorMessage := errorMessage st;
     refreshInterval := refreshInterval st |}.

Definition with_isLoading (v : bool) (st : State) : State :=
  {| availableSlots := availableSlots st; selectedSlot := selectedSlot st;
     userInfo := userInfo st; bookingComplete := bookingComplete st;
     isLoading := v; errorMessage := errorMessage st;
     refreshInterval := refreshInterval st |}.

Definition with_errorMessage (v : string) (st : State) : State :=
  {| availableSlots := availableSlots st; selectedSlot := selectedSlot st;
     userInfo := userInfo st; bookingComplete := bookingComplete st;
     isLoading := isLoading st; errorMessage := v;
     refreshInterval := refreshInterval st |}.

Definition with_refreshInterval (v : option nat) (st : State) : State :=
  {| availableSlots := availableSlots st; selectedSlot := selectedSlot st;
     userInfo := userInfo st; bookingComplete := bookingComplete st;
     isLoading := isLoading st; errorMessage := errorMessage st;
     refreshInterval := v |}.

Definition setAvailableSlots (v : list Slot) : Eff State unit := set (with_availableSlots v).
Definition setSelectedSlot (v : option Slot) : Eff State unit := set (with_selectedSlot v).
Definition setUserInfo (v : UserInfo) : Eff State unit := set (with_userInfo v).
Definition setBookingComplete (v : bool) : Eff State unit := set (with_bookingComplete v).
Definition setIsLoading (v : bool) : Eff State unit := set (with_isLoading v).
Definition setErrorMessage (v : string) : Eff State unit := set (with_errorMessage v).
Definition setRefreshInterval (v : option nat) : Eff State unit := set (with_refreshInterval v).

Definition BACKEND_URL : string := "https://9507-140-209-96-104.ngrok-free.app".

Definition googleScriptUrl : string :=
  "https://script.google.com/macros/s/AKfycbxDd7vlYTXfnRCwdEziEF8zMwDdF5EshTcRMii_Lnv-hWH1AFqCLqU_5qgPFlHsNkNR5g/exec".

(** The [try] block of [fetchAvailableSlots] (lines 45-56). *)
Definition fetchAvailableSlots_try {P : Platform} (o : FetchOutcome) : Eff State unit :=
  (response <- fetch "GET" (BACKEND_URL ++ "/api/slots") [] o ;;
   if negb (fst response) then throw "Failed to fetch available slots"
   else
     data <- json_rows "sort" (snd response) ;;
     sorted <- lift (ArraySort.sort compareSlots data) ;;
     setAvailableSlots sorted)%eff.

(** What the [try] block comes to: the snapshot it stores, or the message
    of the error it throws ([refreshed_correct] relates the two). *)
Definition refreshed {P : Platform} (o : FetchOutcome) : JS.completion (list Slot) :=
  match o with
  | Rejected m => JS.Throw m
  | Response false _ => JS.Throw "Failed to fetch available slots"
  | Response true (BadJson m) => JS.Throw m
  | Response true JsonNull => JS.Throw "Cannot read properties of null (reading 'sort')"
  | Response true NotArray => JS.Throw "data.sort is not a function"
  | Response true (Rows rows) => ArraySort.sort compareSlots rows
  end.

(** [fetchAvailableSlots] (lines 40-64). *)
Definition fetchAvailableSlots {P : Platform} (showLoading : bool) (o : FetchOutcome)
  : Eff State unit :=
  (when showLoading (setIsLoading true) ;;
   try_finally
     (try_catch
        (fetchAvailableSlots_try o)
        (fun error => setErrorMessage ("Error loading available slots: " ++ error)))
     (when showLoading (setIsLoading false)))%eff.

(** [handleSelectSlot] (lines 111-113). *)
Definition handleSelectSlot (slot : Slot) : Eff State unit :=
  setSelectedSlot (Some slot).

(** [selectedSlot.<field>] in a render [r]: a [TypeError] on [null]. *)
Definition selected (r : State) (field : string) : Eff State Slot :=
  match selectedSlot r with
  | Some slot => ret slot
  | None => throw ("Cannot read properties of null (reading '" ++ field ++ "')")
  end.

(** [getDayOfWeek] and [getFormattedDate] (lines 95-108). *)
Definition getDayOfWeek (dateString : string) : Value :=
  VLocaleDate dateString [("weekday", "long")].

Definition getFormattedDate (dateString : string) : Value :=
  VLocaleDate dateString
    [("weekday", "long"); ("month", "long"); ("day", "numeric"); ("year", "numeric")].

(** The bodies of the two requests of [sendEmails] (lines 128-155), for
    the selected [slot] and the user of the render [r]. *)
Definition owner_body (r : State) (slot : Slot) : list (string * Value) :=
  [("type", VStr "owner");
   ("slot_date", getFormattedDate (date slot));
   ("slot_time", VStr (formatTimeToStandard (time slot)));
   ("client_name", VStr (firstName (userInfo r) ++ " " ++ lastName (userInfo r)));
   ("client_email", VStr (email (userInfo r)))].

Definition client_body (r : State) (slot : Slot) : list (string * Value) :=
  [("type", VStr "scholarship");
   ("first_name", VStr (firstName (userInfo r)));
   ("to_email", VStr (email (userInfo r)));
   ("day_of_week", getDayOfWeek (date slot));
   ("month", VLocaleDate (date slot) [("month", "long")]);
   ("day", VGetDate (date slot));
   ("time", VStr (formatTimeToStandard (time slot)))].

(** [sendEmails] (lines 116-162): the dates and the time are formatted
    before the [try]; the two requests share one [try]. *)
Definition sendEmails (r : State) (owner client : FetchOutcome) : Eff State bool :=
  (slot <- selected r "date" ;;
   try_catch
     (fetch "POST" googleScriptUrl (owner_body r slot) owner ;;
      fetch "POST" googleScriptUrl (client_body r slot) client ;;
      call (ConsoleLog "Emails sent successfully") ;;
      ret true)
     (fun error =>
        call (ConsoleError "Email sending failed:" error) ;;
        ret true))%eff.

(** The body of the booking request (lines 172-177). *)
Definition book_body (r : State) (slot : Slot) : list (string * Value) :=
  [("slotId", VStr (id slot));
   ("clientName", VStr (firstName (userInfo r) ++ " " ++ lastName (userInfo r)));
   ("clientEmail", VStr (email (userInfo r)));
   ("zoomOption", VStr (if isScholarship (userInfo r) then "Yes" else "No"))].

(** [handleBooking] (lines 165-197), in the render [r] whose form was
    submitted. *)
Definition handleBooking (r : State) (commit owner client : FetchOutcome)
  : Eff State unit :=
  (setIsLoading true ;;
   try_finally
     (try_catch
        (slot <- selected r "id" ;;
         response <- fetch "POST" (BACKEND_URL ++ "/api/book") (book_body r slot)
                           commit ;;
         if negb (fst response) then throw "Failed to book appointment"
         else
           sendEmails r owner client ;;
           when (truthy_handle (refreshInterval r))
                (match refreshInterval r with
                 | Some h => call (ClearInterval h)
                 | None => ret tt
                 end) ;;
           setBookingComplete true)
        (fun error => setErrorMessage ("Error booking appointment: " ++ error)))
     (setIsLoading false))%eff.

(** The calls of the handlers, named for the statements about traces. *)
Definition list_request : Call := Fetch "GET" (BACKEND_URL ++ "/api/slots") [].

Definition book_request (r : State) (slot : Slot) : Call :=
  Fetch "POST" (BACKEND_URL ++ "/api/book") (book_body r slot).

Definition owner_request (r : State) (slot : Slot) : Call :=
  Fetch "POST" googleScriptUrl (owner_body r slot).

Definition client_request (r : State) (slot : Slot) : Call :=
  Fetch "POST" googleScriptUrl (client_body r slot).

(** What [sendEmails] adds to the trace ([sendEmails_run]). *)
Definition notify_trace (r : State) (slot : Slot) (owner client : FetchOutcome)
  : list Call :=
  match owner, client with
  | Rejected m, _ =>
      [owner_request r slot; ConsoleError "Email sending failed:" m]
  | Response _ _, Rejected m =>
      [owner_request r slot; client_request r slot;
       ConsoleError "Email sending failed:" m]
  | Response _ _, Response _ _ =>
      [owner_request r slot; client_request r slot;
       ConsoleLog "Emails sent successfully"]
  end.

(** What the statement after [sendEmails] adds (lines 187-189). *)
Definition clear_trace (r : State) : list Call :=
  match refreshInterval r with
  | Some (S h) => [ClearInterval (S h)]
  | _ => []
  end.

(** The requests of a trace that go to the notification endpoint. *)
Definition notifications (trace : list Call) : list Call :=
  filter (fun c => match c with
                   | Fetch _ url _ => (url =? googleScriptUrl)%string
                   | _ => false
                   end) trace.

(** [groupSlotsByDate] (lines 83-92): the groups in order of first
    appearance, each with its slots in snapshot order.  The object
    [grouped] is modelled by the list of its entries.  This is the object of
    the code for dates that are not the name of a member inherited from
    [Object.prototype] (on such a key the look-up finds the inherited member
    and [push] throws, see [plain_key]); [Object.entries] lists keys that
    are array indices first, so the order of the list is that of the screen
    only when no date is one. *)
Fixpoint push_group (slot : Slot) (grouped : list (string * list Slot))
  : list (string * list Slot) :=
  match grouped with
  | [] => [(date slot, [slot])]
  | (d, slots) :: rest =>
      if (d =? date slot)%string then (d, (slots ++ [slot])%list) :: rest
      else (d, slots) :: push_group slot rest
  end.

Definition groupSlotsByDate (st : State) : list (string * list Slot) :=
  fold_left (fun grouped slot => push_group slot grouped) (availableSlots st) [].

(** The booking form (lines 337-396): three required controls and the
    check box. *)
Definition bookingForm (u : UserInfo) : list Input :=
  [ {| input_type := text; required := true; value := firstName u |};
    {| input_type := text; required := true; value := lastName u |};
    {| input_type := email_input; required := true; value := email u |};
    {| input_type := checkbox; required := false;
       value := if isScholarship u then "on" else "" |} ].

(** What the component returns (lines 199-401), by screen. *)
Inductive Screen : Type :=
| LoadingScreen
| ConfirmationScreen (slot : Slot) (user : UserInfo)
| ErrorScreen (message : string)
| NoSlotsScreen
| SlotListScreen (groups : list (string * list Slot))
| BookingFormScreen (slot : Slot) (form : list Input)
| RenderError.

Definition render (st : State) : Screen :=
  if (isLoading st && negb (bookingComplete st))%bool then LoadingScreen
  else if bookingComplete st then
    match selectedSlot st with
    | Some slot => ConfirmationScreen slot (userInfo st)
    | None => RenderError
    end
  else if negb (errorMessage st =? "")%string then ErrorScreen (errorMessage st)
  else if (length (availableSlots st) =? 0)%nat then NoSlotsScreen
  else match selectedSlot st with
       | None => SlotListScreen (groupSlotsByDate st)
       | Some slot => BookingFormScreen slot (bookingForm (userInfo st))
       end.

(** The slots the list screen offers as buttons. *)
Definition offered (st : State) : list Slot :=
  match render st with
  | SlotListScreen groups => flat_map snd groups
  | _ => []
  end.

(** Submitting the form of the render [r]: the browser validates the
    controls and fires [onSubmit] only when all are valid. *)
Definition submitForm {P : Platform} (r : State) (commit owner client : FetchOutcome)
  : Eff State unit :=
  if checkValidity (bookingForm (userInfo r))
  then handleBooking r commit owner client
  else ret tt.

(** The effect of lines 67-80, run once after the first render.  The first
    fetch is started, not awaited; its continuation touches other state
    than the two statements after it, so it is run to its end here. *)
Definition mountEffect {P : Platform} (first : FetchOutcome) : Eff State unit :=
  (fetchAvailableSlots true first ;;
   interval <- setInterval ;;
   setRefreshInterval (Some interval))%eff.

(** The clean-up the effect returns: a closure of the render [r] in which
    the effect ran. *)
Definition cleanupEffect (r : State) : Eff State unit :=
  when (truthy_handle (refreshInterval r))
       (match refreshInterval r with
        | Some h => call (ClearInterval h)
        | None => ret tt
        end).

(** *** The session: the mounted component and what reaches it *)

Record World : Type := {
  comp : State;
  mounted : bool;
  trace : list Call
}.

(** Running a handler: a setter of an unmounted component does nothing. *)
Definition exec (m : Eff State unit) (w : World) : World :=
  let '(_, (st, tr)) := m (comp w, trace w) in
  {| comp := if mounted w then st else comp w;
     mounted := mounted w;
     trace := tr |}.

Inductive Event : Type :=
| Tick (handle : nat) (o : FetchOutcome)
| SelectSlot (slot : Slot)
| ChangeSelection
| EditFirstName (v : string)
| EditLastName (v : string)
| EditEmail (v : string)
| EditIsScholarship (v : bool)
| Submit (commit owner client : FetchOutcome)
| Refresh (o : FetchOutcome)
| Unmount.

Definition slot_eqb (a b : Slot) : bool :=
  ((id a =? id b)%string && (date a =? date b)%string
   && match time a, time b with
      | Some x, Some y => (x =? y)%string
      | None, None => true
      | _, _ => false
      end
   && match status a, status b with
      | Some x, Some y => (x =? y)%string
      | None, None => true
      | _, _ => false
      end)%bool.

Definition on_form (st : State) : bool :=
  match render st with
  | BookingFormScreen _ _ => true
  | _ => false
  end.

Definition mount {P : Platform} (first : FetchOutcome) : World :=
  exec (mountEffect first) {| comp := initialState; mounted := true; trace := [] |}.

(** One event; [None] when the screen does not offer it, or the interval
    is not running.  The clean-up is the closure of the first render:
    the effect has no dependencies and runs in that render only.  (The
    button of the error screen reloads the page: that ends the session and
    is no event of it.)  A handler is run to its end within its event; a
    response that arrives after other events is the subject of [step_late]
    below. *)
Definition step {P : Platform} (w : World) (e : Event) : option World :=
  let st := comp w in
  match e with
  | Tick h o =>
      if existsb (Nat.eqb h) (timers (trace w))
      then Some (exec (fetchAvailableSlots false o) w) else None
  | SelectSlot slot =>
      if (mounted w && existsb (slot_eqb slot) (offered st))%bool
      then Some (exec (handleSelectSlot slot) w) else None
  | ChangeSelection =>
      if (mounted w && on_form st)%bool
      then Some (exec (setSelectedSlot None) w) else None
  | EditFirstName v =>
      if (mounted w && on_form st)%bool
      then Some (exec (setUserInfo {| firstName := v;
                                      lastName := lastName (userInfo st);
                                      email := email (userInfo st);
                                      isScholarship := isScholarship (userInfo st) |}) w)
      else None
  | EditLastName v =>
      if (mounted w && on_form st)%bool
      then Some (exec (setUserInfo {| firstName := firstName (userInfo st);
                                      lastName := v;
                                      email := email (userInfo st);
                                      isScholarship := isScholarship (userInfo st) |}) w)
      else None
  | EditEmail v =>
      if (mounted w && on_form st)%bool
      then Some (exec (setUserInfo {| firstName := firstName (userInfo st);
                                      lastName := lastName (userInfo st);
                                      email := v;
                                      isScholarship := isScholarship (userInfo st) |}) w)
      else None
  | EditIsScholarship v =>
      if (mounted w && on_form st)%bool
      then Some (exec (setUserInfo {| firstName := firstName (userInfo st);
                                      lastName := lastName (userInfo st);
                                      email := email (userInfo st);
                                      isScholarship := v |}) w)
      else None
  | Submit commit owner client =>
      if (mounted w && on_form st)%bool
      then Some (exec (submitForm st commit owner client) w) else None
  | Refresh o =>
      if (mounted w && match render st with NoSlotsScreen => true | _ => false end)%bool
      then Some (exec (fetchAvailableSlots true o) w) else None
  | Unmount =>
      if mounted w
      then let w' := exec (cleanupEffect initialState) w in
           Some {| comp := comp w'; mounted := false; trace := trace w' |}
      else None
  end.

Fixpoint run {P : Platform} (w : World) (events : list Event) : option World :=
  match events with
  | [] => Some w
  | e :: events' =>
      match step w e with
      | Some w' => run w' events'
      | None => None
      end
  end.

(** *** Responses that arrive late

    [step] runs a refresh to its end.  In the component the refresh awaits
    its response, and other events may be handled first.  What runs when
    the response arrives is the rest of [fetchAvailableSlots] after
    [await fetch] (lines 46-62): it sends nothing, and writes through the
    setters. *)
Definition fetchAvailableSlots_settle {P : Platform} (showLoading : bool)
           (o : FetchOutcome) : Eff State unit :=
  try_finally
    (try_catch
       (response <- match o with
                    | Rejected m => throw m
                    | Response ok b => ret (ok, b)
                    end ;;
        if negb (fst response) then throw "Failed to fetch available slots"
        else
          data <- json_rows "sort" (snd response) ;;
          sorted <- lift (ArraySort.sort compareSlots data) ;;
          setAvailableSlots sorted)%eff
       (fun error => setErrorMessage ("Error loading available slots: " ++ error)))
    (when showLoading (setIsLoading false)).

(** What reaches the component: an event of the session, or the response
    of a refresh that was sent earlier. *)
Inductive Occurrence : Type :=
| Occurs (e : Event)
| Settles (showLoading : bool) (o : FetchOutcome).

Definition step_late {P : Platform} (w : World) (x : Occurrence) : option World :=
  match x with
  | Occurs e => step w e
  | Settles showLoading o => Some (exec (fetchAvailableSlots_settle showLoading o) w)
  end.

Fixpoint run_late {P : Platform} (w : World) (xs : list Occurrence) : option World :=
  match xs with
  | [] => Some w
  | x :: xs' =>
      match step_late w x with
      | Some w' => run_late w' xs'
      | None => None
      end
  end.

End Backend.

(** ** The SheetDB revision

    The component is mounted on a route that may carry a [sheetId]
    ([useParams]); the handlers below are those of a render with that
    parameter. *)

Module SheetDB.

Record UserInfo : Type := {
  firstName : string;
  lastName : string;
  email : string
}.

Record State : Type := {
  availableSlots : list Slot;
  selectedSlot : option Slot;
  userInfo : UserInfo;
  bookingComplete : bool;
  isLoading : bool;
  errorMessage : string;
  refreshInterval : option nat
}.

Definition initialState : State := {|
  availableSlots := [];
  selectedSlot := None;
  userInfo := {| firstName := ""; lastName := ""; email := "" |};
  bookingComplete := false;
  isLoading := true;
  errorMessage := "";
  refreshInterval := None
|}.

(** The state with one field replaced, and the setters of [useState]. *)
Definition with_availableSlots (v : list Slot) (st : State) : State :=
  {| availableSlots := v; selectedSlot := selectedSlot st;
     userInfo := userInfo st; bookingComplete := bookingComplete st;
     isLoading := isLoading st; errorMessage := errorMessage st;
     refreshInterval := refreshInterval st |}.

Definition with_selectedSlot (v : option Slot) (st : State) : State :=
  {| availableSlots := availableSlots st; selectedSlot := v;
     userInfo := userInfo st; bookingComplete := bookingComplete st;
     isLoading := isLoading st; errorMessage := errorMessage st;
     refreshInterval := refreshInterval st |}.

Definition with_userInfo (v : UserInfo) (st : State) : State :=
  {| availableSlots := availableSlots st; selectedSlot := selectedSlot st;
     userInfo := v; bookingComplete := bookingComplete st;
     isLoading := isLoading st; errorMessage := errorMessage st;
     refreshInterval := refreshInterval st |}.

Definition with_bookingComplete (v : bool) (st : State) : State :=
  {| availableSlots := availableSlots st; selectedSlot := selectedSlot st;
     userInfo := userInfo st; bookingComplete := v;
     isLoading := isLoading st; errorMessage := errorMessage st;
     refreshInterval := refreshInterval st |}.

Definition with_isLoading (v : bool) (st : State) : State :=
  {| availableSlots := availableSlots st; selectedSlot := selectedSlot st;
     userInfo := userInfo st; bookingComplete := bookingComplete st;
     isLoading := v; errorMessage := errorMessage st;
     refreshInterval := refreshInterval st |}.

Definition with_errorMessage (v : string) (st : State) : State :=
  {| availableSlots := availableSlots st; selectedSlot := selectedSlot st;
     userInfo := userInfo st; bookingComplete := bookingComplete st;
     isLoading := isLoading st; errorMessage := v;
     refreshInterval := refreshInterval st |}.

Definition with_refreshInterval (v : option nat) (st : State) : State :=
  {| availableSlots := availableSlots st; selectedSlot := selectedSlot st;
     userInfo := userInfo st; bookingComplete := bookingComplete st;
     isLoading := isLoading st; errorMessage := errorMessage st;
     refreshInterval := v |}.

Definition setAvailableSlots (v : list Slot) : Eff State unit := set (with_availableSlots v).
Definition setSelectedSlot (v : option Slot) : Eff State unit := set (with_selectedSlot v).
Definition setUserInfo (v : UserInfo) : Eff State unit := set (with_userInfo v).
Definition setBookingComplete (v : bool) : Eff State unit := set (with_bookingComplete v).
Definition setIsLoading (v : bool) : Eff State unit := set (with_isLoading v).
Definition setErrorMessage (v : string) : Eff State unit := set (with_errorMessage v).
Definition setRefreshInterval (v : option nat) : Eff State unit := set (with_refreshInterval v).

Definition sheet_url (sheetId : option string) : string :=
  "https://sheetdb.io/api/v1/" ++ JS.ToString sheetId.

(** [slot.status === 'Available']. *)
Definition is_available (slot : Slot) : bool :=
  match status slot with
  | Some s => (s =? "Available")%string
  | None => false
  end.

(** The [try] block of [fetchAvailableSlots] (lines 47-65). *)
Definition fetchAvailableSlots_try {P : Platform} (sheetId : option string)
           (o : FetchOutcome) : Eff State unit :=
  (response <- fetch "GET" (sheet_url sheetId) [] o ;;
   if negb (fst response) then throw "Failed to fetch available slots"
   else
     data <- json_rows "filter" (snd response) ;;
     let availableSlots := filter is_available data in
     sorted <- lift (ArraySort.sort compareSlots availableSlots) ;;
     setAvailableSlots sorted)%eff.

(** What the [try] block comes to: the snapshot it stores, or the message
    of the error it throws ([refreshed_correct] relates the two). *)
Definition refreshed {P : Platform} (o : FetchOutcome) : JS.completion (list Slot) :=
  match o with
  | Rejected m => JS.Throw m
  | Response false _ => JS.Throw "Failed to fetch available slots"
  | Response true (BadJson m) => JS.Throw m
  | Response true JsonNull => JS.Throw "Cannot read properties of null (reading 'filter')"
  | Response true NotArray => JS.Throw "data.filter is not a function"
  | Response true (Rows rows) => ArraySort.sort compareSlots (filter is_available rows)
  end.

(** [fetchAvailableSlots] (lines 41-73). *)
Definition fetchAvailableSlots {P : Platform} (sheetId : option string)
           (showLoading : bool) (o : FetchOutcome) : Eff State unit :=
  (when showLoading (setIsLoading true) ;;
   try_finally
     (try_catch
        (fetchAvailableSlots_try sheetId o)
        (fun error => setErrorMessage ("Error loading available slots: " ++ error)))
     (when showLoading (setIsLoading false)))%eff.

(** [handleSelectSlot] (lines 76-78). *)
Definition handleSelectSlot (slot : Slot) : Eff State unit :=
  setSelectedSlot (Some slot).

Definition selected (r : State) (field : string) : Eff State Slot :=
  match selectedSlot r with
  | Some slot => ret slot
  | None => throw ("Cannot read properties of null (reading '" ++ field ++ "')")
  end.

Definition operator_address : string := "kevincordero11.KC@gmail.com".

(** [await emailjs.send(...)]. *)
Definition emailjs_send (template : string) (params : list (string * Value))
           (o : SendOutcome) : Eff State unit :=
  (call (EmailJS "service_qy1a7to" template params "n0fNHhb_WeOrB2Zw1") ;;
   match o with
   | Sent => ret tt
   | SendFailed m => throw m
   end)%eff.

(** The parameters of the two sends of [sendEmails] (lines 129-148). *)
Definition owner_params (r : State) (slot : Slot) : list (string * Value) :=
  [("slot_date", VStr (date slot));
   ("slot_time", VField (time slot));
   ("client_name", VStr (firstName (userInfo r) ++ " " ++ lastName (userInfo r)));
   ("client_email", VStr (email (userInfo r)));
   ("to_email", VStr operator_address)].

Definition client_params (r : State) (slot : Slot) : list (string * Value) :=
  [("slot_date", VStr (date slot));
   ("slot_time", VField (time slot));
   ("client_name", VStr (firstName (userInfo r)));
   ("to_email", VStr (email (userInfo r)))].

(** [sendEmails] (lines 123-155): the two sends share one [try]. *)
Definition sendEmails (r : State) (owner client : SendOutcome) : Eff State unit :=
  try_catch
    (slot <- selected r "date" ;;
     emailjs_send "template_rigyyhj" (owner_params r slot) owner ;;
     emailjs_send "template_uj3y5pd" (client_params r slot) client)%eff
    (fun error => call (ConsoleError "Email sending failed:" error)).

(** The body of the booking request (lines 92-99). *)
Definition book_body (r : State) : list (string * Value) :=
  [("data",
    VObject
      [("status", VStr "Booked");
       ("client_name", VStr (firstName (userInfo r) ++ " " ++ lastName (userInfo r)));
       ("client_email", VStr (email (userInfo r)));
       ("booking_date", VToday)])].

(** [handleBooking] (lines 81-120), in the render [r] whose form was
    submitted. *)
Definition handleBooking (sheetId : option string) (r : State)
           (commit : FetchOutcome) (owner client : SendOutcome) : Eff State unit :=
  (setIsLoading true ;;
   try_finally
     (try_catch
        (slot <- selected r "id" ;;
         response <- fetch "PATCH" (sheet_url sheetId ++ "/id/" ++ id slot)
                           (book_body r) commit ;;
         if negb (fst response) then throw "Failed to book appointment"
         else
           sendEmails r owner client ;;
           when (truthy_handle (refreshInterval r))
                (match refreshInterval r with
                 | Some h => call (ClearInterval h)
                 | None => ret tt
                 end) ;;
           setBookingComplete true)
        (fun error => setErrorMessage ("Error booking appointment: " ++ error)))
     (setIsLoading false))%eff.

(** The calls of the handlers, named for the statements about traces. *)
Definition list_request (sheetId : option string) : Call :=
  Fetch "GET" (sheet_url sheetId) [].

Definition book_request (sheetId : option string) (r : State) (slot : Slot) : Call :=
  Fetch "PATCH" (sheet_url sheetId ++ "/id/" ++ id slot) (book_body r).

Definition owner_request (r : State) (slot : Slot) : Call :=
  EmailJS "service_qy1a7to" "template_rigyyhj" (owner_params r slot) "n0fNHhb_WeOrB2Zw1".

Definition client_request (r : State) (slot : Slot) : Call :=
  EmailJS "service_qy1a7to" "template_uj3y5pd" (client_params r slot) "n0fNHhb_WeOrB2Zw1".

(** What [sendEmails] adds to the trace ([sendEmails_run]). *)
Definition notify_trace (r : State) (slot : Slot) (owner client : SendOutcome)
  : list Call :=
  match owner, client with
  | SendFailed m, _ =>
      [owner_request r slot; ConsoleError "Email sending failed:" m]
  | Sent, SendFailed m =>
      [owner_request r slot; client_request r slot;
       ConsoleError "Email sending failed:" m]
  | Sent, Sent =>
      [owner_request r slot; client_request r slot]
  end.

(** What the statement after [sendEmails] adds (lines 110-112). *)
Definition clear_trace (r : State) : list Call :=
  match refreshInterval r with
  | Some (S h) => [ClearInterval (S h)]
  | _ => []
  end.

(** The sends of a trace. *)
Definition notifications (trace : list Call) : list Call :=
  filter (fun c => match c with
                   | EmailJS _ _ _ _ => true
                   | _ => false
                   end) trace.

(** [groupSlotsByDate] (lines 158-167). *)
Fixpoint push_group (slot : Slot) (grouped : list (string * list Slot))
  : list (string * list Slot) :=
  match grouped with
  | [] => [(date slot, [slot])]
  | (d, slots) :: rest =>
      if (d =? date slot)%string then (d, (slots ++ [slot])%list) :: rest
      else (d, slots) :: push_group slot rest
  end.

Definition groupSlotsByDate (st : State) : list (string * list Slot) :=
  fold_left (fun grouped slot => push_group slot grouped) (availableSlots st) [].

(** The booking form (lines 248-288): three required controls. *)
Definition bookingForm (u : UserInfo) : list Input :=
  [ {| input_type := text; required := true; value := firstName u |};
    {| input_type := text; required := true; value := lastName u |};
    {| input_type := email_input; required := true; value := email u |} ].

(** What the component returns (lines 169-296).  The main screen shows the
    error message, if any, above its panel. *)
Inductive Panel : Type :=
| SlotListPanel (groups : list (string * list Slot))
| NoSlotsPanel
| BookingFormPanel (slot : Slot) (form : list Input).

Inductive Screen : Type :=
| LoadingScreen
| ConfirmationScreen (slot : Slot) (user : UserInfo)
| MainScreen (banner : option string) (panel : Panel)
| RenderError.

Definition render (st : State) : Screen :=
  if (isLoading st && negb (bookingComplete st))%bool then LoadingScreen
  else if bookingComplete st then
    match selectedSlot st with
    | Some slot => ConfirmationScreen slot (userInfo st)
    | None => RenderError
    end
  else
    MainScreen
      (if (errorMessage st =? "")%string then None else Some (errorMessage st))
      (match selectedSlot st with
       | None =>
           if (0 <? length (availableSlots st))%nat
           then SlotListPanel (groupSlotsByDate st)
           else NoSlotsPanel
       | Some slot => BookingFormPanel slot (bookingForm (userInfo st))
       end).

(** The slots the list panel offers as buttons. *)
Definition offered (st : State) : list Slot :=
  match render st with
  | MainScreen _ (SlotListPanel groups) => flat_map snd groups
  | _ => []
  end.

(** [if (sheetId)]: a missing or empty parameter is falsy. *)
Definition has_sheetId (sheetId : option string) : bool :=
  match sheetId with
  | Some (String _ _) => true
  | _ => false
  end.

(** The effect of lines 17-38, run after the first render. *)
Definition mountEffect {P : Platform} (sheetId : option string) (first : FetchOutcome)
  : Eff State unit :=
  if has_sheetId sheetId then
    (fetchAvailableSlots sheetId true first ;;
     interval <- setInterval ;;
     setRefreshInterval (Some interval))%eff
  else
    (setIsLoading false ;;
     setErrorMessage "No sheet ID provided. Please use the correct booking link.")%eff.

(** The clean-up the effect returns: a closure of the render [r] in which
    the effect ran. *)
Definition cleanupEffect (r : State) : Eff State unit :=
  when (truthy_handle (refreshInterval r))
       (match refreshInterval r with
        | Some h => call (ClearInterval h)
        | None => ret tt
        end).

(** Submitting the form of the render [r]: the browser validates the
    controls and fires [onSubmit] only when all are valid. *)
Definition submitForm {P : Platform} (sheetId : option string) (r : State)
           (commit : FetchOutcome) (owner client : SendOutcome) : Eff State unit :=
  if checkValidity (bookingForm (userInfo r))
  then handleBooking sheetId r commit owner client
  else ret tt.

(** *** The session, for a route with the parameter [sheetId] *)

Record World : Type := {
  comp : State;
  mounted : bool;
  trace : list Call
}.

(** Running a handler: a setter of an unmounted component does nothing. *)
Definition exec (m : Eff State unit) (w : World) : World :=
  let '(_, (st, tr)) := m (comp w, trace w) in
  {| comp := if mounted w then st else comp w;
     mounted := mounted w;
     trace := tr |}.

Inductive Event : Type :=
| Tick (handle : nat) (o : FetchOutcome)
| SelectSlot (slot : Slot)
| ChangeSelection
| EditFirstName (v : string)
| EditLastName (v : string)
| EditEmail (v : string)
| Submit (commit : FetchOutcome) (owner client : SendOutcome)
| Unmount.

Definition on_form (st : State) : bool :=
  match render st with
  | MainScreen _ (BookingFormPanel _ _) => true
  | _ => false
  end.

Definition mount {P : Platform} (sheetId : option string) (first : FetchOutcome) : World :=
  exec (mountEffect sheetId first) {| comp := initialState; mounted := true; trace := [] |}.

(** One event; [None] when the screen does not offer it, or the interval
    is not running.  The effect depends on [sheetId] only, which does not
    change in the session, so the clean-up is the closure of the first
    render; without a [sheetId] the effect returns no clean-up. *)
Definition step {P : Platform} (sheetId : option string) (w : World) (e : Event)
  : option World :=
  let st := comp w in
  match e with
  | Tick h o =>
      if existsb (Nat.eqb h) (timers (trace w))
      then Some (exec (fetchAvailableSlots sheetId false o) w) else None
  | SelectSlot slot =>
      if (mounted w && existsb (Backend.slot_eqb slot) (offered st))%bool
      then Some (exec (handleSelectSlot slot) w) else None
  | ChangeSelection =>
      if (mounted w && on_form st)%bool
      then Some (exec (setSelectedSlot None) w) else None
  | EditFirstName v =>
      if (mounted w && on_form st)%bool
      then Some (exec (setUserInfo {| firstName := v;
                                      lastName := lastName (userInfo st);
                                      email := email (userInfo st) |}) w)
      else None
  | EditLastName v =>
      if (mounted w && on_form st)%bool
      then Some (exec (setUserInfo {| firstName := firstName (userInfo st);
                                      lastName := v;
                                      email := email (userInfo st) |}) w)
      else None
  | EditEmail v =>
      if (mounted w && on_form st)%bool
      then Some (exec (setUserInfo {| firstName := firstName (userInfo st);
                                      lastName := lastName (userInfo st);
                                      email := v |}) w)
      else None
  | Submit commit owner client =>
      if (mounted w && on_form st)%bool
      then Some (exec (submitForm sheetId st commit owner client) w) else None
  | Unmount =>
      if mounted w
      then let w' := if has_sheetId sheetId
                     then exec (cleanupEffect initialState) w else w in
           Some {| comp := comp w'; mounted := false; trace := trace w' |}
      else None
  end.

Fixpoint run {P : Platform} (sheetId : option string) (w : World) (events : list Event)
  : option World :=
  match events with
  | [] => Some w
  | e :: events' =>
      match step sheetId w e with
      | Some w' => run sheetId w' events'
      | None => None
      end
  end.

End SheetDB.

(** ** A concrete platform, for the examples

    [Engine] fixes the three built-ins on the inputs the examples use:
    - dates in the date-only ISO form [YYYY-MM-DD], read as UTC midnight (the
      one form the standard fixes); any other string is an invalid date here;
    - collation in the root order on ASCII, as the engines built on ICU give
      it in the default locale: punctuation before digits before letters,
      letters compared without case first, and lower case before upper case
      among strings that are otherwise equal;
    - the e-mail syntax of the HTML standard. *)
Module Engine.

Definition digit2 (a b : ascii) : option Z :=
  match JS.digit_of a, JS.digit_of b with
  | Some x, Some y => Some (10 * x + y)
  | _, _ => None
  end.

Definition is_leap (y : Z) : bool :=
  ((y mod 4 =? 0) && (negb (y mod 100 =? 0) || (y mod 400 =? 0)))%bool.

Definition days_in_month (y m : Z) : Z :=
  if m =? 2 then (if is_leap y then 29 else 28)
  else if ((m =? 4) || (m =? 6) || (m =? 9) || (m =? 11))%bool then 30
  else 31.

(** Days from 1970-01-01 to the civil date [y-m-d]. *)
Definition days_from_civil (y m d : Z) : Z :=
  let y' := if m <=? 2 then y - 1 else y in
  let era := y' / 400 in
  let yoe := y' - era * 400 in
  let doy := (153 * (if 2 <? m then m - 3 else m + 9) + 2) / 5 + d - 1 in
  let doe := yoe * 365 + yoe / 4 - yoe / 100 + doy in
  era * 146097 + doe - 719468.

Definition Date_value (s : string) : JS.number :=
  match s with
  | String y1 (String y2 (String y3 (String y4 (String "-"
      (String m1 (String m2 (String "-" (String d1 (String d2 EmptyString))))))))) =>
      match digit2 y1 y2, digit2 y3 y4, digit2 m1 m2, digit2 d1 d2 with
      | Some yh, Some yl, Some m, Some d =>
          let y := 100 * yh + yl in
          if ((1 <=? m) && (m <=? 12) && (1 <=? d) && (d <=? days_in_month y m))%bool
          then JS.Int (days_from_civil y m d * 86400000)
          else JS.NaN
      | _, _, _, _ => JS.NaN
      end
  | _ => JS.NaN
  end.

(** The root order of the ASCII white space, punctuation, symbols and
    digits, by character code. *)
Definition root_order : list nat :=
  [9; 10; 11; 12; 13; 32;
   95; 45; 44; 59; 58; 33; 63; 46; 39; 34; 40; 41; 91; 93; 123; 125;
   64; 42; 47; 92; 38; 35; 37;
   96; 94; 43; 60; 61; 62; 124; 126;
   36;
   48; 49; 50; 51; 52; 53; 54; 55; 56; 57]%nat.

Fixpoint position (n : nat) (l : list nat) : option nat :=
  match l with
  | [] => None
  | k :: l' => if Nat.eqb k n then Some 1%nat
               else option_map S (position n l')
  end.

(** The primary weight of a character: [0] for a control character, which
    collation ignores. *)
Definition primary (c : ascii) : nat :=
  let n := nat_of_ascii c in
  if (Nat.leb 97 n && Nat.leb n 122)%bool then (100 + (n - 97))%nat
  else if (Nat.leb 65 n && Nat.leb n 90)%bool then (100 + (n - 65))%nat
  else if Nat.leb 128 n then (200 + n)%nat
  else match position n root_order with
       | Some k => k
       | None => 0%nat
       end.

(** The case weight: lower case first. *)
Definition tertiary (c : ascii) : nat :=
  let n := nat_of_ascii c in
  if (Nat.leb 65 n && Nat.leb n 90)%bool then 2%nat else 1%nat.

Fixpoint weights (w : ascii -> nat) (s : string) : list nat :=
  match s with
  | EmptyString => []
  | String c s' =>
      if Nat.eqb (primary c) 0 then weights w s' else w c :: weights w s'
  end.

(** The sort key: the primary weights, a separator, the case weights. *)
Definition sort_key (s : string) : list nat :=
  (weights primary s ++ [0%nat] ++ weights tertiary s)%list.

Definition localeCompare (a b : string) : Z :=
  match list_compare Nat.compare (sort_key a) (sort_key b) with
  | Lt => -1
  | Eq => 0
  | Gt => 1
  end.

Definition is_alnum (c : ascii) : bool :=
  let n := nat_of_ascii c in
  ((Nat.leb 48 n && Nat.leb n 57) || (Nat.leb 65 n && Nat.leb n 90)
   || (Nat.leb 97 n && Nat.leb n 122))%bool.

(** The characters of the local part, besides letters and digits:
    [.!#$%&'*+/=?^_`{|}~-]. *)
Definition is_atext (c : ascii) : bool :=
  (is_alnum c
   || existsb (Nat.eqb (nat_of_ascii c))
        [46; 33; 35; 36; 37; 38; 39; 42; 43; 47; 61; 63; 94; 95; 96; 123; 124; 125; 126; 45]%nat)%bool.

Fixpoint all_chars (p : ascii -> bool) (s : string) : bool :=
  match s with
  | EmptyString => true
  | String c s' => (p c && all_chars p s')%bool
  end.

Fixpoint last_char (s : string) : option ascii :=
  match s with
  | EmptyString => None
  | String c EmptyString => Some c
  | String _ s' => last_char s'
  end.

(** A label of the domain: one to sixty-three letters, digits or hyphens,
    the first and the last not a hyphen. *)
Definition is_label (s : string) : bool :=
  match s, last_char s with
  | String c _, Some d =>
      (is_alnum c && is_alnum d
       && all_chars (fun x => (is_alnum x || Ascii.eqb x "-")%bool) s
       && Nat.leb (String.length s) 63)%bool
  | _, _ => false
  end.

Definition emailSyntax (s : string) : bool :=
  match JS.split "@" s with
  | [local; domain] =>
      (negb (local =? "")%string && all_chars is_atext local
       && forallb is_label (JS.split "." domain))%bool
  | _ => false
  end.

End Engine.

#[global] Instance Engine_platform : Platform := {|
  Date_value := Engine.Date_value;
  localeCompare := Engine.localeCompare;
  emailSyntax := Engine.emailSyntax
|}.

(** The order the comparator induces on rows that have a valid date and a
    time: by time value, then by collation of the times. *)
Definition before {P : Platform} (a b : Slot) : Prop :=
  match Date_value (date a), Date_value (date b), time a, time b with
  | JS.Int x, JS.Int y, Some s, Some t => x < y \/ (x = y /\ localeCompare s t <= 0)
  | _, _, _, _ => False
  end.

(** A row the comparator is consistent on. *)
Definition well_formed {P : Platform} (a : Slot) : Prop :=
  (exists x, Date_value (date a) = JS.Int x) /\ (exists s, time a = Some s).

(** Two rows the comparator does not tell apart. *)
Definition tied {P : Platform} (a b : Slot) : bool :=
  match compareSlots a b with
  | JS.Normal v => ArraySort.SortCompare v =? 0
  | JS.Throw _ => false
  end.

(** ** The order of the specification

    The order as the specification words it, to compare with [before], the
    order of the comparator: dates ascending, and among equal dates the times
    ascending in the lexicographic order of their characters
    ([String.compare]). *)
Definition lexicographic_before {P : Platform} (a b : Slot) : Prop :=
  match Date_value (date a), Date_value (date b), time a, time b with
  | JS.Int x, JS.Int y, Some s, Some t => x < y \/ (x = y /\ String.compare s t <> Gt)
  | _, _, _, _ => False
  end.

(** ** Messages, example data and the invariant of a session *)

Definition refresh_error (m : string) : string := "Error loading available slots: " ++ m.

Definition booking_error (m : string) : string := "Error booking appointment: " ++ m.

(** The rows used in the examples. *)
Definition slot_0900 : Slot :=
  {| id := "1"; date := "2024-05-01"; time := Some "09:00"; status := Some "Available" |}.
Definition slot_1430 : Slot :=
  {| id := "2"; date := "2024-05-01"; time := Some "14:30"; status := Some "Available" |}.
Definition slot_next_day : Slot :=
  {| id := "3"; date := "2024-05-02"; time := Some "08:00"; status := Some "Available" |}.
Definition slot_booked : Slot :=
  {| id := "4"; date := "2024-05-01"; time := Some "10:00"; status := Some "Booked" |}.

(** Two times on one day that differ in case, and a row whose
    date does not parse. *)
Definition slot_9am : Slot :=
  {| id := "5"; date := "2024-05-01"; time := Some "9:00 am"; status := Some "Available" |}.
Definition slot_9PM : Slot :=
  {| id := "6"; date := "2024-05-01"; time := Some "9:00 PM"; status := Some "Available" |}.
Definition slot_no_date : Slot :=
  {| id := "7"; date := "tomorrow"; time := Some "09:00"; status := Some "Available" |}.

(** Two rows at the same date and time. *)
Definition slot_0900_first : Slot :=
  {| id := "8"; date := "2024-05-01"; time := Some "09:00"; status := None |}.
Definition slot_0900_second : Slot :=
  {| id := "9"; date := "2024-05-01"; time := Some "09:00"; status := None |}.

(** A state of the backend revision in which the form is displayed. *)
Definition filling_form : Backend.State :=
  {| Backend.availableSlots := [slot_0900; slot_1430];
     Backend.selectedSlot := Some slot_0900;
     Backend.userInfo := {| Backend.firstName := "Ana"; Backend.lastName := "Lee";
                            Backend.email := "a@x.com"; Backend.isScholarship := false |};
     Backend.bookingComplete := false;
     Backend.isLoading := false;
     Backend.errorMessage := "";
     Backend.refreshInterval := Some 1%nat |}.

(** The form of [filling_form] with the last name erased. *)
Definition missing_last_name : Backend.State :=
  Backend.with_userInfo
    {| Backend.firstName := "Ana"; Backend.lastName := "";
       Backend.email := "a@x.com"; Backend.isScholarship := false |}
    filling_form.

(** [filling_form] with the preference ticked. *)
Definition filling_form_zoom : Backend.State :=
  Backend.with_userInfo
    {| Backend.firstName := "Ana"; Backend.lastName := "Lee";
       Backend.email := "a@x.com"; Backend.isScholarship := true |}
    filling_form.

(** A state of the backend revision in which the list is displayed. *)
Definition browsing : Backend.State := Backend.with_selectedSlot None filling_form.

(** The invariant of a session: the handle in state is that of the one
    interval ever set; the interval runs until the booking is complete,
    and [clearInterval] is called once, then. *)
Definition session_inv (w : Backend.World) : Prop :=
  Backend.refreshInterval (Backend.comp w) = Some 1%nat
  /\ timers (Backend.trace w)
     = (if Backend.bookingComplete (Backend.comp w) then [] else [1%nat])
  /\ cancellations (Backend.trace w)
     = (if Backend.bookingComplete (Backend.comp w) then 1%nat else 0%nat).

(** ** Notions for the statements on [formatTimeToStandard] *)

(** Whether [s] holds the character [c]. *)
Fixpoint has_char (c : ascii) (s : string) : bool :=
  match s with
  | EmptyString => false
  | String d s' => (Ascii.eqb d c || has_char c s')%bool
  end.

(** The test of line 29: the time reads AM or PM, in any case. *)
Definition reads_am_pm (t : string) : bool :=
  (JS.includes (JS.toUpperCase t) "AM" || JS.includes (JS.toUpperCase t) "PM")%bool.

(** The hour of the twelve-hour clock for the hour [h] of the day. *)
Definition twelve_hour (h : Z) : Z :=
  if h mod 12 =? 0 then 12 else h mod 12.


(** ** Notions for the statements on [groupSlotsByDate] *)

(** The slots of the date [d]. *)
Definition same_date (d : string) (s : Slot) : bool := (date s =? d)%string.

(** What holds of the groups [g] built from the slots [l]: each group is
    the slots of its date, in the order of [l], and is not empty; no date
    has two groups; every slot has its group. *)
Definition grouped_inv (g : list (string * list Slot)) (l : list Slot) : Prop :=
  (forall d slots, In (d, slots) g -> slots <> [] /\ slots = filter (same_date d) l)
  /\ NoDup (map fst g)
  /\ (forall s, In s l -> In (date s) (map fst g)).

(** The selection is there whenever the booking is complete. *)
Definition selection_inv (w : Backend.World) : Prop :=
  Backend.bookingComplete (Backend.comp w) = true ->
  Backend.selectedSlot (Backend.comp w) <> None.

(** The events of a booking by Ana Lee, with the outcomes of the commit and
    of the two notifications. *)
Definition booking_events (commit owner client : FetchOutcome) : list Backend.Event :=
  [Backend.SelectSlot slot_0900;
   Backend.EditFirstName "Ana"; Backend.EditLastName "Lee";
   Backend.EditEmail "a@x.com";
   Backend.Submit commit owner client].

Definition one_slot : FetchOutcome := Response true (Rows [slot_0900]).

(** The world after that booking, when the commit and both notifications
    succeed. *)
Definition booked_world : Backend.World :=
  Eval vm_compute in
    match Backend.run (Backend.mount one_slot)
                      (booking_events (Response true NotArray) one_slot one_slot) with
    | Some w => w
    | None => Backend.mount one_slot
    end.

(** After that booking: the response of a refresh that was in flight
    arrives, a failure; then the component is unmounted. *)
Definition late_arrivals : list Backend.Occurrence :=
  [Backend.Settles false (Rejected "Failed to fetch"); Backend.Occurs Backend.Unmount].

Definition after_late : Backend.World :=
  Eval vm_compute in
    match Backend.run_late booked_world late_arrivals with
    | Some w => w
    | None => booked_world
    end.

(** The message of the [TypeError] thrown by [selectedSlot.id] when nothing
    is selected. *)
Definition TypeError_no_selection : string :=
  "Cannot read properties of null (reading 'id')".

(** A row with the date value [d] and no time. *)
Definition timeless {P : Platform} (d : Z) (r : Slot) : Prop :=
  Date_value (date r) = JS.Int d /\ time r = None.

(** Two rows of one day without a time. *)
Definition slot_timeless_a : Slot :=
  {| id := "10"; date := "2024-05-01"; time := None; status := None |}.
Definition slot_timeless_b : Slot :=
  {| id := "11"; date := "2024-05-01"; time := None; status := None |}.

(** The invariant of a session of the SheetDB revision that has a
    [sheetId]: as [session_inv]. *)
Definition sheet_session_inv (w : SheetDB.World) : Prop :=
  SheetDB.refreshInterval (SheetDB.comp w) = Some 1%nat
  /\ timers (SheetDB.trace w)
     = (if SheetDB.bookingComplete (SheetDB.comp w) then [] else [1%nat])
  /\ cancellations (SheetDB.trace w)
     = (if SheetDB.bookingComplete (SheetDB.comp w) then 1%nat else 0%nat).

(** The message of the SheetDB revision for a route without parameter. *)
Definition no_sheetId_message : string :=
  "No sheet ID provided. Please use the correct booking link.".

(** The state of the SheetDB revision after a mount without [sheetId]. *)
Definition idle (w : SheetDB.World) : Prop :=
  SheetDB.trace w = []
  /\ SheetDB.render (SheetDB.comp w)
     = SheetDB.MainScreen (Some no_sheetId_message) SheetDB.NoSlotsPanel.

(** The members an object literal inherits from [Object.prototype]: a
    look-up of such a key in [grouped] finds the inherited member. *)
Definition Object_prototype_keys : list string :=
  ["constructor"; "hasOwnProperty"; "isPrototypeOf"; "propertyIsEnumerable";
   "toLocaleString"; "toString"; "valueOf"; "__proto__";
   "__defineGetter__"; "__defineSetter__"; "__lookupGetter__"; "__lookupSetter__"].

Definition plain_key (k : string) : bool :=
  negb (existsb (String.eqb k) Object_prototype_keys).

(* ================================================================== *)
(** * Part II: properties *)
(* ================================================================== *)

Example formatTime_1430 : formatTimeToStandard (Some "14:30") = "2:30 PM".
Proof. reflexivity. Qed.

Example formatTime_0005 : formatTimeToStandard (Some "00:05") = "12:05 AM".
Proof. reflexivity. Qed.

Example formatTime_no_colon : formatTimeToStandard (Some "noon") = "12:undefined AM".
Proof. reflexivity. Qed.

Example formatTime_kept : formatTimeToStandard (Some "9:00 pm") = "9:00 pm".
Proof. reflexivity. Qed.

(** ** Strings *)

Lemma toUpperCase_app (a b : string) :
  JS.toUpperCase (a ++ b) = JS.toUpperCase a ++ JS.toUpperCase b.
Proof.
  induction a as [|c a IH]; simpl; [reflexivity | now rewrite IH].
Qed.

Lemma includes_app_r (a b t : string) :
  JS.includes b t = true -> JS.includes (a ++ b) t = true.
Proof.
  intros Hb. induction a as [|c a IH]; simpl; [exact Hb |].
  destruct t as [|d t]; [reflexivity |].
  destruct (Ascii.ascii_dec d c); [destruct (prefix t (a ++ b)) |]; auto.
Qed.

(** A time that already reads AM or PM is returned as it is. *)
Lemma formatTimeToStandard_marked (t : string) :
  (JS.includes (JS.toUpperCase t) "AM" || JS.includes (JS.toUpperCase t) "PM")%bool = true ->
  formatTimeToStandard (Some t) = t.
Proof.
  intros H. destruct t as [|c t]; [reflexivity |].
  unfold formatTimeToStandard. now rewrite H.
Qed.

(** What the last branch builds reads AM or PM. *)
Lemma formatted_is_marked (h m : string) (pm : bool) :
  let out := h ++ ":" ++ m ++ " " ++ (if pm then "PM" else "AM") in
  (JS.includes (JS.toUpperCase out) "AM" || JS.includes (JS.toUpperCase out) "PM")%bool = true.
Proof.
  intros out. subst out. rewrite !toUpperCase_app.
  apply orb_true_iff. destruct pm; [right | left];
    do 3 apply includes_app_r; reflexivity.
Qed.

(** The output is empty or reads AM or PM. *)
Lemma formatTimeToStandard_output (time : option string) :
  let out := formatTimeToStandard time in
  out = "" \/
  (JS.includes (JS.toUpperCase out) "AM" || JS.includes (JS.toUpperCase out) "PM")%bool = true.
Proof.
  destruct time as [t|]; [| now left].
  destruct t as [|c t]; [now left |].
  right. unfold formatTimeToStandard.
  destruct (JS.includes (JS.toUpperCase (String c t)) "AM"
            || JS.includes (JS.toUpperCase (String c t)) "PM")%bool eqn:E.
  - exact E.
  - destruct (JS.geb (JS.parseInt (nth 0 (JS.split ":" (String c t)) "")) 12).
    + exact (formatted_is_marked _ _ true).
    + exact (formatted_is_marked _ _ false).
Qed.

(** [C10] [formatTimeToStandard] is idempotent: formatting its own output
    returns that output, for every time, missing ([None]) or not; and a
    missing or empty time is formatted as the empty string. *)
Theorem formatTimeToStandard_idempotent :
  (forall time : option string,
      formatTimeToStandard (Some (formatTimeToStandard time))
      = formatTimeToStandard time)
  /\ formatTimeToStandard None = ""
  /\ formatTimeToStandard (Some "") = "".
Proof.
  split; [| split; reflexivity].
  intros time.
  destruct (formatTimeToStandard_output time) as [H | H].
  - now rewrite H.
  - now apply formatTimeToStandard_marked.
Qed.

Example Engine_date_epoch : Engine.Date_value "1970-01-01" = JS.Int 0.
Proof. reflexivity. Qed.

Example Engine_date_2024 : Engine.Date_value "2024-05-01" = JS.Int 1714521600000.
Proof. reflexivity. Qed.

Example Engine_date_invalid : Engine.Date_value "tomorrow" = JS.NaN.
Proof. reflexivity. Qed.

Example Engine_collation_case : Engine.localeCompare "9:00 am" "9:00 PM" = -1.
Proof. reflexivity. Qed.

Example Engine_collation_lower_first : Engine.localeCompare "a" "A" = -1.
Proof. reflexivity. Qed.

Example Engine_email_ok : Engine.emailSyntax "a@x.com" = true.
Proof. reflexivity. Qed.

Example Engine_email_bad : Engine.emailSyntax "a.x.com" = false.
Proof. reflexivity. Qed.

(** ** The comparator and the sort *)

Section Sorting.
Context {P : Platform} (HP : consistent_collation P).

Lemma compareSlots_well_formed (a b : Slot) :
  well_formed a -> well_formed b ->
  exists z, compareSlots a b = JS.Normal (JS.Int z)
            /\ (z <= 0 -> before a b) /\ (0 < z -> before b a).
Proof.
  intros [[x Hx] [s Hs]] [[y Hy] [t Ht]].
  unfold compareSlots, before. rewrite Hx, Hy, Hs, Ht. cbn.
  destruct (x - y =? 0) eqn:E; cbn.
  - apply Z.eqb_eq in E. exists (localeCompare s t). split; [reflexivity |].
    split; intros H.
    + right. split; [lia | exact H].
    + right. split; [lia |].
      pose proof (collation_opp P HP s t) as Ho.
      destruct (Z.sgn_spec (localeCompare s t)) as [[? ?]|[[? ?]|[? ?]]];
        destruct (Z.sgn_spec (localeCompare t s)) as [[? ?]|[[? ?]|[? ?]]]; lia.
  - apply Z.eqb_neq in E. exists (x - y). split; [reflexivity |].
    split; intros H; left; lia.
Qed.

Lemma before_trans (a b c : Slot) : before a b -> before b c -> before a c.
Proof.
  unfold before.
  destruct (Date_value (date a)) as [|x]; [tauto |].
  destruct (Date_value (date b)) as [|y]; [destruct (time a); tauto |].
  destruct (Date_value (date c)) as [|z];
    [destruct (time a), (time b); tauto |].
  destruct (time a) as [s|]; [| tauto].
  destruct (time b) as [t|]; [| tauto].
  destruct (time c) as [u|]; [| tauto].
  intros [H1 | [H1 L1]] [H2 | [H2 L2]]; try (left; lia).
  right. split; [lia |]. exact (collation_trans P HP s t u L1 L2).
Qed.

Lemma insert_sorted (x : Slot) (l : list Slot) :
  well_formed x -> Forall well_formed l -> StronglySorted before l ->
  exists r, ArraySort.insert compareSlots x l = JS.Normal r
            /\ Permutation (x :: l) r /\ StronglySorted before r.
Proof.
  intros Hx Hl Hs. induction l as [|y l IH]; cbn.
  - exists [x]. repeat split; auto. repeat constructor.
  - inversion Hl as [|? ? Hy Hl']; subst. inversion Hs as [|? ? Hs' Hall]; subst.
    destruct (compareSlots_well_formed x y Hx Hy) as (z & -> & Hle & Hgt). cbn.
    destruct (0 <? z) eqn:E.
    + apply Z.ltb_lt in E.
      destruct (IH Hl' Hs') as (r & -> & Hperm & Hsr).
      exists (y :: r). split; [reflexivity |]. split.
      * rewrite perm_swap. now constructor.
      * constructor; [exact Hsr |].
        eapply Permutation_Forall; [exact Hperm |]. constructor; auto.
    + apply Z.ltb_ge in E.
      exists (x :: y :: l). split; [reflexivity |]. split; [reflexivity |].
      constructor; [exact Hs |]. constructor; [auto |].
      eapply Forall_impl; [| exact Hall]. intros c Hc.
      eapply before_trans; eauto.
Qed.

Lemma sort_sorted (l : list Slot) :
  Forall well_formed l ->
  exists r, ArraySort.sort compareSlots l = JS.Normal r
            /\ Permutation l r /\ StronglySorted before r.
Proof.
  induction l as [|x l IH]; intros Hl; cbn.
  - exists []. repeat split; auto. constructor.
  - inversion Hl as [|? ? Hx Hl']; subst.
    destruct (IH Hl') as (s & -> & Hperm & Hs).
    destruct (insert_sorted x s Hx) as (r & Hr & Hperm' & Hsr); auto.
    + eapply Permutation_Forall; eauto.
    + exists r. split; [exact Hr |]. split; [| exact Hsr].
      rewrite <- Hperm'. now constructor.
Qed.
End Sorting.

(** Whatever the comparator does, a sort that completes permutes its
    argument. *)
Lemma insert_permutation {A} (f : A -> A -> JS.completion JS.number) (x : A) (l r : list A) :
  ArraySort.insert f x l = JS.Normal r -> Permutation (x :: l) r.
Proof.
  revert r. induction l as [|y l IH]; cbn; intros r H.
  - now inversion H.
  - destruct (f x y) as [v|]; [| discriminate].
    destruct (0 <? ArraySort.SortCompare v).
    + destruct (ArraySort.insert f x l) as [r'|]; [| discriminate].
      inversion H; subst. rewrite perm_swap. constructor. now apply IH.
    + now inversion H.
Qed.

Lemma sort_permutation {A} (f : A -> A -> JS.completion JS.number) (l r : list A) :
  ArraySort.sort f l = JS.Normal r -> Permutation l r.
Proof.
  revert r. induction l as [|x l IH]; cbn; intros r H.
  - now inversion H.
  - destruct (ArraySort.sort f l) as [s|]; [| discriminate].
    rewrite <- (insert_permutation f x s r H). constructor. now apply IH.
Qed.

(** ** The concrete platform is consistent *)

Lemma Nat_compare_trans (x y z : nat) (c : comparison) :
  Nat.compare x y = c -> Nat.compare y z = c -> Nat.compare x z = c.
Proof.
  destruct (Nat.compare_spec x y), (Nat.compare_spec y z), (Nat.compare_spec x z);
    intros <-; try reflexivity; try discriminate; lia.
Qed.

Lemma Engine_consistent : consistent_collation Engine_platform.
Proof.
  split; cbn; unfold Engine.localeCompare; intros a b.
  - rewrite (list_compare_antisym Nat.compare Nat.compare_eq_iff
               (Engine.sort_key a) (Engine.sort_key b) Nat.compare_antisym).
    now destruct (list_compare Nat.compare (Engine.sort_key a) (Engine.sort_key b)).
  - intros c.
    destruct (list_compare Nat.compare (Engine.sort_key a) (Engine.sort_key b)) eqn:Eab;
      [| | lia].
    + apply (list_compare_refl Nat.compare Nat.compare_eq_iff) in Eab.
      now rewrite Eab.
    + intros _.
      destruct (list_compare Nat.compare (Engine.sort_key b) (Engine.sort_key c)) eqn:Ebc;
        [| | lia]; intros _.
      * apply (list_compare_refl Nat.compare Nat.compare_eq_iff) in Ebc.
        rewrite <- Ebc, Eab. lia.
      * rewrite (list_compare_trans Nat.compare Nat.compare_eq_iff _ _ _
                   Nat_compare_trans Nat.compare_antisym Eab Ebc). lia.
Qed.

(** ** The refresh, in both revisions *)

Section Refresh.
Context {P : Platform}.

Lemma Backend_refreshed_correct (o : FetchOutcome) (st : Backend.State) (tr : list Call) :
  Backend.fetchAvailableSlots_try o (st, tr) =
  match Backend.refreshed o with
  | JS.Normal sorted =>
      (JS.Normal tt,
       (Backend.with_availableSlots sorted st, (tr ++ [Backend.list_request])%list))
  | JS.Throw m => (JS.Throw m, (st, (tr ++ [Backend.list_request])%list))
  end.
Proof.
  unfold Backend.fetchAvailableSlots_try, Backend.refreshed, fetch, bind, call,
    throw, ret, lift.
  destruct o as [m | [] [m | | | rows]]; cbn; try reflexivity;
    now destruct (ArraySort.sort compareSlots rows).
Qed.

(** The refresh as one state update. *)
Lemma Backend_fetchAvailableSlots_run (showLoading : bool) (o : FetchOutcome)
      (st : Backend.State) (tr : list Call) :
  Backend.fetchAvailableSlots showLoading o (st, tr) =
  (JS.Normal tt,
   (let st1 := if showLoading then Backend.with_isLoading true st else st in
    let st2 := match Backend.refreshed o with
               | JS.Normal sorted => Backend.with_availableSlots sorted st1
               | JS.Throw m =>
                   Backend.with_errorMessage ("Error loading available slots: " ++ m) st1
               end in
    if showLoading then Backend.with_isLoading false st2 else st2,
    (tr ++ [Backend.list_request])%list)).
Proof.
  unfold Backend.fetchAvailableSlots, try_finally, try_catch, bind, when.
  destruct showLoading;
    cbn -[Backend.fetchAvailableSlots_try Backend.refreshed append];
    rewrite Backend_refreshed_correct; destruct (Backend.refreshed o); reflexivity.
Qed.

Lemma SheetDB_refreshed_correct (sheetId : option string) (o : FetchOutcome)
      (st : SheetDB.State) (tr : list Call) :
  SheetDB.fetchAvailableSlots_try sheetId o (st, tr) =
  match SheetDB.refreshed o with
  | JS.Normal sorted =>
      (JS.Normal tt,
       (SheetDB.with_availableSlots sorted st,
        (tr ++ [SheetDB.list_request sheetId])%list))
  | JS.Throw m => (JS.Throw m, (st, (tr ++ [SheetDB.list_request sheetId])%list))
  end.
Proof.
  unfold SheetDB.fetchAvailableSlots_try, SheetDB.refreshed, fetch, bind, call,
    throw, ret, lift.
  destruct o as [m | [] [m | | | rows]]; cbn; try reflexivity;
    now destruct (ArraySort.sort compareSlots (filter SheetDB.is_available rows)).
Qed.

Lemma SheetDB_fetchAvailableSlots_run (sheetId : option string) (showLoading : bool)
      (o : FetchOutcome) (st : SheetDB.State) (tr : list Call) :
  SheetDB.fetchAvailableSlots sheetId showLoading o (st, tr) =
  (JS.Normal tt,
   (let st1 := if showLoading then SheetDB.with_isLoading true st else st in
    let st2 := match SheetDB.refreshed o with
               | JS.Normal sorted => SheetDB.with_availableSlots sorted st1
               | JS.Throw m =>
                   SheetDB.with_errorMessage ("Error loading available slots: " ++ m) st1
               end in
    if showLoading then SheetDB.with_isLoading false st2 else st2,
    (tr ++ [SheetDB.list_request sheetId])%list)).
Proof.
  unfold SheetDB.fetchAvailableSlots, try_finally, try_catch, bind, when.
  destruct showLoading;
    cbn -[SheetDB.fetchAvailableSlots_try SheetDB.refreshed append];
    rewrite SheetDB_refreshed_correct; destruct (SheetDB.refreshed o); reflexivity.
Qed.
End Refresh.

(** ** Properties of the refresh *)

(** [C8] A refresh that fails leaves the snapshot as it was and sets the
    error message: in both revisions, whenever the [try] block of
    [fetchAvailableSlots] throws an error of message [m], [availableSlots]
    is unchanged and [errorMessage] becomes the fetch error built from [m],
    which the component displays (the error screen of the backend revision,
    when no booking is complete and the loading flag is down; the banner of
    the SheetDB revision).  A rejected request, a response that is not [ok]
    and a body that does not decode are such failures. *)
Theorem failed_refresh_keeps_snapshot {P : Platform} :
  (forall showLoading o m st tr,
      completion_of (Backend.fetchAvailableSlots_try o (st, tr)) = JS.Throw m ->
      let st' := state_after (Backend.fetchAvailableSlots showLoading o (st, tr)) in
      Backend.availableSlots st' = Backend.availableSlots st
      /\ Backend.errorMessage st' = refresh_error m
      /\ (Backend.bookingComplete st = false ->
          showLoading = true \/ Backend.isLoading st = false ->
          Backend.render st' = Backend.ErrorScreen (refresh_error m)))
  /\ (forall sheetId showLoading o m st tr,
      completion_of (SheetDB.fetchAvailableSlots_try sheetId o (st, tr)) = JS.Throw m ->
      let st' := state_after (SheetDB.fetchAvailableSlots sheetId showLoading o (st, tr)) in
      SheetDB.availableSlots st' = SheetDB.availableSlots st
      /\ SheetDB.errorMessage st' = refresh_error m
      /\ (SheetDB.bookingComplete st = false ->
          showLoading = true \/ SheetDB.isLoading st = false ->
          exists panel, SheetDB.render st' = SheetDB.MainScreen (Some (refresh_error m)) panel))
  /\ (forall m ok body st tr,
      completion_of (Backend.fetchAvailableSlots_try (Rejected m) (st, tr)) = JS.Throw m
      /\ completion_of (Backend.fetchAvailableSlots_try (Response false body) (st, tr))
         = JS.Throw "Failed to fetch available slots"
      /\ completion_of (Backend.fetchAvailableSlots_try (Response ok (BadJson m)) (st, tr))
         = JS.Throw (if ok then m else "Failed to fetch available slots"))
  /\ (forall sheetId m ok body st tr,
      completion_of (SheetDB.fetchAvailableSlots_try sheetId (Rejected m) (st, tr)) = JS.Throw m
      /\ completion_of (SheetDB.fetchAvailableSlots_try sheetId (Response false body) (st, tr))
         = JS.Throw "Failed to fetch available slots"
      /\ completion_of (SheetDB.fetchAvailableSlots_try sheetId (Response ok (BadJson m)) (st, tr))
         = JS.Throw (if ok then m else "Failed to fetch available slots")).
Proof.
  split; [| split; [| split]].
  - intros showLoading o m st tr H st'. subst st'.
    rewrite Backend_refreshed_correct in H.
    rewrite Backend_fetchAvailableSlots_run. unfold state_after, completion_of in *.
    destruct (Backend.refreshed o) as [sorted | m']; cbn in H; [discriminate |].
    inversion H; subst m'; clear H.
    split; [now destruct showLoading |]. split; [now destruct showLoading |].
    intros Hc Hl. unfold Backend.render.
    destruct showLoading; cbn -[refresh_error String.eqb].
    + rewrite Hc. reflexivity.
    + destruct Hl as [Hl | Hl]; [discriminate |]. rewrite Hl, Hc. reflexivity.
  - intros sheetId showLoading o m st tr H st'. subst st'.
    rewrite SheetDB_refreshed_correct in H.
    rewrite SheetDB_fetchAvailableSlots_run. unfold state_after, completion_of in *.
    destruct (SheetDB.refreshed o) as [sorted | m']; cbn in H; [discriminate |].
    inversion H; subst m'; clear H.
    split; [now destruct showLoading |]. split; [now destruct showLoading |].
    intros Hc Hl. unfold SheetDB.render.
    destruct showLoading; cbn -[refresh_error String.eqb].
    + rewrite Hc. eexists. reflexivity.
    + destruct Hl as [Hl | Hl]; [discriminate |]. rewrite Hl, Hc. eexists. reflexivity.
  - intros m ok body st tr. rewrite !Backend_refreshed_correct.
    now destruct ok.
  - intros sheetId m ok body st tr. rewrite !SheetDB_refreshed_correct.
    now destruct ok.
Qed.

Lemma failed_refresh_keeps_snapshot_witness :
  let st' := state_after (Backend.fetchAvailableSlots false (Rejected "Failed to fetch")
                                                      (filling_form, [])) in
  Backend.availableSlots st' = [slot_0900; slot_1430]
  /\ Backend.errorMessage st' = "Error loading available slots: Failed to fetch"
  /\ (Backend.bookingComplete filling_form = false ->
      false = true \/ Backend.isLoading filling_form = false ->
      Backend.render st'
      = Backend.ErrorScreen "Error loading available slots: Failed to fetch").
Proof.
  apply (proj1 (@failed_refresh_keeps_snapshot Engine_platform)). reflexivity.
Defined.

(** [C3] as stated fails in the backend revision: a response with a booked
    row gives a snapshot with that row. *)
Lemma backend_snapshot_keeps_booked_row :
  let st' := state_after (Backend.fetchAvailableSlots true
                            (Response true (Rows [slot_0900; slot_booked]))
                            (Backend.initialState, [])) in
  In slot_booked (Backend.availableSlots st')
  /\ status slot_booked <> Some "Available".
Proof.
  cbn. split; [right; left; reflexivity | discriminate].
Qed.

Lemma filter_is_available (rows : list Slot) :
  Forall (fun slot => status slot = Some "Available") (filter SheetDB.is_available rows).
Proof.
  apply Forall_forall. intros slot H. apply filter_In in H as [_ H].
  unfold SheetDB.is_available in H. destruct (status slot) as [s|]; [| discriminate].
  apply String.eqb_eq in H. now subst.
Qed.

(** [C3] (amended) In the SheetDB revision every slot of the snapshot a
    successful refresh stores has status Available: the rows are filtered
    before they are sorted.  The backend revision does not filter: its
    snapshot is the rows of the response, reordered. *)
Theorem snapshot_available {P : Platform} :
  (forall sheetId showLoading o st tr,
      completion_of (SheetDB.fetchAvailableSlots_try sheetId o (st, tr)) = JS.Normal tt ->
      let st' := state_after (SheetDB.fetchAvailableSlots sheetId showLoading o (st, tr)) in
      Forall (fun slot => status slot = Some "Available") (SheetDB.availableSlots st'))
  /\ (forall showLoading o st tr,
      completion_of (Backend.fetchAvailableSlots_try o (st, tr)) = JS.Normal tt ->
      let st' := state_after (Backend.fetchAvailableSlots showLoading o (st, tr)) in
      exists rows, o = Response true (Rows rows)
                   /\ Permutation rows (Backend.availableSlots st')).
Proof.
  split.
  - intros sheetId showLoading o st tr H st'. subst st'.
    rewrite SheetDB_refreshed_correct in H. rewrite SheetDB_fetchAvailableSlots_run.
    unfold state_after, completion_of in *.
    destruct (SheetDB.refreshed o) as [sorted|] eqn:E; [| discriminate].
    assert (Hs : Forall (fun slot => status slot = Some "Available") sorted).
    { destruct o as [m | [] [m | | | rows]]; try discriminate. cbn in E.
      eapply Permutation_Forall; [apply (sort_permutation _ _ _ E) |].
      apply filter_is_available. }
    now destruct showLoading.
  - intros showLoading o st tr H st'. subst st'.
    rewrite Backend_refreshed_correct in H. rewrite Backend_fetchAvailableSlots_run.
    unfold state_after, completion_of in *.
    destruct (Backend.refreshed o) as [sorted|] eqn:E; [| discriminate].
    destruct o as [m | [] [m | | | rows]]; try discriminate. cbn in E.
    exists rows. split; [reflexivity |].
    apply sort_permutation in E. now destruct showLoading.
Qed.

Lemma snapshot_available_witness :
  let st' := state_after (SheetDB.fetchAvailableSlots (Some "sheet") true
                            (Response true (Rows [slot_1430; slot_booked; slot_0900]))
                            (SheetDB.initialState, [])) in
  Forall (fun slot => status slot = Some "Available") (SheetDB.availableSlots st').
Proof.
  apply (proj1 (@snapshot_available Engine_platform)). reflexivity.
Defined.

(** [C4] as stated fails: the times are ordered by [localeCompare], which
    puts "9:00 am" before "9:00 PM", while the lexicographic order puts it
    after; and around a row whose date is invalid the comparator answers
    [NaN], so a later day stays before an earlier one. *)
Lemma snapshot_not_lexicographic :
  (let st' := state_after (Backend.fetchAvailableSlots true
                             (Response true (Rows [slot_9PM; slot_9am]))
                             (Backend.initialState, [])) in
   Backend.availableSlots st' = [slot_9am; slot_9PM]
   /\ ~ lexicographic_before slot_9am slot_9PM)
  /\ (let st' := state_after (Backend.fetchAvailableSlots true
                                (Response true (Rows [slot_next_day; slot_no_date; slot_0900]))
                                (Backend.initialState, [])) in
      Backend.availableSlots st' = [slot_next_day; slot_no_date; slot_0900]
      /\ ~ lexicographic_before slot_next_day slot_0900).
Proof.
  split; (split; [reflexivity |]); cbn; intros [H | [H1 H2]];
    try discriminate; try apply H2; try reflexivity; lia.
Qed.

(** [C4] (amended) A refresh whose rows all have a valid date and a time
    succeeds, and its snapshot holds the rows (in the SheetDB revision, the
    available rows) sorted by the time value of the dates, ascending, and
    among equal dates by the times in the order of [localeCompare], for any
    platform whose collation is a consistent comparison. *)
Theorem snapshot_sorted {P : Platform} (HP : consistent_collation P) :
  (forall showLoading rows st tr,
      Forall well_formed rows ->
      let st' := state_after (Backend.fetchAvailableSlots showLoading
                                (Response true (Rows rows)) (st, tr)) in
      Permutation rows (Backend.availableSlots st')
      /\ StronglySorted before (Backend.availableSlots st')
      /\ Backend.errorMessage st' = Backend.errorMessage st)
  /\ (forall sheetId showLoading rows st tr,
      Forall well_formed rows ->
      let st' := state_after (SheetDB.fetchAvailableSlots sheetId showLoading
                                (Response true (Rows rows)) (st, tr)) in
      Permutation (filter SheetDB.is_available rows) (SheetDB.availableSlots st')
      /\ StronglySorted before (SheetDB.availableSlots st')
      /\ SheetDB.errorMessage st' = SheetDB.errorMessage st).
Proof.
  split.
  - intros showLoading rows st tr Hwf st'. subst st'.
    rewrite Backend_fetchAvailableSlots_run. unfold state_after. cbn [fst snd Backend.refreshed].
    destruct (sort_sorted HP rows Hwf) as (r & -> & Hperm & Hs).
    now destruct showLoading.
  - intros sheetId showLoading rows st tr Hwf st'. subst st'.
    rewrite SheetDB_fetchAvailableSlots_run. unfold state_after. cbn [fst snd SheetDB.refreshed].
    assert (Hwf' : Forall well_formed (filter SheetDB.is_available rows)).
    { apply Forall_forall. intros x Hx. apply filter_In in Hx as [Hx _].
      now apply (proj1 (Forall_forall _ _) Hwf). }
    destruct (sort_sorted HP _ Hwf') as (r & -> & Hperm & Hs).
    now destruct showLoading.
Qed.

Lemma snapshot_sorted_witness :
  let rows := [slot_next_day; slot_1430; slot_0900] in
  let st' := state_after (Backend.fetchAvailableSlots true (Response true (Rows rows))
                                                      (Backend.initialState, [])) in
  Forall well_formed rows
  /\ Permutation rows (Backend.availableSlots st')
  /\ StronglySorted before (Backend.availableSlots st')
  /\ Backend.errorMessage st' = "".
Proof.
  assert (H : Forall (@well_formed Engine_platform) [slot_next_day; slot_1430; slot_0900]).
  { repeat constructor; eexists; reflexivity. }
  split; [exact H |].
  exact (proj1 (snapshot_sorted Engine_consistent) true _ Backend.initialState [] H).
Defined.

Example snapshot_sorted_example :
  Backend.availableSlots
    (state_after (Backend.fetchAvailableSlots true
                    (Response true (Rows [slot_next_day; slot_1430; slot_0900]))
                    (Backend.initialState, [])))
  = [slot_0900; slot_1430; slot_next_day].
Proof. reflexivity. Qed.

(** [C7] as stated fails in the backend revision: a background refresh that
    fails while the booking form is displayed replaces the form by the error
    screen. *)
Lemma background_failure_replaces_form :
  let st' := state_after (Backend.fetchAvailableSlots false (Rejected "Failed to fetch")
                                                      (filling_form, [])) in
  Backend.render filling_form
  = Backend.BookingFormScreen slot_0900 (Backend.bookingForm (Backend.userInfo filling_form))
  /\ Backend.render st'
     = Backend.ErrorScreen "Error loading available slots: Failed to fetch".
Proof. split; reflexivity. Qed.

(** [C7] (amended) A background refresh ([showLoading = false]) leaves the
    loading flag, the selection, the form contents, the completion flag and
    the interval handle as they were.  When it succeeds it replaces the slot
    list only.  When it fails it keeps the slot list and sets the error
    message, and that changes what is displayed: the backend revision shows
    the error screen in place of the slot list, the form or the empty
    notice (the loading and confirmation screens stay); the SheetDB revision
    keeps its panel and shows the message above it. *)
Theorem background_refresh_frame {P : Platform} :
  (forall o st tr,
      let st' := state_after (Backend.fetchAvailableSlots false o (st, tr)) in
      Backend.isLoading st' = Backend.isLoading st
      /\ Backend.selectedSlot st' = Backend.selectedSlot st
      /\ Backend.userInfo st' = Backend.userInfo st
      /\ Backend.bookingComplete st' = Backend.bookingComplete st
      /\ Backend.refreshInterval st' = Backend.refreshInterval st
      /\ match completion_of (Backend.fetchAvailableSlots_try o (st, tr)) with
         | JS.Normal _ => Backend.errorMessage st' = Backend.errorMessage st
         | JS.Throw m =>
             Backend.availableSlots st' = Backend.availableSlots st
             /\ Backend.errorMessage st' = refresh_error m
             /\ Backend.render st'
                = match Backend.render st with
                  | Backend.LoadingScreen => Backend.LoadingScreen
                  | Backend.ConfirmationScreen slot user =>
                      Backend.ConfirmationScreen slot user
                  | Backend.RenderError => Backend.RenderError
                  | _ => Backend.ErrorScreen (refresh_error m)
                  end
         end)
  /\ (forall sheetId o st tr,
      let st' := state_after (SheetDB.fetchAvailableSlots sheetId false o (st, tr)) in
      SheetDB.isLoading st' = SheetDB.isLoading st
      /\ SheetDB.selectedSlot st' = SheetDB.selectedSlot st
      /\ SheetDB.userInfo st' = SheetDB.userInfo st
      /\ SheetDB.bookingComplete st' = SheetDB.bookingComplete st
      /\ SheetDB.refreshInterval st' = SheetDB.refreshInterval st
      /\ match completion_of (SheetDB.fetchAvailableSlots_try sheetId o (st, tr)) with
         | JS.Normal _ => SheetDB.errorMessage st' = SheetDB.errorMessage st
         | JS.Throw m =>
             SheetDB.availableSlots st' = SheetDB.availableSlots st
             /\ SheetDB.errorMessage st' = refresh_error m
             /\ SheetDB.render st'
                = match SheetDB.render st with
                  | SheetDB.MainScreen _ panel =>
                      SheetDB.MainScreen (Some (refresh_error m)) panel
                  | screen => screen
                  end
         end).
Proof.
  split.
  - intros o st tr st'. subst st'.
    rewrite Backend_refreshed_correct, Backend_fetchAvailableSlots_run.
    unfold state_after, completion_of.
    destruct (Backend.refreshed o) as [sorted | m]; cbn [fst snd];
      do 5 (split; [reflexivity |]); [reflexivity |].
    split; [reflexivity |]. split; [reflexivity |].
    unfold Backend.render, Backend.groupSlotsByDate.
    cbn -[refresh_error String.eqb Nat.eqb fold_left].
    destruct (Backend.isLoading st), (Backend.bookingComplete st),
      (Backend.selectedSlot st); cbn -[refresh_error String.eqb Nat.eqb fold_left];
      try reflexivity;
      destruct (Backend.errorMessage st =? "")%string;
      cbn -[refresh_error String.eqb Nat.eqb fold_left]; try reflexivity;
      destruct (length (Backend.availableSlots st) =? 0)%nat; reflexivity.
  - intros sheetId o st tr st'. subst st'.
    rewrite SheetDB_refreshed_correct, SheetDB_fetchAvailableSlots_run.
    unfold state_after, completion_of.
    destruct (SheetDB.refreshed o) as [sorted | m]; cbn [fst snd];
      do 5 (split; [reflexivity |]); [reflexivity |].
    split; [reflexivity |]. split; [reflexivity |].
    unfold SheetDB.render, SheetDB.groupSlotsByDate.
    cbn -[refresh_error String.eqb Nat.ltb fold_left].
    destruct (SheetDB.isLoading st), (SheetDB.bookingComplete st),
      (SheetDB.selectedSlot st); reflexivity.
Qed.

(** ** The booking, in both revisions *)

Lemma Backend_sendEmails_run (r : Backend.State) (slot : Slot) (owner client : FetchOutcome)
      (st : Backend.State) (tr : list Call) :
  Backend.selectedSlot r = Some slot ->
  Backend.sendEmails r owner client (st, tr)
  = (JS.Normal true, (st, (tr ++ Backend.notify_trace r slot owner client)%list)).
Proof.
  intros H. unfold Backend.sendEmails, Backend.selected, Backend.notify_trace.
  rewrite H.
  destruct owner as [m | ok b]; [| destruct client as [m | ok' b']];
    cbv beta iota delta [try_catch bind fetch call ret throw fst snd];
    rewrite <- ?app_assoc; reflexivity.
Qed.

(** The booking as one state update: the commit decides between
    [bookingComplete] and the error message. *)
Lemma Backend_handleBooking_run (r : Backend.State) (slot : Slot)
      (commit owner client : FetchOutcome) (st : Backend.State) (tr : list Call) :
  Backend.selectedSlot r = Some slot ->
  Backend.handleBooking r commit owner client (st, tr)
  = match commit with
    | Response true _ =>
        (JS.Normal tt,
         (Backend.with_isLoading false
            (Backend.with_bookingComplete true (Backend.with_isLoading true st)),
          (tr ++ Backend.book_request r slot
              :: Backend.notify_trace r slot owner client ++ Backend.clear_trace r)%list))
    | Response false _ =>
        (JS.Normal tt,
         (Backend.with_isLoading false
            (Backend.with_errorMessage (booking_error "Failed to book appointment")
               (Backend.with_isLoading true st)),
          (tr ++ [Backend.book_request r slot])%list))
    | Rejected m =>
        (JS.Normal tt,
         (Backend.with_isLoading false
            (Backend.with_errorMessage (booking_error m) (Backend.with_isLoading true st)),
          (tr ++ [Backend.book_request r slot])%list))
    end.
Proof.
  intros H. unfold Backend.handleBooking, try_finally, try_catch, bind.
  unfold Backend.selected at 1. rewrite H.
  cbn -[Backend.sendEmails append Backend.book_body].
  destruct commit as [m | [] b]; cbn -[Backend.sendEmails append Backend.book_body];
    try reflexivity.
  rewrite (Backend_sendEmails_run r slot owner client _ _ H).
  unfold Backend.clear_trace, Backend.book_request.
  destruct (Backend.refreshInterval r) as [[|h]|];
    cbn -[append Backend.book_body Backend.notify_trace];
    rewrite <- ?app_assoc; cbn -[append Backend.book_body Backend.notify_trace];
    rewrite ?app_nil_r; reflexivity.
Qed.

Lemma SheetDB_sendEmails_run (r : SheetDB.State) (slot : Slot) (owner client : SendOutcome)
      (st : SheetDB.State) (tr : list Call) :
  SheetDB.selectedSlot r = Some slot ->
  SheetDB.sendEmails r owner client (st, tr)
  = (JS.Normal tt, (st, (tr ++ SheetDB.notify_trace r slot owner client)%list)).
Proof.
  intros H. unfold SheetDB.sendEmails, SheetDB.selected, SheetDB.notify_trace.
  rewrite H.
  destruct owner as [| m]; [destruct client as [| m] |];
    cbv beta iota delta [try_catch bind SheetDB.emailjs_send call ret throw fst snd];
    rewrite <- ?app_assoc; reflexivity.
Qed.

Lemma SheetDB_handleBooking_run (sheetId : option string) (r : SheetDB.State) (slot : Slot)
      (commit : FetchOutcome) (owner client : SendOutcome)
      (st : SheetDB.State) (tr : list Call) :
  SheetDB.selectedSlot r = Some slot ->
  SheetDB.handleBooking sheetId r commit owner client (st, tr)
  = match commit with
    | Response true _ =>
        (JS.Normal tt,
         (SheetDB.with_isLoading false
            (SheetDB.with_bookingComplete true (SheetDB.with_isLoading true st)),
          (tr ++ SheetDB.book_request sheetId r slot
              :: SheetDB.notify_trace r slot owner client ++ SheetDB.clear_trace r)%list))
    | Response false _ =>
        (JS.Normal tt,
         (SheetDB.with_isLoading false
            (SheetDB.with_errorMessage (booking_error "Failed to book appointment")
               (SheetDB.with_isLoading true st)),
          (tr ++ [SheetDB.book_request sheetId r slot])%list))
    | Rejected m =>
        (JS.Normal tt,
         (SheetDB.with_isLoading false
            (SheetDB.with_errorMessage (booking_error m) (SheetDB.with_isLoading true st)),
          (tr ++ [SheetDB.book_request sheetId r slot])%list))
    end.
Proof.
  intros H. unfold SheetDB.handleBooking, try_finally, try_catch, bind.
  unfold SheetDB.selected at 1. rewrite H.
  cbn -[SheetDB.sendEmails append SheetDB.book_body SheetDB.sheet_url].
  destruct commit as [m | [] b];
    cbn -[SheetDB.sendEmails append SheetDB.book_body SheetDB.sheet_url];
    try reflexivity.
  rewrite (SheetDB_sendEmails_run r slot owner client _ _ H).
  unfold SheetDB.clear_trace, SheetDB.book_request.
  destruct (SheetDB.refreshInterval r) as [[|h]|];
    cbn -[append SheetDB.book_body SheetDB.notify_trace SheetDB.sheet_url];
    rewrite <- ?app_assoc;
    cbn -[append SheetDB.book_body SheetDB.notify_trace SheetDB.sheet_url];
    rewrite ?app_nil_r; reflexivity.
Qed.

(** ** Properties of the booking *)

Lemma checkValidity_value_missing {P : Platform} (form : list Input) (i : Input) :
  In i form -> required i = true -> value i = "" -> checkValidity form = false.
Proof.
  intros Hin Hr Hv. unfold checkValidity.
  destruct (forallb _ form) eqn:E; [| reflexivity].
  rewrite forallb_forall in E. specialize (E i Hin).
  unfold valueMissing in E. now rewrite Hr, Hv in E.
Qed.

(** [C1] Submitting the booking form while a required field (first name,
    last name, e-mail) is empty calls nothing: the controls are [required],
    so the browser's validation keeps the [submit] event from [handleBooking];
    the state, loading flag included, and the trace of requests are as they
    were, in both revisions. *)
Theorem empty_field_blocks_commit {P : Platform} :
  (forall r commit owner client w,
      Backend.firstName (Backend.userInfo r) = ""
      \/ Backend.lastName (Backend.userInfo r) = ""
      \/ Backend.email (Backend.userInfo r) = "" ->
      Backend.submitForm r commit owner client w = (JS.Normal tt, w))
  /\ (forall sheetId r commit owner client w,
      SheetDB.firstName (SheetDB.userInfo r) = ""
      \/ SheetDB.lastName (SheetDB.userInfo r) = ""
      \/ SheetDB.email (SheetDB.userInfo r) = "" ->
      SheetDB.submitForm sheetId r commit owner client w = (JS.Normal tt, w))
  /\ (forall w commit owner client w',
      Backend.firstName (Backend.userInfo (Backend.comp w)) = ""
      \/ Backend.lastName (Backend.userInfo (Backend.comp w)) = ""
      \/ Backend.email (Backend.userInfo (Backend.comp w)) = "" ->
      Backend.step w (Backend.Submit commit owner client) = Some w' ->
      w' = w).
Proof.
  assert (HB : forall r commit owner client w,
      Backend.firstName (Backend.userInfo r) = ""
      \/ Backend.lastName (Backend.userInfo r) = ""
      \/ Backend.email (Backend.userInfo r) = "" ->
      Backend.submitForm r commit owner client w = (JS.Normal tt, w));
    [| split; [exact HB | split]].
  3: { intros w commit owner client w' H Hstep. unfold Backend.step in Hstep.
       destruct (Backend.mounted w) eqn:Hm; [| discriminate]. cbn [andb] in Hstep.
       destruct (Backend.on_form (Backend.comp w)); [| discriminate].
       inversion Hstep; subst w'. unfold Backend.exec.
       rewrite (HB _ commit owner client _ H), Hm.
       destruct w as [c m t]; cbn in *. now subst m. }
  - intros r commit owner client w H. unfold Backend.submitForm.
    assert (E : checkValidity (Backend.bookingForm (Backend.userInfo r)) = false).
    { destruct H as [H | [H | H]].
      - eapply checkValidity_value_missing with (i := {| value := _ |});
          [left; reflexivity | reflexivity | exact H].
      - eapply checkValidity_value_missing with (i := {| value := _ |});
          [right; left; reflexivity | reflexivity | exact H].
      - eapply checkValidity_value_missing with (i := {| value := _ |});
          [right; right; left; reflexivity | reflexivity | exact H]. }
    now rewrite E.
  - intros sheetId r commit owner client w H. unfold SheetDB.submitForm.
    assert (E : checkValidity (SheetDB.bookingForm (SheetDB.userInfo r)) = false).
    { destruct H as [H | [H | H]].
      - eapply checkValidity_value_missing with (i := {| value := _ |});
          [left; reflexivity | reflexivity | exact H].
      - eapply checkValidity_value_missing with (i := {| value := _ |});
          [right; left; reflexivity | reflexivity | exact H].
      - eapply checkValidity_value_missing with (i := {| value := _ |});
          [right; right; left; reflexivity | reflexivity | exact H]. }
    now rewrite E.
Qed.

Lemma empty_field_blocks_commit_witness :
  Backend.submitForm missing_last_name (Response true NotArray)
                     (Response true NotArray) (Response true NotArray)
                     (missing_last_name, [])
  = (JS.Normal tt, (missing_last_name, [])).
Proof.
  apply (proj1 (@empty_field_blocks_commit Engine_platform)).
  right; left; reflexivity.
Defined.

(** The handler itself checks nothing: called on the same fields it sends
    the booking request. *)
Example handleBooking_has_no_check :
  trace_after (Backend.handleBooking missing_last_name (Response true NotArray)
                 (Response true NotArray) (Response true NotArray)
                 (missing_last_name, []))
  = [Backend.book_request missing_last_name slot_0900;
     Backend.owner_request missing_last_name slot_0900;
     Backend.client_request missing_last_name slot_0900;
     ConsoleLog "Emails sent successfully";
     ClearInterval 1].
Proof. reflexivity. Qed.

(** With every field filled the form is submitted. *)
Example valid_form_is_submitted :
  state_after (Backend.submitForm filling_form (Response true NotArray)
                 (Response true NotArray) (Response true NotArray) (filling_form, []))
  = Backend.with_bookingComplete true filling_form.
Proof. reflexivity. Qed.

(** [C5] When the commit succeeds, the booking is confirmed whatever
    becomes of the two notifications: in both revisions, for every outcome of
    the owner alert and of the client confirmation, [bookingComplete] is
    set, the error message is not touched, and the component shows the
    confirmation screen with the selected slot and the user's data. *)
Theorem notification_failure_keeps_confirmed :
  (forall r slot body owner client tr,
      Backend.selectedSlot r = Some slot ->
      let st' := state_after (Backend.handleBooking r (Response true body) owner client
                                                    (r, tr)) in
      Backend.bookingComplete st' = true
      /\ Backend.errorMessage st' = Backend.errorMessage r
      /\ Backend.render st' = Backend.ConfirmationScreen slot (Backend.userInfo r))
  /\ (forall sheetId r slot body owner client tr,
      SheetDB.selectedSlot r = Some slot ->
      let st' := state_after (SheetDB.handleBooking sheetId r (Response true body)
                                                    owner client (r, tr)) in
      SheetDB.bookingComplete st' = true
      /\ SheetDB.errorMessage st' = SheetDB.errorMessage r
      /\ SheetDB.render st' = SheetDB.ConfirmationScreen slot (SheetDB.userInfo r)).
Proof.
  split.
  - intros r slot body owner client tr H st'. subst st'.
    rewrite (Backend_handleBooking_run r slot _ owner client r tr H).
    unfold state_after, Backend.render. cbn. now rewrite H.
  - intros sheetId r slot body owner client tr H st'. subst st'.
    rewrite (SheetDB_handleBooking_run sheetId r slot _ owner client r tr H).
    unfold state_after, SheetDB.render. cbn. now rewrite H.
Qed.

Lemma notification_failure_keeps_confirmed_witness :
  let st' := state_after (Backend.handleBooking filling_form (Response true NotArray)
                            (Rejected "Failed to fetch") (Rejected "Failed to fetch")
                            (filling_form, [])) in
  Backend.bookingComplete st' = true
  /\ Backend.errorMessage st' = ""
  /\ Backend.render st'
     = Backend.ConfirmationScreen slot_0900 (Backend.userInfo filling_form).
Proof.
  apply (proj1 notification_failure_keeps_confirmed). reflexivity.
Defined.

Lemma Backend_notifications_app (a b : list Call) :
  Backend.notifications (a ++ b) = (Backend.notifications a ++ Backend.notifications b)%list.
Proof. apply filter_app. Qed.

Lemma SheetDB_notifications_app (a b : list Call) :
  SheetDB.notifications (a ++ b) = (SheetDB.notifications a ++ SheetDB.notifications b)%list.
Proof. apply filter_app. Qed.

(** [C6] as stated fails: when the owner alert fails, the confirmation to
    the booker is never requested, so one notification goes out, not two;
    and the confirmation is the same request whether the preference is
    ticked or not. *)
Lemma notifications_not_two_nor_by_flag :
  Backend.notifications
    (trace_after (Backend.handleBooking filling_form (Response true NotArray)
                    (Rejected "Failed to fetch") (Response true NotArray)
                    (filling_form, [])))
  = [Backend.owner_request filling_form slot_0900]
  /\ Backend.isScholarship (Backend.userInfo filling_form_zoom)
     <> Backend.isScholarship (Backend.userInfo filling_form)
  /\ Backend.client_request filling_form_zoom slot_0900
     = Backend.client_request filling_form slot_0900.
Proof. split; [reflexivity | split; [discriminate | reflexivity]]. Qed.

(** [C6] (amended) After a successful commit the owner alert is requested
    and, unless that request fails, the confirmation to the booker's own
    e-mail after it; nothing else is sent.  The SheetDB revision addresses
    the alert to the fixed operator address; the backend revision marks it
    with the type [owner] and leaves the address to the endpoint.  The
    confirmation does not depend on the preference: with any value of
    [isScholarship] the backend revision sends the same request, of type
    [scholarship]; the SheetDB revision has no preference. *)
Theorem notifications_after_commit :
  (forall r slot body owner client st tr,
      Backend.selectedSlot r = Some slot ->
      Backend.notifications
        (trace_after (Backend.handleBooking r (Response true body) owner client (st, tr)))
      = (Backend.notifications tr
         ++ match owner with
            | Rejected _ => [Backend.owner_request r slot]
            | Response _ _ => [Backend.owner_request r slot; Backend.client_request r slot]
            end)%list)
  /\ (forall r slot flag,
      Backend.client_request
        (Backend.with_userInfo
           {| Backend.firstName := Backend.firstName (Backend.userInfo r);
              Backend.lastName := Backend.lastName (Backend.userInfo r);
              Backend.email := Backend.email (Backend.userInfo r);
              Backend.isScholarship := flag |} r) slot
      = Backend.client_request r slot
      /\ In ("type", VStr "scholarship") (Backend.client_body r slot)
      /\ In ("to_email", VStr (Backend.email (Backend.userInfo r))) (Backend.client_body r slot)
      /\ In ("type", VStr "owner") (Backend.owner_body r slot))
  /\ (forall sheetId r slot body owner client st tr,
      SheetDB.selectedSlot r = Some slot ->
      SheetDB.notifications
        (trace_after (SheetDB.handleBooking sheetId r (Response true body) owner client
                                            (st, tr)))
      = (SheetDB.notifications tr
         ++ match owner with
            | SendFailed _ => [SheetDB.owner_request r slot]
            | Sent => [SheetDB.owner_request r slot; SheetDB.client_request r slot]
            end)%list)
  /\ (forall r slot,
      In ("to_email", VStr SheetDB.operator_address) (SheetDB.owner_params r slot)
      /\ In ("to_email", VStr (SheetDB.email (SheetDB.userInfo r)))
            (SheetDB.client_params r slot)).
Proof.
  split; [| split; [| split]].
  - intros r slot body owner client st tr H.
    rewrite (Backend_handleBooking_run r slot _ owner client st tr H).
    unfold trace_after. cbn [fst snd].
    rewrite Backend_notifications_app. f_equal.
    change (Backend.book_request r slot
              :: Backend.notify_trace r slot owner client ++ Backend.clear_trace r)%list
      with ([Backend.book_request r slot]
              ++ Backend.notify_trace r slot owner client ++ Backend.clear_trace r)%list.
    rewrite !Backend_notifications_app.
    assert (Hc : Backend.notifications (Backend.clear_trace r) = []).
    { unfold Backend.clear_trace. now destruct (Backend.refreshInterval r) as [[|h]|]. }
    rewrite Hc, app_nil_r.
    destruct owner as [m | ok b]; [| destruct client as [m | ok' b']]; reflexivity.
  - intros r slot flag. split; [reflexivity |].
    split; [left; reflexivity |].
    split; [right; right; left; reflexivity | left; reflexivity].
  - intros sheetId r slot body owner client st tr H.
    rewrite (SheetDB_handleBooking_run sheetId r slot _ owner client st tr H).
    unfold trace_after. cbn [fst snd].
    rewrite SheetDB_notifications_app. f_equal.
    change (SheetDB.book_request sheetId r slot
              :: SheetDB.notify_trace r slot owner client ++ SheetDB.clear_trace r)%list
      with ([SheetDB.book_request sheetId r slot]
              ++ SheetDB.notify_trace r slot owner client ++ SheetDB.clear_trace r)%list.
    rewrite !SheetDB_notifications_app.
    assert (Hc : SheetDB.notifications (SheetDB.clear_trace r) = []).
    { unfold SheetDB.clear_trace. now destruct (SheetDB.refreshInterval r) as [[|h]|]. }
    rewrite Hc, app_nil_r.
    destruct owner as [| m]; [destruct client as [| m] |]; reflexivity.
  - intros r slot. split; [do 4 right; left; reflexivity | do 3 right; left; reflexivity].
Qed.

Lemma notifications_after_commit_witness :
  Backend.notifications
    (trace_after (Backend.handleBooking filling_form (Response true NotArray)
                    (Response true NotArray) (Response true NotArray)
                    (filling_form, [])))
  = [Backend.owner_request filling_form slot_0900;
     Backend.client_request filling_form slot_0900].
Proof.
  apply (proj1 notifications_after_commit filling_form slot_0900 NotArray
               (Response true NotArray) (Response true NotArray) filling_form []).
  reflexivity.
Defined.

(** ** Properties of the selection *)

Lemma Backend_push_group_In (slot : Slot) (grouped : list (string * list Slot)) (x : Slot) :
  In x (flat_map snd (Backend.push_group slot grouped))
  <-> x = slot \/ In x (flat_map snd grouped).
Proof.
  induction grouped as [| [d slots] rest IH]; cbn.
  - intuition.
  - destruct (d =? date slot)%string; cbn; rewrite ?in_app_iff; [cbn; intuition |].
    rewrite IH. intuition.
Qed.

Lemma Backend_grouped_In (st : Backend.State) (x : Slot) :
  In x (flat_map snd (Backend.groupSlotsByDate st)) <-> In x (Backend.availableSlots st).
Proof.
  unfold Backend.groupSlotsByDate.
  assert (H : forall l g,
             In x (flat_map snd (fold_left (fun grouped slot => Backend.push_group slot grouped) l g))
             <-> In x l \/ In x (flat_map snd g)).
  { induction l as [|s l IH]; intros g; cbn; [intuition |].
    rewrite IH, Backend_push_group_In. intuition. }
  rewrite H. cbn. intuition.
Qed.

Lemma SheetDB_push_group_In (slot : Slot) (grouped : list (string * list Slot)) (x : Slot) :
  In x (flat_map snd (SheetDB.push_group slot grouped))
  <-> x = slot \/ In x (flat_map snd grouped).
Proof.
  induction grouped as [| [d slots] rest IH]; cbn.
  - intuition.
  - destruct (d =? date slot)%string; cbn; rewrite ?in_app_iff; [cbn; intuition |].
    rewrite IH. intuition.
Qed.

Lemma SheetDB_grouped_In (st : SheetDB.State) (x : Slot) :
  In x (flat_map snd (SheetDB.groupSlotsByDate st)) <-> In x (SheetDB.availableSlots st).
Proof.
  unfold SheetDB.groupSlotsByDate.
  assert (H : forall l g,
             In x (flat_map snd (fold_left (fun grouped slot => SheetDB.push_group slot grouped) l g))
             <-> In x l \/ In x (flat_map snd g)).
  { induction l as [|s l IH]; intros g; cbn; [intuition |].
    rewrite IH, SheetDB_push_group_In. intuition. }
  rewrite H. cbn. intuition.
Qed.

(** The list screen offers slots of the snapshot only. *)
Lemma Backend_offered_In (st : Backend.State) (x : Slot) :
  In x (Backend.offered st) -> In x (Backend.availableSlots st).
Proof.
  unfold Backend.offered, Backend.render.
  destruct (Backend.isLoading st && negb (Backend.bookingComplete st))%bool; [intros [] |].
  destruct (Backend.bookingComplete st);
    [destruct (Backend.selectedSlot st); intros [] |].
  destruct (negb (Backend.errorMessage st =? "")%string); [intros [] |].
  destruct (length (Backend.availableSlots st) =? 0)%nat; [intros [] |].
  destruct (Backend.selectedSlot st); [intros [] |].
  apply Backend_grouped_In.
Qed.

Lemma SheetDB_offered_In (st : SheetDB.State) (x : Slot) :
  In x (SheetDB.offered st) -> In x (SheetDB.availableSlots st).
Proof.
  unfold SheetDB.offered, SheetDB.render.
  destruct (SheetDB.isLoading st && negb (SheetDB.bookingComplete st))%bool; [intros [] |].
  destruct (SheetDB.bookingComplete st);
    [destruct (SheetDB.selectedSlot st); intros [] |].
  destruct (SheetDB.selectedSlot st); [intros [] |].
  destruct (0 <? length (SheetDB.availableSlots st))%nat; [| intros []].
  apply SheetDB_grouped_In.
Qed.

Lemma slot_eqb_eq (a b : Slot) : Backend.slot_eqb a b = true -> a = b.
Proof.
  destruct a as [i d t s], b as [i' d' t' s']. unfold Backend.slot_eqb. cbn.
  rewrite !andb_true_iff. intros [[[Hi Hd] Ht] Hs].
  apply String.eqb_eq in Hi, Hd. subst.
  assert (t = t') as ->.
  { destruct t, t'; try discriminate; [apply String.eqb_eq in Ht; now subst | reflexivity]. }
  assert (s = s') as ->.
  { destruct s, s'; try discriminate; [apply String.eqb_eq in Hs; now subst | reflexivity]. }
  reflexivity.
Qed.


(** ** The session of the backend revision: the interval *)

Lemma timers_after_app (running : list nat) (a b : list Call) :
  timers_after running (a ++ b) = timers_after (timers_after running a) b.
Proof.
  revert running. induction a as [|c a IH]; intros running; [reflexivity |].
  destruct c; cbn; apply IH.
Qed.

Lemma timers_app (a b : list Call) : timers (a ++ b) = timers_after (timers a) b.
Proof. apply timers_after_app. Qed.

Lemma cancellations_app (a b : list Call) :
  cancellations (a ++ b) = (cancellations a + cancellations b)%nat.
Proof. unfold cancellations. now rewrite filter_app, length_app. Qed.

Section Session.
Context {P : Platform}.

(** The world after the mount: the first refresh is done, the interval
    [1] runs and its handle is in state. *)
Lemma mount_world (first : FetchOutcome) :
  Backend.mount first
  = {| Backend.comp :=
         Backend.with_refreshInterval (Some 1%nat)
           (state_after (Backend.fetchAvailableSlots true first (Backend.initialState, [])));
       Backend.mounted := true;
       Backend.trace := [Backend.list_request; SetInterval 1] |}.
Proof.
  unfold Backend.mount, Backend.exec, Backend.mountEffect, bind.
  cbn [Backend.comp Backend.trace Backend.mounted].
  rewrite !Backend_fetchAvailableSlots_run. reflexivity.
Qed.

Lemma mount_inv (first : FetchOutcome) : session_inv (Backend.mount first).
Proof.
  rewrite mount_world, Backend_fetchAvailableSlots_run. unfold session_inv, state_after.
  cbn [Backend.comp Backend.trace fst snd].
  destruct (Backend.refreshed first); repeat split; reflexivity.
Qed.

(** A handler that does not touch the handle, the completion flag or the
    intervals keeps the invariant. *)
Lemma exec_inv (m : Eff Backend.State unit) (w : Backend.World) :
  session_inv w ->
  (forall st tr,
      let x := m (st, tr) in
      Backend.refreshInterval (state_after x) = Backend.refreshInterval st
      /\ Backend.bookingComplete (state_after x) = Backend.bookingComplete st
      /\ exists added, trace_after x = (tr ++ added)%list
                       /\ (forall running, timers_after running added = running)
                       /\ cancellations added = 0%nat) ->
  session_inv (Backend.exec m w).
Proof.
  intros (Hr & Ht & Hc) Hm.
  specialize (Hm (Backend.comp w) (Backend.trace w)).
  unfold Backend.exec, session_inv, state_after, trace_after in *.
  destruct (m (Backend.comp w, Backend.trace w)) as [c [st' tr']].
  cbn [fst snd Backend.comp Backend.trace] in *.
  destruct Hm as (Hr' & Hb' & added & -> & Hta & Hca).
  rewrite timers_app, Hta, cancellations_app, Hca, Nat.add_0_r.
  destruct (Backend.mounted w).
  - rewrite Hr', Hb'. auto.
  - auto.
Qed.

Lemma fetch_frame (showLoading : bool) (o : FetchOutcome) (st : Backend.State)
      (tr : list Call) :
  let x := Backend.fetchAvailableSlots showLoading o (st, tr) in
  Backend.refreshInterval (state_after x) = Backend.refreshInterval st
  /\ Backend.bookingComplete (state_after x) = Backend.bookingComplete st
  /\ exists added, trace_after x = (tr ++ added)%list
                   /\ (forall running, timers_after running added = running)
                   /\ cancellations added = 0%nat.
Proof.
  cbv zeta. rewrite Backend_fetchAvailableSlots_run. unfold state_after, trace_after.
  cbn [fst snd]. split; [| split].
  - destruct showLoading, (Backend.refreshed o); reflexivity.
  - destruct showLoading, (Backend.refreshed o); reflexivity.
  - exists [Backend.list_request]. repeat split; reflexivity.
Qed.

Lemma set_frame (f : Backend.State -> Backend.State) (st : Backend.State)
      (tr : list Call) :
  (forall s, Backend.refreshInterval (f s) = Backend.refreshInterval s) ->
  (forall s, Backend.bookingComplete (f s) = Backend.bookingComplete s) ->
  let x := set f (st, tr) in
  Backend.refreshInterval (state_after x) = Backend.refreshInterval st
  /\ Backend.bookingComplete (state_after x) = Backend.bookingComplete st
  /\ exists added, trace_after x = (tr ++ added)%list
                   /\ (forall running, timers_after running added = running)
                   /\ cancellations added = 0%nat.
Proof.
  intros Hr Hb. cbn. split; [apply Hr | split; [apply Hb |]].
  exists []. rewrite app_nil_r. repeat split; reflexivity.
Qed.

Lemma on_form_selected (st : Backend.State) :
  Backend.on_form st = true ->
  Backend.bookingComplete st = false /\ exists slot, Backend.selectedSlot st = Some slot.
Proof.
  unfold Backend.on_form, Backend.render.
  destruct (Backend.isLoading st && negb (Backend.bookingComplete st))%bool;
    [discriminate |].
  destruct (Backend.bookingComplete st);
    [destruct (Backend.selectedSlot st); discriminate |].
  destruct (negb (Backend.errorMessage st =? "")%string); [discriminate |].
  destruct (length (Backend.availableSlots st) =? 0)%nat; [discriminate |].
  destruct (Backend.selectedSlot st) as [slot|]; [| discriminate].
  intros _. split; [reflexivity | now exists slot].
Qed.

Lemma notify_trace_timers (r : Backend.State) (slot : Slot) (owner client : FetchOutcome)
      (running : list nat) :
  timers_after running (Backend.notify_trace r slot owner client) = running
  /\ cancellations (Backend.notify_trace r slot owner client) = 0%nat.
Proof.
  destruct owner as [m | ok b]; [| destruct client as [m | ok' b']]; split; reflexivity.
Qed.

Lemma submit_inv (w : Backend.World) (commit owner client : FetchOutcome) :
  session_inv w -> Backend.mounted w = true -> Backend.on_form (Backend.comp w) = true ->
  session_inv (Backend.exec (Backend.submitForm (Backend.comp w) commit owner client) w).
Proof.
  intros Hinv Hm Hf. unfold Backend.submitForm.
  destruct (checkValidity (Backend.bookingForm (Backend.userInfo (Backend.comp w)))).
  2: { apply exec_inv; [exact Hinv |]. intros st tr. cbn. repeat split.
       exists []. rewrite app_nil_r. repeat split; reflexivity. }
  destruct (on_form_selected _ Hf) as (Hb & slot & Hs).
  destruct Hinv as (Hr & Ht & Hc). rewrite Hb in Ht, Hc.
  unfold Backend.exec, session_inv.
  rewrite (Backend_handleBooking_run _ slot commit owner client _ _ Hs), Hm.
  destruct commit as [m | [] b]; cbn [fst snd Backend.comp Backend.trace].
  - cbn. rewrite timers_app, cancellations_app, Hr, Hb, Ht, Hc. repeat split; reflexivity.
  - change (Backend.book_request (Backend.comp w) slot
              :: Backend.notify_trace (Backend.comp w) slot owner client
              ++ Backend.clear_trace (Backend.comp w))%list
      with ([Backend.book_request (Backend.comp w) slot]
              ++ Backend.notify_trace (Backend.comp w) slot owner client
              ++ Backend.clear_trace (Backend.comp w))%list.
    rewrite !timers_app, !cancellations_app, Ht, Hc.
    rewrite !timers_after_app.
    destruct (notify_trace_timers (Backend.comp w) slot owner client
                (timers_after [1%nat] [Backend.book_request (Backend.comp w) slot]))
      as [-> ->].
    unfold Backend.clear_trace. rewrite Hr. cbn. repeat split; assumption.
  - cbn. rewrite timers_app, cancellations_app, Hr, Hb, Ht, Hc. repeat split; reflexivity.
Qed.

Lemma step_inv (w w' : Backend.World) (e : Backend.Event) :
  session_inv w -> Backend.step w e = Some w' -> session_inv w'.
Proof.
  intros Hinv H. destruct e; unfold Backend.step in H; cbv beta iota zeta in H.
  - destruct (existsb _ _); [| discriminate]. inversion H; subst w'.
    apply exec_inv; [exact Hinv | intros; apply fetch_frame].
  - destruct (Backend.mounted w && _)%bool; [| discriminate]. inversion H; subst w'.
    apply exec_inv; [exact Hinv | intros; now apply set_frame].
  - destruct (Backend.mounted w && _)%bool; [| discriminate]. inversion H; subst w'.
    apply exec_inv; [exact Hinv | intros; now apply set_frame].
  - destruct (Backend.mounted w && _)%bool; [| discriminate]. inversion H; subst w'.
    apply exec_inv; [exact Hinv | intros; now apply set_frame].
  - destruct (Backend.mounted w && _)%bool; [| discriminate]. inversion H; subst w'.
    apply exec_inv; [exact Hinv | intros; now apply set_frame].
  - destruct (Backend.mounted w && _)%bool; [| discriminate]. inversion H; subst w'.
    apply exec_inv; [exact Hinv | intros; now apply set_frame].
  - destruct (Backend.mounted w && _)%bool; [| discriminate]. inversion H; subst w'.
    apply exec_inv; [exact Hinv | intros; now apply set_frame].
  - destruct (Backend.mounted w) eqn:Hm; [| discriminate]. cbn [andb] in H.
    destruct (Backend.on_form (Backend.comp w)) eqn:Hf; [| discriminate].
    inversion H; subst w'. now apply submit_inv.
  - destruct (Backend.mounted w && _)%bool; [| discriminate]. inversion H; subst w'.
    apply exec_inv; [exact Hinv | intros; apply fetch_frame].
  - destruct (Backend.mounted w) eqn:Hm; [| discriminate]. inversion H; subst w'.
    unfold session_inv, Backend.exec in *. cbn. rewrite Hm. exact Hinv.
Qed.

Lemma run_inv (events : list Backend.Event) (w w' : Backend.World) :
  session_inv w -> Backend.run w events = Some w' -> session_inv w'.
Proof.
  revert w. induction events as [|e events IH]; intros w Hinv H; cbn in H.
  - now inversion H; subst.
  - destruct (Backend.step w e) as [w1|] eqn:E; [| discriminate].
    eapply IH; [eapply step_inv; eauto | exact H].
Qed.

(** [X1] Once the booking is complete the interval is stopped: it was cleared
    once, no interval runs, and no tick reaches the component, so no list
    request follows. *)
Lemma confirmed_stops_refresh (first : FetchOutcome) (events : list Backend.Event)
      (w : Backend.World) :
  Backend.run (Backend.mount first) events = Some w ->
  Backend.bookingComplete (Backend.comp w) = true ->
  timers (Backend.trace w) = []
  /\ cancellations (Backend.trace w) = 1%nat
  /\ forall h o, Backend.step w (Backend.Tick h o) = None.
Proof.
  intros Hrun Hb.
  destruct (run_inv events _ _ (mount_inv first) Hrun) as (_ & Ht & Hc).
  rewrite Hb in Ht, Hc. repeat split; auto.
  intros h o. cbn. now rewrite Ht.
Qed.
End Session.

(** [C2] The clean-up of the effect closes over the first render, in which
    [refreshInterval] is still [null]: unmounting after the mount, whatever
    the first refresh gave, calls [clearInterval] not once, the interval
    keeps running, and its next tick sends a list request to the store. *)
Theorem unmount_leaves_interval_running {P : Platform} (first next : FetchOutcome) :
  exists w w',
    Backend.run (Backend.mount first) [Backend.Unmount] = Some w
    /\ Backend.mounted w = false
    /\ timers (Backend.trace w) = [1%nat]
    /\ cancellations (Backend.trace w) = 0%nat
    /\ Backend.step w (Backend.Tick 1 next) = Some w'
    /\ Backend.trace w' = (Backend.trace w ++ [Backend.list_request])%list.
Proof.
  rewrite mount_world. cbn [Backend.run Backend.step Backend.mounted].
  eexists. eexists. split; [reflexivity |].
  unfold Backend.exec. cbn [Backend.cleanupEffect Backend.initialState
    Backend.refreshInterval truthy_handle when ret Backend.comp Backend.trace
    Backend.mounted].
  split; [reflexivity |]. split; [reflexivity |]. split; [reflexivity |].
  unfold Backend.step. cbn [Backend.trace Backend.comp Backend.mounted].
  change (existsb (Nat.eqb 1) (timers [Backend.list_request; SetInterval 1])) with true.
  cbv iota. split; [reflexivity |].
  unfold Backend.exec. cbn [Backend.trace Backend.comp Backend.mounted].
  rewrite Backend_fetchAvailableSlots_run. reflexivity.
Qed.

(** The same in any session in which no booking was completed. *)
Lemma unmount_never_cancels {P : Platform} (first : FetchOutcome)
      (events : list Backend.Event) (w : Backend.World) :
  Backend.run (Backend.mount first) events = Some w ->
  Backend.bookingComplete (Backend.comp w) = false ->
  timers (Backend.trace w) = [1%nat] /\ cancellations (Backend.trace w) = 0%nat.
Proof.
  intros Hrun Hb.
  destruct (run_inv events _ _ (mount_inv first) Hrun) as (_ & Ht & Hc).
  rewrite Hb in Ht, Hc. now split.
Qed.

(** The scenario of the specification: one slot, selected and booked; the
    interval is cleared at the confirmation, and the unmount that follows
    clears nothing more. *)
Example happy_path :
  exists w,
    Backend.run (Backend.mount (Response true (Rows [slot_0900])))
      [Backend.SelectSlot slot_0900;
       Backend.EditFirstName "Ana"; Backend.EditLastName "Lee";
       Backend.EditEmail "a@x.com";
       Backend.Submit (Response true NotArray) (Response true NotArray)
                      (Response true NotArray);
       Backend.Unmount] = Some w
    /\ Backend.render (Backend.comp w)
       = Backend.ConfirmationScreen slot_0900
           {| Backend.firstName := "Ana"; Backend.lastName := "Lee";
              Backend.email := "a@x.com"; Backend.isScholarship := false |}
    /\ timers (Backend.trace w) = []
    /\ cancellations (Backend.trace w) = 1%nat.
Proof. eexists. split; [reflexivity |]. repeat split; reflexivity. Qed.

Lemma confirmed_stops_refresh_witness :
  exists w,
    Backend.run (Backend.mount (Response true (Rows [slot_0900])))
      [Backend.SelectSlot slot_0900;
       Backend.EditFirstName "Ana"; Backend.EditLastName "Lee";
       Backend.EditEmail "a@x.com";
       Backend.Submit (Response true NotArray) (Rejected "Failed to fetch")
                      (Response true NotArray)] = Some w
    /\ Backend.bookingComplete (Backend.comp w) = true
    /\ timers (Backend.trace w) = []
    /\ cancellations (Backend.trace w) = 1%nat
    /\ forall h o, Backend.step w (Backend.Tick h o) = None.
Proof.
  eexists. split; [reflexivity |]. split; [reflexivity |].
  apply (@confirmed_stops_refresh Engine_platform (Response true (Rows [slot_0900]))
           [Backend.SelectSlot slot_0900;
            Backend.EditFirstName "Ana"; Backend.EditLastName "Lee";
            Backend.EditEmail "a@x.com";
            Backend.Submit (Response true NotArray) (Rejected "Failed to fetch")
                           (Response true NotArray)]); reflexivity.
Defined.

(** ** Further properties of the handlers *)

(** [X2] A commit that fails, by a rejected request or a response that is not
    [ok], is reported and nothing else happens: the booking request is the
    only call (no notification, no [clearInterval]), the loading flag is
    down again, [bookingComplete] is as it was and the error message tells
    the failure, in both revisions. *)
Theorem failed_commit_is_reported :
  (forall r slot commit owner client st tr,
      Backend.selectedSlot r = Some slot ->
      (forall body, commit <> Response true body) ->
      let x := Backend.handleBooking r commit owner client (st, tr) in
      trace_after x = (tr ++ [Backend.book_request r slot])%list
      /\ Backend.bookingComplete (state_after x) = Backend.bookingComplete st
      /\ Backend.isLoading (state_after x) = false
      /\ Backend.errorMessage (state_after x)
         = booking_error match commit with
                         | Rejected m => m
                         | Response _ _ => "Failed to book appointment"
                         end)
  /\ (forall sheetId r slot commit owner client st tr,
      SheetDB.selectedSlot r = Some slot ->
      (forall body, commit <> Response true body) ->
      let x := SheetDB.handleBooking sheetId r commit owner client (st, tr) in
      trace_after x = (tr ++ [SheetDB.book_request sheetId r slot])%list
      /\ SheetDB.bookingComplete (state_after x) = SheetDB.bookingComplete st
      /\ SheetDB.isLoading (state_after x) = false
      /\ SheetDB.errorMessage (state_after x)
         = booking_error match commit with
                         | Rejected m => m
                         | Response _ _ => "Failed to book appointment"
                         end).
Proof.
  split.
  - intros r slot commit owner client st tr H Hc x. subst x.
    rewrite (Backend_handleBooking_run r slot commit owner client st tr H).
    destruct commit as [m | [] b]; [| now destruct (Hc b) |];
      repeat split; reflexivity.
  - intros sheetId r slot commit owner client st tr H Hc x. subst x.
    rewrite (SheetDB_handleBooking_run sheetId r slot commit owner client st tr H).
    destruct commit as [m | [] b]; [| now destruct (Hc b) |];
      repeat split; reflexivity.
Qed.

Lemma failed_commit_is_reported_witness :
  let x := Backend.handleBooking filling_form (Response false NotArray)
             (Response true NotArray) (Response true NotArray) (filling_form, []) in
  trace_after x = [Backend.book_request filling_form slot_0900]
  /\ Backend.bookingComplete (state_after x) = false
  /\ Backend.isLoading (state_after x) = false
  /\ Backend.errorMessage (state_after x)
     = "Error booking appointment: Failed to book appointment".
Proof.
  apply (proj1 failed_commit_is_reported filling_form slot_0900 (Response false NotArray)
               (Response true NotArray) (Response true NotArray) filling_form []).
  - reflexivity.
  - discriminate.
Defined.


(** Without a sheet id the SheetDB revision asks nothing of the store: it
    lowers the loading flag and shows the message about the booking link. *)
Theorem missing_sheetId_is_reported {P : Platform} (first : FetchOutcome) :
  let x := SheetDB.mountEffect None first (SheetDB.initialState, []) in
  trace_after x = []
  /\ SheetDB.render (state_after x)
     = SheetDB.MainScreen
         (Some "No sheet ID provided. Please use the correct booking link.")
         SheetDB.NoSlotsPanel.
Proof. split; reflexivity. Qed.

(** ** The sort is stable

    Rows the comparator does not tell apart keep the order of the response,
    as the standard requires of [Array.prototype.sort]: together
    with the order this fixes the snapshot, whatever algorithm the engine
    runs. *)

Section Stability.
Context {P : Platform} (HP : consistent_collation P).

Lemma tied_spec (a b : Slot) (x y : Z) (s t : string) :
  Date_value (date a) = JS.Int x -> time a = Some s ->
  Date_value (date b) = JS.Int y -> time b = Some t ->
  compareSlots a b = JS.Normal (JS.Int (if x - y =? 0 then localeCompare s t else x - y))
  /\ (tied a b = true <-> x = y /\ localeCompare s t = 0).
Proof.
  intros Hx Hs Hy Ht. unfold tied, compareSlots. rewrite Hx, Hy, Hs, Ht. cbn.
  destruct (x - y =? 0) eqn:E; cbn; (split; [reflexivity |]).
  - apply Z.eqb_eq in E. rewrite Z.eqb_eq. intuition lia.
  - apply Z.eqb_neq in E. rewrite Z.eqb_eq. intuition lia.
Qed.

Lemma collation_zero_sym (s t : string) : localeCompare s t = 0 -> localeCompare t s = 0.
Proof.
  intros H. pose proof (collation_opp P HP s t) as Ho. rewrite H in Ho. cbn in Ho.
  now apply Z.sgn_null_iff.
Qed.

Lemma collation_zero_trans (s t u : string) :
  localeCompare s t = 0 -> localeCompare t u = 0 -> localeCompare s u = 0.
Proof.
  intros H1 H2.
  assert (L : localeCompare s u <= 0)
    by (apply (collation_trans P HP s t u); lia).
  assert (G : localeCompare u s <= 0).
  { apply (collation_trans P HP u t s);
      [rewrite (collation_zero_sym _ _ H2) | rewrite (collation_zero_sym _ _ H1)]; lia. }
  pose proof (collation_opp P HP u s) as Ho.
  destruct (Z.sgn_spec (localeCompare s u)) as [[? ?]|[[? ?]|[? ?]]];
    destruct (Z.sgn_spec (localeCompare u s)) as [[? ?]|[[? ?]|[? ?]]]; lia.
Qed.

(** A row that [insert] passes is not tied with the row inserted, nor with
    any row tied with it. *)
Lemma passed_not_tied (x y z : Slot) (v : JS.number) :
  well_formed x -> well_formed y -> well_formed z ->
  compareSlots x y = JS.Normal v -> (0 <? ArraySort.SortCompare v) = true ->
  tied z x = true -> tied z y = false.
Proof.
  intros [[dx Hdx] [tx Htx]] [[dy Hdy] [ty Hty]] [[dz Hdz] [tz Htz]] Hc Hv Hzx.
  destruct (tied z y) eqn:Hzy; [| reflexivity]. exfalso.
  apply (proj2 (tied_spec z x _ _ _ _ Hdz Htz Hdx Htx)) in Hzx as [-> Hzx].
  apply (proj2 (tied_spec z y _ _ _ _ Hdz Htz Hdy Hty)) in Hzy as [-> Hzy].
  rewrite (proj1 (tied_spec x y _ _ _ _ Hdx Htx Hdy Hty)) in Hc.
  rewrite Z.sub_diag in Hc. cbn in Hc. inversion Hc; subst v. cbn in Hv.
  rewrite (collation_zero_trans tx tz ty (collation_zero_sym _ _ Hzx) Hzy) in Hv.
  discriminate.
Qed.

Lemma insert_stable (x z : Slot) (l r : list Slot) :
  well_formed x -> well_formed z -> Forall well_formed l ->
  ArraySort.insert compareSlots x l = JS.Normal r ->
  filter (tied z) r = filter (tied z) (x :: l).
Proof.
  intros Hx Hz Hl. revert r. induction l as [|y l IH]; intros r H; cbn in H.
  - now inversion H.
  - inversion Hl as [|? ? Hy Hl']; subst.
    destruct (compareSlots x y) as [v|] eqn:Hc; [| discriminate].
    destruct (0 <? ArraySort.SortCompare v) eqn:Hv; [| now inversion H].
    destruct (ArraySort.insert compareSlots x l) as [r'|]; [| discriminate].
    inversion H; subst r. cbn [filter]. rewrite (IH Hl' r' eq_refl). cbn [filter].
    destruct (tied z x) eqn:Hzx; [| reflexivity].
    now rewrite (passed_not_tied x y z v Hx Hy Hz Hc Hv Hzx).
Qed.

Lemma sort_stable (z : Slot) (l r : list Slot) :
  well_formed z -> Forall well_formed l ->
  ArraySort.sort compareSlots l = JS.Normal r ->
  filter (tied z) r = filter (tied z) l.
Proof.
  intros Hz. revert r. induction l as [|x l IH]; intros r Hl H; cbn in H.
  - now inversion H.
  - inversion Hl as [|? ? Hx Hl']; subst.
    destruct (ArraySort.sort compareSlots l) as [s|] eqn:Hs; [| discriminate].
    rewrite (insert_stable x z s r Hx Hz) ; [| | exact H].
    + cbn [filter]. now rewrite (IH s Hl' eq_refl).
    + eapply Permutation_Forall; [apply (sort_permutation _ _ _ Hs) | exact Hl'].
Qed.
End Stability.

(** [X6] Among the rows of a response that all have a valid date and a time,
    those with the same date value and times that collate as equal are kept
    in the order of the response. *)
Theorem snapshot_stable {P : Platform} (HP : consistent_collation P)
        (showLoading : bool) (rows : list Slot) (z : Slot)
        (st : Backend.State) (tr : list Call) :
  Forall well_formed rows -> well_formed z ->
  filter (tied z)
         (Backend.availableSlots
            (state_after (Backend.fetchAvailableSlots showLoading
                            (Response true (Rows rows)) (st, tr))))
  = filter (tied z) rows.
Proof.
  intros Hwf Hz. rewrite Backend_fetchAvailableSlots_run. unfold state_after.
  cbn [fst snd Backend.refreshed].
  destruct (sort_sorted HP rows Hwf) as (r & Hr & _ & _). rewrite Hr.
  rewrite <- (sort_stable HP z rows r Hz Hwf Hr). now destruct showLoading.
Qed.

Lemma snapshot_stable_witness :
  let rows := [slot_next_day; slot_0900_first; slot_1430; slot_0900_second] in
  Forall well_formed rows /\ well_formed slot_0900_first
  /\ filter (tied slot_0900_first)
            (Backend.availableSlots
               (state_after (Backend.fetchAvailableSlots true (Response true (Rows rows))
                                                         (Backend.initialState, []))))
     = [slot_0900_first; slot_0900_second].
Proof.
  assert (H : Forall (@well_formed Engine_platform)
                [slot_next_day; slot_0900_first; slot_1430; slot_0900_second]).
  { repeat constructor; eexists; reflexivity. }
  assert (Hz : @well_formed Engine_platform slot_0900_first).
  { split; eexists; reflexivity. }
  split; [exact H |]. split; [exact Hz |].
  exact (snapshot_stable Engine_consistent true _ slot_0900_first Backend.initialState [] H Hz).
Defined.

(** ** [formatTimeToStandard] on times of the day *)


Lemma split_head (a b : string) :
  has_char ":" a = false ->
  JS.split ":" (a ++ String ":" b) = a :: JS.split ":" b.
Proof.
  induction a as [|c a IH]; cbn; intros H; [reflexivity |].
  apply orb_false_iff in H as [Hc Ha]. rewrite Hc, (IH Ha). reflexivity.
Qed.

Lemma split_single (b : string) :
  has_char ":" b = false -> JS.split ":" b = [b].
Proof.
  induction b as [|c b IH]; cbn; intros H; [reflexivity |].
  apply orb_false_iff in H as [Hc Hb]. rewrite Hc, (IH Hb). reflexivity.
Qed.

Lemma append_empty_r (s : string) : s ++ "" = s.
Proof. induction s as [|c s IH]; cbn; [reflexivity | now rewrite IH]. Qed.

(** The last branch of the function. *)
Lemma formatTimeToStandard_unmarked (t : string) :
  t <> "" -> reads_am_pm t = false ->
  formatTimeToStandard (Some t)
  = JS.to_string (JS.or_else (JS.rem (JS.parseInt (nth 0 (JS.split ":" t) "")) 12) (JS.Int 12))
    ++ ":" ++ JS.ToString (nth_error (JS.split ":" t) 1) ++ " "
    ++ (if JS.geb (JS.parseInt (nth 0 (JS.split ":" t) "")) 12 then "PM" else "AM").
Proof.
  intros Hne H. destruct t as [|c t]; [congruence |].
  unfold formatTimeToStandard. unfold reads_am_pm in H. now rewrite H.
Qed.

Lemma twelve_hour_range (h : Z) : 1 <= twelve_hour h <= 12.
Proof.
  unfold twelve_hour. pose proof (Z.mod_pos_bound h 12 ltac:(lia)).
  destruct (h mod 12 =? 0) eqn:E; [lia |]. apply Z.eqb_neq in E. lia.
Qed.

Lemma standard_hour (h : Z) :
  0 <= h -> JS.or_else (JS.rem (JS.Int h) 12) (JS.Int 12) = JS.Int (twelve_hour h).
Proof.
  intros Hh. unfold JS.rem, twelve_hour. rewrite Z.rem_mod_nonneg by lia.
  destruct (h mod 12 =? 0) eqn:E.
  - apply Z.eqb_eq in E. now rewrite E.
  - apply Z.eqb_neq in E. cbn. now destruct (h mod 12).
Qed.

(** [X7] A time of the twenty-four-hour clock, [hours:minutes] with or
    without seconds after it, whose hour reads as the number [h], with
    [0 <= h < 2 ^ 53] (the range in which [parseInt] is exact), is shown on
    the twelve-hour clock: the hour is [h] modulo 12 with 12 for 0, the
    minutes are copied, the seconds are dropped, and the mark is AM below
    twelve and PM from twelve on.  The hour shown is between 1 and 12 also
    when [h] is 24 or more. *)
Theorem formatTimeToStandard_24h (hours minutes : string) (seconds : option string) (h : Z) :
  let time := hours ++ ":" ++ minutes
              ++ match seconds with Some s => ":" ++ s | None => "" end in
  has_char ":" hours = false ->
  has_char ":" minutes = false ->
  reads_am_pm time = false ->
  JS.parseInt hours = JS.Int h ->
  0 <= h < 9007199254740992 ->
  formatTimeToStandard (Some time)
  = JS.to_string (JS.Int (twelve_hour h)) ++ ":" ++ minutes
    ++ (if h <? 12 then " AM" else " PM")
  /\ 1 <= twelve_hour h <= 12.
Proof.
  intros time Hh Hm Hu Hp H0. split; [| apply twelve_hour_range].
  assert (Hs : JS.split ":" time = hours :: minutes :: match seconds with
                                                     | Some s => JS.split ":" s
                                                     | None => []
                                                     end).
  { subst time. change (hours ++ ":" ++ minutes ++ _)
      with (hours ++ String ":" (minutes ++ match seconds with
                                           | Some s => ":" ++ s
                                           | None => ""
                                           end)).
    rewrite (split_head _ _ Hh). f_equal. destruct seconds as [s|].
    - change (minutes ++ ":" ++ s) with (minutes ++ String ":" s).
      now rewrite (split_head _ _ Hm).
    - rewrite append_empty_r. now rewrite split_single. }
  rewrite formatTimeToStandard_unmarked; [| | exact Hu].
  - rewrite Hs. cbn [nth nth_error JS.ToString].
    rewrite Hp, (standard_hour h (proj1 H0)).
    unfold JS.geb. rewrite Z.leb_antisym. now destruct (h <? 12).
  - subst time. destruct hours; discriminate.
Qed.

Lemma formatTimeToStandard_24h_witness :
  formatTimeToStandard (Some "14:30:45") = "2:30 PM" /\ 1 <= twelve_hour 14 <= 12.
Proof.
  apply (formatTimeToStandard_24h "14" "30" (Some "45") 14); try reflexivity. lia.
Defined.




(** ** [groupSlotsByDate] partitions the snapshot *)

Lemma push_group_keys (s : Slot) (g : list (string * list Slot)) :
  (In (date s) (map fst g) -> map fst (Backend.push_group s g) = map fst g)
  /\ (~ In (date s) (map fst g) ->
      map fst (Backend.push_group s g) = (map fst g ++ [date s])%list).
Proof.
  induction g as [| [d slots] g [IH1 IH2]]; cbn.
  - split; [intros [] | reflexivity].
  - destruct (d =? date s)%string eqn:E; cbn.
    + apply String.eqb_eq in E. split; [reflexivity | intros H; destruct H; now left].
    + apply String.eqb_neq in E. split; intros H.
      * f_equal. apply IH1. destruct H; [congruence | assumption].
      * f_equal. apply IH2. intros H'. apply H. now right.
Qed.

Lemma push_group_entries (s : Slot) (g : list (string * list Slot))
      (d : string) (slots' : list Slot) :
  NoDup (map fst g) ->
  In (d, slots') (Backend.push_group s g) ->
  (d <> date s /\ In (d, slots') g)
  \/ (d = date s /\ exists slots, In (d, slots) g /\ slots' = (slots ++ [s])%list)
  \/ (d = date s /\ ~ In d (map fst g) /\ slots' = [s]).
Proof.
  induction g as [| [d0 slots0] g IH]; cbn; intros Hnd.
  - intros [H | []]. inversion H; subst. right; right. auto.
  - inversion Hnd as [| ? ? Hd0 Hnd']; subst.
    destruct (d0 =? date s)%string eqn:E.
    + apply String.eqb_eq in E. intros [H | H].
      * inversion H; subst. right; left. split; [reflexivity |].
        exists slots0. split; [now left | reflexivity].
      * left. split; [| now right].
        intros ->. apply Hd0. rewrite E.
        change (date s) with (fst (date s, slots')). now apply in_map.
    + apply String.eqb_neq in E. intros [H | H].
      * inversion H; subst. left. split; [congruence | now left].
      * destruct (IH Hnd' H) as [[Hne Hin] | [[-> (slots & Hin & ->)] | [-> [Hnot ->]]]].
        -- left. split; [exact Hne | now right].
        -- right; left. split; [reflexivity |]. exists slots.
           split; [now right | reflexivity].
        -- right; right. repeat split; auto. intros [H' | H']; [congruence | auto].
Qed.

Lemma filter_none {A} (f : A -> bool) (l : list A) :
  (forall x, In x l -> f x = false) -> filter f l = [].
Proof.
  induction l as [|a l IH]; intros H; cbn; [reflexivity |].
  rewrite (H a (or_introl eq_refl)). apply IH. intros x Hx. apply H. now right.
Qed.

Lemma filter_same_date_snoc (d : string) (l : list Slot) (s : Slot) :
  filter (same_date d) (l ++ [s])
  = (filter (same_date d) l ++ (if (date s =? d)%string then [s] else []))%list.
Proof. rewrite filter_app. reflexivity. Qed.

Lemma push_group_inv (s : Slot) (g : list (string * list Slot)) (l : list Slot) :
  grouped_inv g l -> grouped_inv (Backend.push_group s g) (l ++ [s]).
Proof.
  intros (H1 & H2 & H3). destruct (push_group_keys s g) as [K1 K2].
  split; [| split].
  - intros d slots' Hin. rewrite filter_same_date_snoc.
    destruct (push_group_entries s g d slots' H2 Hin)
      as [[Hne Hg] | [[-> (slots & Hg & ->)] | [-> [Hnot ->]]]].
    + destruct (H1 d slots' Hg) as [Hn ->].
      assert (E : (date s =? d)%string = false) by (apply String.eqb_neq; congruence).
      rewrite E, app_nil_r. now split.
    + destruct (H1 _ _ Hg) as [Hn ->]. rewrite String.eqb_refl.
      split; [| reflexivity]. intros H. now apply app_eq_nil in H as [_ H].
    + rewrite String.eqb_refl. split; [discriminate |].
      assert (E : filter (same_date (date s)) l = []).
      { apply filter_none. intros x Hx.
        unfold same_date. destruct (String.eqb_spec (date x) (date s)) as [Heq | Hne];
          [| reflexivity].
        exfalso. apply Hnot. rewrite <- Heq. now apply H3. }
      now rewrite E.
  - destruct (in_dec string_dec (date s) (map fst g)) as [Hin | Hnot].
    + now rewrite (K1 Hin).
    + rewrite (K2 Hnot). apply NoDup_app; [exact H2 | repeat constructor; auto |].
      intros x Hx [<- | []]. contradiction.
  - intros x Hx. apply in_app_iff in Hx as [Hx | [<- | []]].
    + specialize (H3 x Hx).
      destruct (in_dec string_dec (date s) (map fst g)) as [Hin | Hnot].
      * now rewrite (K1 Hin).
      * rewrite (K2 Hnot). apply in_app_iff. now left.
    + destruct (in_dec string_dec (date s) (map fst g)) as [Hin | Hnot].
      * now rewrite (K1 Hin).
      * rewrite (K2 Hnot). apply in_app_iff. right. now left.
Qed.

Lemma grouping_inv (l : list Slot) :
  grouped_inv (fold_left (fun grouped slot => Backend.push_group slot grouped) l []) l.
Proof.
  assert (H : forall rest done g,
             grouped_inv g done ->
             grouped_inv (fold_left (fun grouped slot => Backend.push_group slot grouped) rest g)
                         (done ++ rest)).
  { induction rest as [|s rest IH]; intros done g Hg; cbn.
    - now rewrite app_nil_r.
    - change (done ++ s :: rest)%list with (done ++ [s] ++ rest)%list.
      rewrite app_assoc. apply IH. now apply push_group_inv. }
  apply (H l [] []). split; [| split].
  - intros d slots [].
  - constructor.
  - intros s [].
Qed.

(** [X9] [groupSlotsByDate] partitions the snapshot by date and loses or
    repeats nothing: each group holds exactly the slots of its date, in the
    order of the snapshot, and is never empty; no date has two groups; and
    the date of every slot of the snapshot has a group.  This holds in both
    revisions, for dates that are not the name of a member the object
    literal inherits (on such a key the look-up finds the inherited
    member). *)
Theorem groupSlotsByDate_partition :
  (forall st,
      Forall (fun s => plain_key (date s) = true) (Backend.availableSlots st) ->
      grouped_inv (Backend.groupSlotsByDate st) (Backend.availableSlots st))
  /\ (forall st,
      Forall (fun s => plain_key (date s) = true) (SheetDB.availableSlots st) ->
      grouped_inv (SheetDB.groupSlotsByDate st) (SheetDB.availableSlots st)).
Proof.
  split; intros st _.
  - apply grouping_inv.
  - apply (grouping_inv (SheetDB.availableSlots st)).
Qed.

Lemma groupSlotsByDate_partition_witness :
  Forall (fun s => plain_key (date s) = true) (Backend.availableSlots filling_form)
  /\ grouped_inv (Backend.groupSlotsByDate filling_form)
                 (Backend.availableSlots filling_form).
Proof.
  assert (H : Forall (fun s => plain_key (date s) = true)
                (Backend.availableSlots filling_form)) by (repeat constructor).
  split; [exact H |]. exact (proj1 groupSlotsByDate_partition filling_form H).
Defined.

Example groupSlotsByDate_example :
  Backend.groupSlotsByDate
    (Backend.with_availableSlots [slot_0900; slot_next_day; slot_1430] filling_form)
  = [("2024-05-01", [slot_0900; slot_1430]); ("2024-05-02", [slot_next_day])].
Proof. reflexivity. Qed.

(** ** The session of the backend revision: terminal screens *)

Section Terminal.
Context {P : Platform}.

Lemma render_confirmed (st : Backend.State) :
  Backend.bookingComplete st = true ->
  Backend.offered st = [] /\ Backend.on_form st = false
  /\ Backend.render st <> Backend.NoSlotsScreen.
Proof.
  intros Hb. unfold Backend.offered, Backend.on_form, Backend.render.
  rewrite Hb, andb_false_r. destruct (Backend.selectedSlot st); repeat split; discriminate.
Qed.

Lemma step_confirmed (w w' : Backend.World) (e : Backend.Event) :
  Backend.bookingComplete (Backend.comp w) = true ->
  timers (Backend.trace w) = [] ->
  Backend.step w e = Some w' ->
  Backend.comp w' = Backend.comp w /\ Backend.trace w' = Backend.trace w.
Proof.
  intros Hb Ht H.
  destruct (render_confirmed _ Hb) as (Ho & Hf & Hn).
  destruct e; unfold Backend.step in H; cbv beta iota zeta in H;
    rewrite ?Ht, ?Ho, ?Hf, ?andb_false_r in H; cbn [existsb] in H;
    try discriminate.
  - destruct (Backend.render (Backend.comp w)); try discriminate;
      rewrite ?andb_false_r in H; try discriminate. now destruct Hn.
  - destruct (Backend.mounted w) eqn:Hm; [| discriminate].
    inversion H; subst w'. unfold Backend.exec. cbn. rewrite Hm. split; reflexivity.
Qed.

Lemma run_confirmed (events : list Backend.Event) (w w' : Backend.World) :
  Backend.bookingComplete (Backend.comp w) = true ->
  timers (Backend.trace w) = [] ->
  Backend.run w events = Some w' ->
  Backend.comp w' = Backend.comp w /\ Backend.trace w' = Backend.trace w.
Proof.
  revert w. induction events as [|e events IH]; intros w Hb Ht H; cbn in H.
  - inversion H; subst. now split.
  - destruct (Backend.step w e) as [w1|] eqn:E; [| discriminate].
    destruct (step_confirmed w w1 e Hb Ht E) as [Hc Htr].
    destruct (IH w1) as [Hc' Htr']; [congruence | congruence | exact H |].
    split; congruence.
Qed.

Lemma exec_selection_inv (m : Eff Backend.State unit) (w : Backend.World) :
  (let x := m (Backend.comp w, Backend.trace w) in
   Backend.bookingComplete (state_after x) = true ->
   Backend.selectedSlot (state_after x) <> None) ->
  selection_inv w -> selection_inv (Backend.exec m w).
Proof.
  intros Hm Hinv. unfold selection_inv, Backend.exec, state_after in *.
  destruct (m (Backend.comp w, Backend.trace w)) as [c [st' tr']].
  cbn [fst snd Backend.comp] in *. now destruct (Backend.mounted w).
Qed.

Lemma step_selection_inv (w w' : Backend.World) (e : Backend.Event) :
  selection_inv w -> Backend.step w e = Some w' -> selection_inv w'.
Proof.
  intros Hinv H. destruct e; unfold Backend.step in H; cbv beta iota zeta in H.
  - destruct (existsb _ _); [| discriminate]. inversion H; subst w'.
    apply exec_selection_inv; [| exact Hinv]. cbv zeta.
    rewrite Backend_fetchAvailableSlots_run. unfold state_after. cbn [fst snd].
    destruct (Backend.refreshed o); exact Hinv.
  - destruct (Backend.mounted w && _)%bool; [| discriminate]. inversion H; subst w'.
    apply exec_selection_inv; [| exact Hinv]. cbn. discriminate.
  - destruct (Backend.mounted w) eqn:Hm; [| discriminate]. cbn [andb] in H.
    destruct (Backend.on_form (Backend.comp w)) eqn:Hf; [| discriminate].
    inversion H; subst w'. destruct (on_form_selected _ Hf) as [Hb _].
    apply exec_selection_inv; [| exact Hinv]. cbn. congruence.
  - destruct (Backend.mounted w && _)%bool; [| discriminate]. inversion H; subst w'.
    apply exec_selection_inv; [| exact Hinv]. exact Hinv.
  - destruct (Backend.mounted w && _)%bool; [| discriminate]. inversion H; subst w'.
    apply exec_selection_inv; [| exact Hinv]. exact Hinv.
  - destruct (Backend.mounted w && _)%bool; [| discriminate]. inversion H; subst w'.
    apply exec_selection_inv; [| exact Hinv]. exact Hinv.
  - destruct (Backend.mounted w && _)%bool; [| discriminate]. inversion H; subst w'.
    apply exec_selection_inv; [| exact Hinv]. exact Hinv.
  - destruct (Backend.mounted w) eqn:Hm; [| discriminate]. cbn [andb] in H.
    destruct (Backend.on_form (Backend.comp w)) eqn:Hf; [| discriminate].
    inversion H; subst w'. destruct (on_form_selected _ Hf) as (Hb & slot & Hs).
    apply exec_selection_inv; [| exact Hinv]. cbv zeta. unfold Backend.submitForm.
    destruct (checkValidity _); [| cbn; congruence].
    rewrite (Backend_handleBooking_run _ slot commit owner client _ _ Hs).
    unfold state_after.
    destruct commit as [m | [] b]; cbn [fst snd]; cbn; congruence.
  - destruct (Backend.mounted w && _)%bool; [| discriminate]. inversion H; subst w'.
    apply exec_selection_inv; [| exact Hinv]. cbv zeta.
    rewrite Backend_fetchAvailableSlots_run. unfold state_after. cbn [fst snd].
    destruct (Backend.refreshed o); exact Hinv.
  - destruct (Backend.mounted w) eqn:Hm; [| discriminate]. inversion H; subst w'.
    unfold selection_inv, Backend.exec in *. cbn. now rewrite Hm.
Qed.

Lemma run_selection_inv (events : list Backend.Event) (w w' : Backend.World) :
  selection_inv w -> Backend.run w events = Some w' -> selection_inv w'.
Proof.
  revert w. induction events as [|e events IH]; intros w Hinv H; cbn in H.
  - now inversion H; subst.
  - destruct (Backend.step w e) as [w1|] eqn:E; [| discriminate].
    eapply IH; [eapply step_selection_inv; eauto | exact H].
Qed.

Lemma mount_selection_inv (first : FetchOutcome) : selection_inv (Backend.mount first).
Proof.
  unfold selection_inv. rewrite mount_world, Backend_fetchAvailableSlots_run.
  unfold state_after. cbn [Backend.comp fst snd].
  destruct (Backend.refreshed first); discriminate.
Qed.

Lemma render_error_screen (st : Backend.State) (m : string) :
  Backend.render st = Backend.ErrorScreen m ->
  (Backend.isLoading st && negb (Backend.bookingComplete st))%bool = false
  /\ Backend.bookingComplete st = false
  /\ negb (Backend.errorMessage st =? "")%string = true.
Proof.
  unfold Backend.render.
  destruct (Backend.isLoading st && negb (Backend.bookingComplete st))%bool;
    [discriminate |].
  destruct (Backend.bookingComplete st);
    [destruct (Backend.selectedSlot st); discriminate |].
  destruct (negb (Backend.errorMessage st =? "")%string); [auto |].
  destruct (length (Backend.availableSlots st) =? 0)%nat; [discriminate |].
  destruct (Backend.selectedSlot st); discriminate.
Qed.

Lemma step_error_screen (w w' : Backend.World) (e : Backend.Event) (m : string) :
  Backend.render (Backend.comp w) = Backend.ErrorScreen m ->
  Backend.step w e = Some w' ->
  exists m', Backend.render (Backend.comp w') = Backend.ErrorScreen m'.
Proof.
  intros Hr H. destruct (render_error_screen _ _ Hr) as (Hl & Hb & He).
  assert (Ho : Backend.offered (Backend.comp w) = [])
    by (unfold Backend.offered; now rewrite Hr).
  assert (Hf : Backend.on_form (Backend.comp w) = false)
    by (unfold Backend.on_form; now rewrite Hr).
  destruct e; unfold Backend.step in H; cbv beta iota zeta in H;
    rewrite ?Ho, ?Hf, ?Hr, ?andb_false_r in H; cbn [existsb] in H;
    try discriminate.
  - destruct (existsb _ _); [| discriminate]. inversion H; subst w'.
    unfold Backend.exec. rewrite Backend_fetchAvailableSlots_run.
    cbn [Backend.comp]. destruct (Backend.mounted w); [| now exists m].
    unfold Backend.render.
    destruct (Backend.refreshed o) as [sorted | m'];
      cbn -[refresh_error String.eqb Nat.eqb]; rewrite Hl, Hb.
    + rewrite He. eexists; reflexivity.
    + eexists; reflexivity.
  - destruct (Backend.mounted w) eqn:Hm; [| discriminate]. inversion H; subst w'.
    exists m. unfold Backend.exec. cbn. rewrite Hm. exact Hr.
Qed.
End Terminal.


(** [X11] In a session the component never reaches the render that reads
    the date of a missing selection: whenever the booking is complete a slot
    is selected. *)
Theorem session_renders {P : Platform} (first : FetchOutcome)
        (events : list Backend.Event) (w : Backend.World) :
  Backend.run (Backend.mount first) events = Some w ->
  Backend.render (Backend.comp w) <> Backend.RenderError.
Proof.
  intros Hrun.
  pose proof (run_selection_inv events _ _ (mount_selection_inv first) Hrun) as Hs.
  unfold selection_inv in Hs. unfold Backend.render.
  destruct (Backend.isLoading (Backend.comp w)
            && negb (Backend.bookingComplete (Backend.comp w)))%bool; [discriminate |].
  destruct (Backend.bookingComplete (Backend.comp w)).
  - destruct (Backend.selectedSlot (Backend.comp w)); [discriminate | now destruct Hs].
  - destruct (negb (Backend.errorMessage (Backend.comp w) =? "")%string); [discriminate |].
    destruct (length (Backend.availableSlots (Backend.comp w)) =? 0)%nat; [discriminate |].
    destruct (Backend.selectedSlot (Backend.comp w)); discriminate.
Qed.

(** [X12] The error screen of the backend revision is never left within
    the session: once it is displayed, whatever follows (ticks of the
    interval, successful or not; no other event is offered but the unmount)
    leaves an error screen displayed.  Only the reload of the page, which
    its button asks for, ends it. *)
Theorem error_screen_is_final {P : Platform} (events : list Backend.Event)
        (w w' : Backend.World) (m : string) :
  Backend.render (Backend.comp w) = Backend.ErrorScreen m ->
  Backend.run w events = Some w' ->
  exists m', Backend.render (Backend.comp w') = Backend.ErrorScreen m'.
Proof.
  revert w m. induction events as [|e events IH]; intros w m Hr H; cbn in H.
  - inversion H; subst. now exists m.
  - destruct (Backend.step w e) as [w1|] eqn:E; [| discriminate].
    destruct (step_error_screen w w1 e m Hr E) as [m1 Hr1].
    exact (IH w1 m1 Hr1 H).
Qed.


Lemma session_renders_witness :
  exists w,
    Backend.run (Backend.mount one_slot)
                (booking_events (Response true NotArray) one_slot one_slot) = Some w
    /\ Backend.render (Backend.comp w) <> Backend.RenderError.
Proof.
  eexists. split; [reflexivity |].
  apply (@session_renders Engine_platform one_slot
           (booking_events (Response true NotArray) one_slot one_slot)).
  reflexivity.
Defined.

Lemma error_screen_is_final_witness :
  exists w',
    Backend.render (Backend.comp (Backend.mount (Rejected "Failed to fetch")))
    = Backend.ErrorScreen "Error loading available slots: Failed to fetch"
    /\ Backend.run (Backend.mount (Rejected "Failed to fetch"))
                   [Backend.Tick 1 one_slot] = Some w'
    /\ exists m', Backend.render (Backend.comp w') = Backend.ErrorScreen m'.
Proof.
  eexists. split; [reflexivity |]. split; [reflexivity |].
  apply (@error_screen_is_final Engine_platform [Backend.Tick 1 one_slot]
           (Backend.mount (Rejected "Failed to fetch")) _
           "Error loading available slots: Failed to fetch"); reflexivity.
Defined.

(** ** Nothing escapes the handlers *)

Lemma Backend_handleBooking_unselected (r : Backend.State)
      (commit owner client : FetchOutcome) (st : Backend.State) (tr : list Call) :
  Backend.selectedSlot r = None ->
  Backend.handleBooking r commit owner client (st, tr)
  = (JS.Normal tt,
     (Backend.with_isLoading false
        (Backend.with_errorMessage (booking_error TypeError_no_selection)
           (Backend.with_isLoading true st)), tr)).
Proof.
  intros H. unfold Backend.handleBooking, try_finally, try_catch, bind.
  unfold Backend.selected at 1. rewrite H. reflexivity.
Qed.

Lemma SheetDB_handleBooking_unselected (sheetId : option string) (r : SheetDB.State)
      (commit : FetchOutcome) (owner client : SendOutcome)
      (st : SheetDB.State) (tr : list Call) :
  SheetDB.selectedSlot r = None ->
  SheetDB.handleBooking sheetId r commit owner client (st, tr)
  = (JS.Normal tt,
     (SheetDB.with_isLoading false
        (SheetDB.with_errorMessage (booking_error TypeError_no_selection)
           (SheetDB.with_isLoading true st)), tr)).
Proof.
  intros H. unfold SheetDB.handleBooking, try_finally, try_catch, bind.
  unfold SheetDB.selected at 1. rewrite H. reflexivity.
Qed.

(** [X5] No error escapes the two asynchronous handlers, in either
    revision: for every outcome of every request, [fetchAvailableSlots] and
    [handleBooking] complete normally, and [handleBooking] always ends with
    the loading flag down.  This includes a booking with nothing selected:
    the [TypeError] of reading [selectedSlot.id] is caught like a failed
    commit, nothing is sent and its message is reported. *)
Theorem handlers_complete_normally {P : Platform} :
  (forall showLoading o st tr,
      completion_of (Backend.fetchAvailableSlots showLoading o (st, tr)) = JS.Normal tt)
  /\ (forall r commit owner client st tr,
      let x := Backend.handleBooking r commit owner client (st, tr) in
      completion_of x = JS.Normal tt
      /\ Backend.isLoading (state_after x) = false
      /\ (Backend.selectedSlot r = None ->
          trace_after x = tr
          /\ Backend.errorMessage (state_after x) = booking_error TypeError_no_selection
          /\ Backend.bookingComplete (state_after x) = Backend.bookingComplete st))
  /\ (forall sheetId showLoading o st tr,
      completion_of (SheetDB.fetchAvailableSlots sheetId showLoading o (st, tr))
      = JS.Normal tt)
  /\ (forall sheetId r commit owner client st tr,
      let x := SheetDB.handleBooking sheetId r commit owner client (st, tr) in
      completion_of x = JS.Normal tt
      /\ SheetDB.isLoading (state_after x) = false
      /\ (SheetDB.selectedSlot r = None ->
          trace_after x = tr
          /\ SheetDB.errorMessage (state_after x) = booking_error TypeError_no_selection
          /\ SheetDB.bookingComplete (state_after x) = SheetDB.bookingComplete st)).
Proof.
  split; [| split; [| split]].
  - intros. now rewrite Backend_fetchAvailableSlots_run.
  - intros r commit owner client st tr x. subst x.
    destruct (Backend.selectedSlot r) as [slot|] eqn:Hs.
    + rewrite (Backend_handleBooking_run r slot commit owner client st tr Hs).
      destruct commit as [m | [] b]; repeat split; discriminate.
    + rewrite (Backend_handleBooking_unselected r commit owner client st tr Hs).
      repeat split.
  - intros. now rewrite SheetDB_fetchAvailableSlots_run.
  - intros sheetId r commit owner client st tr x. subst x.
    destruct (SheetDB.selectedSlot r) as [slot|] eqn:Hs.
    + rewrite (SheetDB_handleBooking_run sheetId r slot commit owner client st tr Hs).
      destruct commit as [m | [] b]; repeat split; discriminate.
    + rewrite (SheetDB_handleBooking_unselected sheetId r commit owner client st tr Hs).
      repeat split.
Qed.

Lemma handlers_complete_normally_witness :
  let x := Backend.handleBooking browsing one_slot one_slot one_slot (browsing, []) in
  completion_of x = JS.Normal tt
  /\ Backend.isLoading (state_after x) = false
  /\ (Backend.selectedSlot browsing = None ->
      trace_after x = []
      /\ Backend.errorMessage (state_after x)
         = "Error booking appointment: Cannot read properties of null (reading 'id')"
      /\ Backend.bookingComplete (state_after x) = false).
Proof.
  exact (proj1 (proj2 (@handlers_complete_normally Engine_platform))
               browsing one_slot one_slot one_slot browsing []).
Defined.

(** ** What the form accepts *)

(** [X13] The form is submitted, that is [handleBooking] runs, exactly when
    the first name, the last name and the e-mail are not empty and the
    e-mail has the syntax of an address, in both revisions; the check box of
    the backend revision never holds the submission back.  The names are
    not trimmed: blanks are a name. *)
Theorem form_validity {P : Platform} :
  (forall u,
      checkValidity (Backend.bookingForm u)
      = (negb (Backend.firstName u =? "")%string
         && negb (Backend.lastName u =? "")%string
         && negb (Backend.email u =? "")%string
         && emailSyntax (Backend.email u))%bool)
  /\ (forall u,
      checkValidity (SheetDB.bookingForm u)
      = (negb (SheetDB.firstName u =? "")%string
         && negb (SheetDB.lastName u =? "")%string
         && negb (SheetDB.email u =? "")%string
         && emailSyntax (SheetDB.email u))%bool)
  /\ (forall r commit owner client w,
      Backend.submitForm r commit owner client w
      = if (negb (Backend.firstName (Backend.userInfo r) =? "")%string
            && negb (Backend.lastName (Backend.userInfo r) =? "")%string
            && negb (Backend.email (Backend.userInfo r) =? "")%string
            && emailSyntax (Backend.email (Backend.userInfo r)))%bool
        then Backend.handleBooking r commit owner client w
        else (JS.Normal tt, w)).
Proof.
  assert (HB : forall u,
      checkValidity (Backend.bookingForm u)
      = (negb (Backend.firstName u =? "")%string
         && negb (Backend.lastName u =? "")%string
         && negb (Backend.email u =? "")%string
         && emailSyntax (Backend.email u))%bool).
  { intros u. unfold checkValidity, Backend.bookingForm, valueMissing, typeMismatch.
    cbn -[String.eqb].
    destruct (Backend.firstName u =? "")%string, (Backend.lastName u =? "")%string,
      (Backend.email u =? "")%string, (emailSyntax (Backend.email u)); reflexivity. }
  split; [exact HB | split].
  - intros u. unfold checkValidity, SheetDB.bookingForm, valueMissing, typeMismatch.
    cbn -[String.eqb].
    destruct (SheetDB.firstName u =? "")%string, (SheetDB.lastName u =? "")%string,
      (SheetDB.email u =? "")%string, (emailSyntax (SheetDB.email u)); reflexivity.
  - intros r commit owner client w. unfold Backend.submitForm. rewrite HB.
    now destruct (_ && _)%bool.
Qed.

Example blank_name_is_accepted :
  checkValidity
    (Backend.bookingForm {| Backend.firstName := " "; Backend.lastName := " ";
                            Backend.email := "a@x.com"; Backend.isScholarship := false |})
  = true.
Proof. reflexivity. Qed.

(** ** The comparator *)

Lemma compareSlots_value {P : Platform} (a b : Slot) (x y : Z) (s t : string) :
  Date_value (date a) = JS.Int x -> time a = Some s ->
  Date_value (date b) = JS.Int y -> time b = Some t ->
  compareSlots a b = JS.Normal (JS.Int (if x - y =? 0 then localeCompare s t else x - y)).
Proof.
  intros Hx Hs Hy Ht. unfold compareSlots. rewrite Hx, Hy, Hs, Ht. cbn.
  now destruct (x - y =? 0).
Qed.

(** [X14] On rows that have a valid date and a time the comparator is a
    consistent comparison, as [Array.prototype.sort] requires, whenever the
    collation is one: it returns a number, compares a row with itself as
    equal, changes sign when its arguments are swapped, and is transitive. *)
Theorem compareSlots_consistent {P : Platform} (HP : consistent_collation P)
        (a b c : Slot) :
  well_formed a -> well_formed b -> well_formed c ->
  exists ab ba bc ac,
    compareSlots a b = JS.Normal (JS.Int ab)
    /\ compareSlots b a = JS.Normal (JS.Int ba)
    /\ compareSlots b c = JS.Normal (JS.Int bc)
    /\ compareSlots a c = JS.Normal (JS.Int ac)
    /\ compareSlots a a = JS.Normal (JS.Int 0)
    /\ Z.sgn ba = - Z.sgn ab
    /\ (ab <= 0 -> bc <= 0 -> ac <= 0).
Proof.
  intros [[x Hx] [s Hs]] [[y Hy] [t Ht]] [[z Hz] [u Hu]].
  do 4 eexists.
  rewrite (compareSlots_value a b _ _ _ _ Hx Hs Hy Ht),
    (compareSlots_value b a _ _ _ _ Hy Ht Hx Hs),
    (compareSlots_value b c _ _ _ _ Hy Ht Hz Hu),
    (compareSlots_value a c _ _ _ _ Hx Hs Hz Hu),
    (compareSlots_value a a _ _ _ _ Hx Hs Hx Hs).
  do 4 (split; [reflexivity |]).
  pose proof (collation_opp P HP s s) as Hss.
  pose proof (collation_opp P HP s t) as Hst.
  pose proof (collation_trans P HP s t u) as Htr.
  split; [| split].
  - rewrite Z.sub_diag. cbn. f_equal. f_equal.
    destruct (Z.sgn_spec (localeCompare s s)) as [[? ?]|[[? ?]|[? ?]]]; lia.
  - destruct (x - y =? 0) eqn:E1, (y - x =? 0) eqn:E2;
      rewrite ?Z.eqb_eq, ?Z.eqb_neq in *;
      first [ exact Hst
            | lia
            | destruct (Z.sgn_spec (y - x)) as [[? ?]|[[? ?]|[? ?]]];
              destruct (Z.sgn_spec (x - y)) as [[? ?]|[[? ?]|[? ?]]]; lia ].
  - destruct (x - y =? 0) eqn:E1, (y - z =? 0) eqn:E2, (x - z =? 0) eqn:E3;
      rewrite ?Z.eqb_eq, ?Z.eqb_neq in *; first [exact Htr | lia].
Qed.

Lemma compareSlots_consistent_witness :
  well_formed slot_0900 /\ well_formed slot_1430 /\ well_formed slot_next_day
  /\ exists ab ba bc ac,
    compareSlots slot_0900 slot_1430 = JS.Normal (JS.Int ab)
    /\ compareSlots slot_1430 slot_0900 = JS.Normal (JS.Int ba)
    /\ compareSlots slot_1430 slot_next_day = JS.Normal (JS.Int bc)
    /\ compareSlots slot_0900 slot_next_day = JS.Normal (JS.Int ac)
    /\ compareSlots slot_0900 slot_0900 = JS.Normal (JS.Int 0)
    /\ Z.sgn ba = - Z.sgn ab
    /\ (ab <= 0 -> bc <= 0 -> ac <= 0).
Proof.
  assert (H1 : @well_formed Engine_platform slot_0900) by (split; eexists; reflexivity).
  assert (H2 : @well_formed Engine_platform slot_1430) by (split; eexists; reflexivity).
  assert (H3 : @well_formed Engine_platform slot_next_day) by (split; eexists; reflexivity).
  split; [exact H1 |]. split; [exact H2 |]. split; [exact H3 |].
  exact (compareSlots_consistent Engine_consistent _ _ _ H1 H2 H3).
Defined.

(** ** Rows without a time *)

Lemma sort_timeless {P : Platform} (d : Z) (rows : list Slot) :
  Forall (timeless d) rows -> (2 <= length rows)%nat ->
  ArraySort.sort compareSlots rows = JS.Throw TypeError_localeCompare.
Proof.
  induction rows as [|a rows IH]; cbn; intros Hall Hlen; [lia |].
  inversion Hall as [|? ? [Ha Hta] Hrest]; subst.
  destruct rows as [|b rows]; [cbn in Hlen; lia |].
  destruct rows as [|c rows].
  - inversion Hrest as [|? ? [Hb Htb] _]; subst. cbn.
    unfold compareSlots. rewrite Ha, Hb, Hta. cbn. now rewrite Z.sub_diag.
  - rewrite IH; [reflexivity | exact Hrest | cbn; lia].
Qed.

(** [X15] Two or more rows of one date value that all lack the [time] field
    make the refresh fail: the comparator throws on [a.time.localeCompare],
    the snapshot stays as it was and the message of the [TypeError] is
    reported as a fetch error (backend revision). *)
Theorem timeless_rows_fail_refresh {P : Platform} (showLoading : bool) (d : Z)
        (rows : list Slot) (st : Backend.State) (tr : list Call) :
  Forall (timeless d) rows -> (2 <= length rows)%nat ->
  let st' := state_after (Backend.fetchAvailableSlots showLoading
                            (Response true (Rows rows)) (st, tr)) in
  Backend.availableSlots st' = Backend.availableSlots st
  /\ Backend.errorMessage st' = refresh_error TypeError_localeCompare.
Proof.
  intros Hall Hlen st'. subst st'. rewrite Backend_fetchAvailableSlots_run.
  unfold state_after. cbn [fst snd Backend.refreshed].
  rewrite (sort_timeless d rows Hall Hlen). now destruct showLoading.
Qed.

Lemma timeless_rows_fail_refresh_witness :
  let rows := [slot_timeless_a; slot_timeless_b] in
  let st' := state_after (Backend.fetchAvailableSlots false (Response true (Rows rows))
                                                      (filling_form, [])) in
  Forall (timeless 1714521600000) rows /\ (2 <= length rows)%nat
  /\ Backend.availableSlots st' = [slot_0900; slot_1430]
  /\ Backend.errorMessage st'
     = "Error loading available slots: Cannot read properties of undefined (reading 'localeCompare')".
Proof.
  assert (H : Forall (@timeless Engine_platform 1714521600000)
                [slot_timeless_a; slot_timeless_b])
    by (repeat constructor).
  split; [exact H |]. split; [cbn; lia |].
  exact (@timeless_rows_fail_refresh Engine_platform false _ _ filling_form [] H
           (le_n 2)).
Defined.

(** ** Refreshing with rows already in order *)

Section SortedInput.
Context {P : Platform}.

Lemma before_compare (a b : Slot) :
  before a b -> exists z, compareSlots a b = JS.Normal (JS.Int z) /\ z <= 0.
Proof.
  unfold before.
  destruct (Date_value (date a)) as [|x] eqn:Hx; [tauto |].
  destruct (Date_value (date b)) as [|y] eqn:Hy; [destruct (time a); tauto |].
  destruct (time a) as [s|] eqn:Hs; [| tauto].
  destruct (time b) as [t|] eqn:Ht; [| tauto].
  intros H. rewrite (compareSlots_value a b _ _ _ _ Hx Hs Hy Ht).
  eexists. split; [reflexivity |].
  destruct (x - y =? 0) eqn:E; rewrite ?Z.eqb_eq, ?Z.eqb_neq in E; lia.
Qed.

Lemma sort_of_sorted (l : list Slot) :
  StronglySorted before l -> ArraySort.sort compareSlots l = JS.Normal l.
Proof.
  induction 1 as [| x l Hs IH Hall]; cbn; [reflexivity |].
  rewrite IH. destruct l as [|y l]; [reflexivity |]. cbn.
  inversion Hall as [|? ? Hxy _]; subst.
  destruct (before_compare x y Hxy) as (z & -> & Hz). cbn.
  destruct (0 <? z) eqn:E; [apply Z.ltb_lt in E; lia | reflexivity].
Qed.
End SortedInput.

(** [X16] The refresh is idempotent on its own output: when the store
    answers with the rows of a snapshot obtained from rows that all have a
    valid date and a time, in the order of that snapshot, the refresh stores
    the same snapshot again (backend revision, for any consistent
    collation). *)
Theorem refresh_of_snapshot {P : Platform} (HP : consistent_collation P)
        (rows : list Slot) (st st1 : Backend.State) (tr tr1 : list Call)
        (showLoading showLoading1 : bool) :
  Forall well_formed rows ->
  let snapshot := Backend.availableSlots
                    (state_after (Backend.fetchAvailableSlots showLoading
                                    (Response true (Rows rows)) (st, tr))) in
  Backend.availableSlots
    (state_after (Backend.fetchAvailableSlots showLoading1
                    (Response true (Rows snapshot)) (st1, tr1)))
  = snapshot.
Proof.
  intros Hwf snapshot. subst snapshot. rewrite !Backend_fetchAvailableSlots_run.
  unfold state_after. cbn [fst snd Backend.refreshed].
  destruct (sort_sorted HP rows Hwf) as (r & Hr & _ & Hs). rewrite Hr.
  destruct showLoading;
    cbn [Backend.availableSlots Backend.with_isLoading Backend.with_availableSlots];
    rewrite (sort_of_sorted r Hs); now destruct showLoading1.
Qed.

Lemma refresh_of_snapshot_witness :
  let rows := [slot_next_day; slot_1430; slot_0900] in
  let snapshot := Backend.availableSlots
                    (state_after (Backend.fetchAvailableSlots true
                                    (Response true (Rows rows))
                                    (Backend.initialState, []))) in
  Forall well_formed rows
  /\ Backend.availableSlots
       (state_after (Backend.fetchAvailableSlots false
                       (Response true (Rows snapshot)) (filling_form, [])))
     = snapshot.
Proof.
  assert (H : Forall (@well_formed Engine_platform) [slot_next_day; slot_1430; slot_0900]).
  { repeat constructor; eexists; reflexivity. }
  split; [exact H |].
  exact (refresh_of_snapshot Engine_consistent _ Backend.initialState filling_form
           [] [] true false H).
Defined.

(** ** A later success does not clear an error *)

(** [X17] A refresh that succeeds after one that failed does not clear
    the error: it leaves the message of the failure in place: the backend revision goes on showing
    the error screen (when no booking is complete and the loading flag is
    down), the SheetDB revision goes on showing the message above its
    panel. *)
Theorem success_after_failure_keeps_error {P : Platform} :
  (forall s1 s2 o1 o2 m st tr,
      completion_of (Backend.fetchAvailableSlots_try o1 (st, tr)) = JS.Throw m ->
      completion_of (Backend.fetchAvailableSlots_try o2 (st, tr)) = JS.Normal tt ->
      let x1 := Backend.fetchAvailableSlots s1 o1 (st, tr) in
      let st2 := state_after (Backend.fetchAvailableSlots s2 o2
                                (state_after x1, trace_after x1)) in
      Backend.errorMessage st2 = refresh_error m
      /\ (Backend.bookingComplete st = false -> Backend.isLoading st2 = false ->
          Backend.render st2 = Backend.ErrorScreen (refresh_error m)))
  /\ (forall sheetId s1 s2 o1 o2 m st tr,
      completion_of (SheetDB.fetchAvailableSlots_try sheetId o1 (st, tr)) = JS.Throw m ->
      completion_of (SheetDB.fetchAvailableSlots_try sheetId o2 (st, tr)) = JS.Normal tt ->
      let x1 := SheetDB.fetchAvailableSlots sheetId s1 o1 (st, tr) in
      let st2 := state_after (SheetDB.fetchAvailableSlots sheetId s2 o2
                                (state_after x1, trace_after x1)) in
      SheetDB.errorMessage st2 = refresh_error m
      /\ (SheetDB.bookingComplete st = false -> SheetDB.isLoading st2 = false ->
          exists panel, SheetDB.render st2
                        = SheetDB.MainScreen (Some (refresh_error m)) panel)).
Proof.
  split.
  - intros s1 s2 o1 o2 m st tr H1 H2 x1 st2. subst x1 st2.
    rewrite Backend_refreshed_correct in H1, H2.
    rewrite !Backend_fetchAvailableSlots_run. unfold state_after, trace_after, completion_of in *.
    destruct (Backend.refreshed o1) as [|m1]; [discriminate |].
    destruct (Backend.refreshed o2) as [sorted|]; [| discriminate].
    cbn in H1. inversion H1; subst m1. cbn [fst snd].
    split; [now destruct s1, s2 |].
    intros Hb Hl. unfold Backend.render. rewrite Hl. cbn [andb].
    destruct s1, s2; cbn -[refresh_error String.eqb Nat.eqb] in *; rewrite Hb;
      reflexivity.
  - intros sheetId s1 s2 o1 o2 m st tr H1 H2 x1 st2. subst x1 st2.
    rewrite SheetDB_refreshed_correct in H1, H2.
    rewrite !SheetDB_fetchAvailableSlots_run. unfold state_after, trace_after, completion_of in *.
    destruct (SheetDB.refreshed o1) as [|m1]; [discriminate |].
    destruct (SheetDB.refreshed o2) as [sorted|]; [| discriminate].
    cbn in H1. inversion H1; subst m1. cbn [fst snd].
    split; [now destruct s1, s2 |].
    intros Hb Hl. unfold SheetDB.render. rewrite Hl. cbn [andb].
    destruct s1, s2; cbn -[refresh_error String.eqb Nat.ltb] in *; rewrite Hb;
      eexists; reflexivity.
Qed.

Lemma success_after_failure_keeps_error_witness :
  let x1 := Backend.fetchAvailableSlots false (Rejected "Failed to fetch")
                                        (filling_form, []) in
  let st2 := state_after (Backend.fetchAvailableSlots false one_slot
                            (state_after x1, trace_after x1)) in
  Backend.errorMessage st2 = "Error loading available slots: Failed to fetch"
  /\ (Backend.bookingComplete filling_form = false -> Backend.isLoading st2 = false ->
      Backend.render st2
      = Backend.ErrorScreen "Error loading available slots: Failed to fetch").
Proof.
  apply (proj1 (@success_after_failure_keeps_error Engine_platform)
               false false (Rejected "Failed to fetch") one_slot "Failed to fetch"
               filling_form []); reflexivity.
Defined.

(** ** The session of the SheetDB revision: the interval *)

Section SheetSession.
Context {P : Platform} (sheetId : option string) (Hid : SheetDB.has_sheetId sheetId = true).

Lemma sheet_mount_world (first : FetchOutcome) :
  SheetDB.mount sheetId first
  = {| SheetDB.comp :=
         SheetDB.with_refreshInterval (Some 1%nat)
           (state_after (SheetDB.fetchAvailableSlots sheetId true first
                                                     (SheetDB.initialState, [])));
       SheetDB.mounted := true;
       SheetDB.trace := [SheetDB.list_request sheetId; SetInterval 1] |}.
Proof.
  unfold SheetDB.mount, SheetDB.exec, SheetDB.mountEffect. rewrite Hid. unfold bind.
  cbn [SheetDB.comp SheetDB.trace SheetDB.mounted].
  rewrite !SheetDB_fetchAvailableSlots_run. reflexivity.
Qed.

Lemma sheet_mount_inv (first : FetchOutcome) :
  sheet_session_inv (SheetDB.mount sheetId first).
Proof.
  rewrite sheet_mount_world, SheetDB_fetchAvailableSlots_run.
  unfold sheet_session_inv, state_after. cbn [SheetDB.comp SheetDB.trace fst snd].
  destruct (SheetDB.refreshed first); repeat split; reflexivity.
Qed.

Lemma sheet_exec_inv (m : Eff SheetDB.State unit) (w : SheetDB.World) :
  sheet_session_inv w ->
  (forall st tr,
      let x := m (st, tr) in
      SheetDB.refreshInterval (state_after x) = SheetDB.refreshInterval st
      /\ SheetDB.bookingComplete (state_after x) = SheetDB.bookingComplete st
      /\ exists added, trace_after x = (tr ++ added)%list
                       /\ (forall running, timers_after running added = running)
                       /\ cancellations added = 0%nat) ->
  sheet_session_inv (SheetDB.exec m w).
Proof.
  intros (Hr & Ht & Hc) Hm.
  specialize (Hm (SheetDB.comp w) (SheetDB.trace w)).
  unfold SheetDB.exec, sheet_session_inv, state_after, trace_after in *.
  destruct (m (SheetDB.comp w, SheetDB.trace w)) as [c [st' tr']].
  cbn [fst snd SheetDB.comp SheetDB.trace] in *.
  destruct Hm as (Hr' & Hb' & added & -> & Hta & Hca).
  rewrite timers_app, Hta, cancellations_app, Hca, Nat.add_0_r.
  destruct (SheetDB.mounted w).
  - rewrite Hr', Hb'. auto.
  - auto.
Qed.

Lemma sheet_fetch_frame (showLoading : bool) (o : FetchOutcome) (st : SheetDB.State)
      (tr : list Call) :
  let x := SheetDB.fetchAvailableSlots sheetId showLoading o (st, tr) in
  SheetDB.refreshInterval (state_after x) = SheetDB.refreshInterval st
  /\ SheetDB.bookingComplete (state_after x) = SheetDB.bookingComplete st
  /\ exists added, trace_after x = (tr ++ added)%list
                   /\ (forall running, timers_after running added = running)
                   /\ cancellations added = 0%nat.
Proof.
  cbv zeta. rewrite SheetDB_fetchAvailableSlots_run. unfold state_after, trace_after.
  cbn [fst snd]. split; [| split].
  - destruct showLoading, (SheetDB.refreshed o); reflexivity.
  - destruct showLoading, (SheetDB.refreshed o); reflexivity.
  - exists [SheetDB.list_request sheetId]. repeat split; reflexivity.
Qed.

Lemma sheet_set_frame (f : SheetDB.State -> SheetDB.State) (st : SheetDB.State)
      (tr : list Call) :
  (forall s, SheetDB.refreshInterval (f s) = SheetDB.refreshInterval s) ->
  (forall s, SheetDB.bookingComplete (f s) = SheetDB.bookingComplete s) ->
  let x := set f (st, tr) in
  SheetDB.refreshInterval (state_after x) = SheetDB.refreshInterval st
  /\ SheetDB.bookingComplete (state_after x) = SheetDB.bookingComplete st
  /\ exists added, trace_after x = (tr ++ added)%list
                   /\ (forall running, timers_after running added = running)
                   /\ cancellations added = 0%nat.
Proof.
  intros Hr Hb. cbn. split; [apply Hr | split; [apply Hb |]].
  exists []. rewrite app_nil_r. repeat split; reflexivity.
Qed.

Lemma sheet_on_form_selected (st : SheetDB.State) :
  SheetDB.on_form st = true ->
  SheetDB.bookingComplete st = false /\ exists slot, SheetDB.selectedSlot st = Some slot.
Proof.
  unfold SheetDB.on_form, SheetDB.render.
  destruct (SheetDB.isLoading st && negb (SheetDB.bookingComplete st))%bool;
    [discriminate |].
  destruct (SheetDB.bookingComplete st);
    [destruct (SheetDB.selectedSlot st); discriminate |].
  destruct (SheetDB.selectedSlot st) as [slot|].
  - intros _. split; [reflexivity | now exists slot].
  - destruct (0 <? length (SheetDB.availableSlots st))%nat; discriminate.
Qed.

Lemma sheet_notify_trace_timers (r : SheetDB.State) (slot : Slot)
      (owner client : SendOutcome) (running : list nat) :
  timers_after running (SheetDB.notify_trace r slot owner client) = running
  /\ cancellations (SheetDB.notify_trace r slot owner client) = 0%nat.
Proof.
  destruct owner as [| m]; [destruct client as [| m] |]; split; reflexivity.
Qed.

Lemma sheet_submit_inv (w : SheetDB.World) (commit : FetchOutcome)
      (owner client : SendOutcome) :
  sheet_session_inv w -> SheetDB.mounted w = true ->
  SheetDB.on_form (SheetDB.comp w) = true ->
  sheet_session_inv
    (SheetDB.exec (SheetDB.submitForm sheetId (SheetDB.comp w) commit owner client) w).
Proof.
  intros Hinv Hm Hf. unfold SheetDB.submitForm.
  destruct (checkValidity (SheetDB.bookingForm (SheetDB.userInfo (SheetDB.comp w)))).
  2: { apply sheet_exec_inv; [exact Hinv |]. intros st tr. cbn. repeat split.
       exists []. rewrite app_nil_r. repeat split; reflexivity. }
  destruct (sheet_on_form_selected _ Hf) as (Hb & slot & Hs).
  destruct Hinv as (Hr & Ht & Hc). rewrite Hb in Ht, Hc.
  unfold SheetDB.exec, sheet_session_inv.
  rewrite (SheetDB_handleBooking_run sheetId _ slot commit owner client _ _ Hs), Hm.
  destruct commit as [m | [] b]; cbn [fst snd SheetDB.comp SheetDB.trace].
  - cbn -[SheetDB.book_request]. rewrite timers_app, cancellations_app, Hr, Hb, Ht, Hc.
    repeat split; reflexivity.
  - change (SheetDB.book_request sheetId (SheetDB.comp w) slot
              :: SheetDB.notify_trace (SheetDB.comp w) slot owner client
              ++ SheetDB.clear_trace (SheetDB.comp w))%list
      with ([SheetDB.book_request sheetId (SheetDB.comp w) slot]
              ++ SheetDB.notify_trace (SheetDB.comp w) slot owner client
              ++ SheetDB.clear_trace (SheetDB.comp w))%list.
    rewrite !timers_app, !cancellations_app, Ht, Hc.
    rewrite !timers_after_app.
    destruct (sheet_notify_trace_timers (SheetDB.comp w) slot owner client
                (timers_after [1%nat] [SheetDB.book_request sheetId (SheetDB.comp w) slot]))
      as [-> ->].
    unfold SheetDB.clear_trace. rewrite Hr. cbn -[SheetDB.book_request].
    repeat split; assumption.
  - cbn -[SheetDB.book_request]. rewrite timers_app, cancellations_app, Hr, Hb, Ht, Hc.
    repeat split; reflexivity.
Qed.

Lemma sheet_step_inv (w w' : SheetDB.World) (e : SheetDB.Event) :
  sheet_session_inv w -> SheetDB.step sheetId w e = Some w' -> sheet_session_inv w'.
Proof.
  intros Hinv H. destruct e; unfold SheetDB.step in H; cbv beta iota zeta in H.
  - destruct (existsb _ _); [| discriminate]. inversion H; subst w'.
    apply sheet_exec_inv; [exact Hinv | intros; apply sheet_fetch_frame].
  - destruct (SheetDB.mounted w && _)%bool; [| discriminate]. inversion H; subst w'.
    apply sheet_exec_inv; [exact Hinv | intros; now apply sheet_set_frame].
  - destruct (SheetDB.mounted w && _)%bool; [| discriminate]. inversion H; subst w'.
    apply sheet_exec_inv; [exact Hinv | intros; now apply sheet_set_frame].
  - destruct (SheetDB.mounted w && _)%bool; [| discriminate]. inversion H; subst w'.
    apply sheet_exec_inv; [exact Hinv | intros; now apply sheet_set_frame].
  - destruct (SheetDB.mounted w && _)%bool; [| discriminate]. inversion H; subst w'.
    apply sheet_exec_inv; [exact Hinv | intros; now apply sheet_set_frame].
  - destruct (SheetDB.mounted w && _)%bool; [| discriminate]. inversion H; subst w'.
    apply sheet_exec_inv; [exact Hinv | intros; now apply sheet_set_frame].
  - destruct (SheetDB.mounted w) eqn:Hm; [| discriminate]. cbn [andb] in H.
    destruct (SheetDB.on_form (SheetDB.comp w)) eqn:Hf; [| discriminate].
    inversion H; subst w'. now apply sheet_submit_inv.
  - destruct (SheetDB.mounted w) eqn:Hm; [| discriminate]. rewrite Hid in H.
    inversion H; subst w'.
    unfold sheet_session_inv, SheetDB.exec in *. cbn. rewrite Hm. exact Hinv.
Qed.

Lemma sheet_run_inv (events : list SheetDB.Event) (w w' : SheetDB.World) :
  sheet_session_inv w -> SheetDB.run sheetId w events = Some w' -> sheet_session_inv w'.
Proof.
  revert w. induction events as [|e events IH]; intros w Hinv H; cbn in H.
  - now inversion H; subst.
  - destruct (SheetDB.step sheetId w e) as [w1|] eqn:E; [| discriminate].
    eapply IH; [eapply sheet_step_inv; eauto | exact H].
Qed.
End SheetSession.

(** [X18] In a session of the SheetDB revision that has a sheet id, the
    interval set at the mount runs as long as the booking is not complete,
    the unmount included: the clean-up of the effect reads the handle of the
    first render, which is [null], and clears nothing.  Once the booking is
    complete the interval has been cleared exactly once, none runs and no
    tick is accepted any more. *)
Theorem sheet_interval {P : Platform} (sheetId : option string) (first : FetchOutcome)
        (events : list SheetDB.Event) (w : SheetDB.World) :
  SheetDB.has_sheetId sheetId = true ->
  SheetDB.run sheetId (SheetDB.mount sheetId first) events = Some w ->
  if SheetDB.bookingComplete (SheetDB.comp w)
  then timers (SheetDB.trace w) = [] /\ cancellations (SheetDB.trace w) = 1%nat
       /\ forall h o, SheetDB.step sheetId w (SheetDB.Tick h o) = None
  else timers (SheetDB.trace w) = [1%nat] /\ cancellations (SheetDB.trace w) = 0%nat
       /\ forall o, exists w',
            SheetDB.step sheetId w (SheetDB.Tick 1 o) = Some w'
            /\ SheetDB.trace w' = (SheetDB.trace w ++ [SheetDB.list_request sheetId])%list.
Proof.
  intros Hid Hrun.
  destruct (sheet_run_inv sheetId Hid events _ _ (sheet_mount_inv sheetId Hid first) Hrun)
    as (_ & Ht & Hc).
  destruct (SheetDB.bookingComplete (SheetDB.comp w)).
  - repeat split; auto. intros h o. unfold SheetDB.step. now rewrite Ht.
  - repeat split; auto. intros o. unfold SheetDB.step. rewrite Ht. cbn [existsb Nat.eqb orb].
    eexists. split; [reflexivity |].
    unfold SheetDB.exec. rewrite SheetDB_fetchAvailableSlots_run. reflexivity.
Qed.

Lemma sheet_interval_witness :
  exists w,
    SheetDB.has_sheetId (Some "sheet") = true
    /\ SheetDB.run (Some "sheet") (SheetDB.mount (Some "sheet") one_slot)
                   [SheetDB.Unmount] = Some w
    /\ timers (SheetDB.trace w) = [1%nat] /\ cancellations (SheetDB.trace w) = 0%nat
    /\ forall o, exists w',
         SheetDB.step (Some "sheet") w (SheetDB.Tick 1 o) = Some w'
         /\ SheetDB.trace w'
            = (SheetDB.trace w ++ [SheetDB.list_request (Some "sheet")])%list.
Proof.
  eexists. split; [reflexivity |]. split; [vm_compute; reflexivity |].
  exact (@sheet_interval Engine_platform (Some "sheet") one_slot [SheetDB.Unmount] _
           eq_refl eq_refl).
Defined.

(** ** The SheetDB revision without a sheet id *)

Lemma idle_step {P : Platform} (sheetId : option string) (w w' : SheetDB.World)
      (e : SheetDB.Event) :
  SheetDB.has_sheetId sheetId = false ->
  idle w -> SheetDB.step sheetId w e = Some w' -> idle w'.
Proof.
  intros Hid [Ht Hr] H.
  assert (Ho : SheetDB.offered (SheetDB.comp w) = [])
    by (unfold SheetDB.offered; now rewrite Hr).
  assert (Hf : SheetDB.on_form (SheetDB.comp w) = false)
    by (unfold SheetDB.on_form; now rewrite Hr).
  destruct e; unfold SheetDB.step in H; cbv beta iota zeta in H;
    rewrite ?Ht, ?Ho, ?Hf, ?Hid, ?andb_false_r in H; cbn [existsb timers timers_after] in H;
    try discriminate.
  destruct (SheetDB.mounted w); [| discriminate]. inversion H; subst w'.
  split; assumption.
Qed.

(** [X4] Mounted on a route without sheet id (none, or an empty one), the
    SheetDB revision never asks anything of the outside, in the whole
    session: no request is sent, no interval is set, and the screen shows
    the message about the booking link with no slot to select. *)
Theorem no_sheetId_no_request {P : Platform} (sheetId : option string)
        (first : FetchOutcome) (events : list SheetDB.Event) (w : SheetDB.World) :
  SheetDB.has_sheetId sheetId = false ->
  SheetDB.run sheetId (SheetDB.mount sheetId first) events = Some w ->
  SheetDB.trace w = []
  /\ SheetDB.render (SheetDB.comp w)
     = SheetDB.MainScreen (Some no_sheetId_message) SheetDB.NoSlotsPanel.
Proof.
  intros Hid.
  assert (H0 : idle (SheetDB.mount sheetId first)).
  { unfold SheetDB.mount, SheetDB.exec, SheetDB.mountEffect. rewrite Hid.
    split; reflexivity. }
  revert H0. generalize (SheetDB.mount sheetId first). clear first.
  induction events as [|e events IH]; intros w0 H0 H; cbn in H.
  - inversion H; subst. exact H0.
  - destruct (SheetDB.step sheetId w0 e) as [w1|] eqn:E; [| discriminate].
    exact (IH w1 (idle_step sheetId w0 w1 e Hid H0 E) H).
Qed.

Lemma no_sheetId_no_request_witness :
  exists w,
    SheetDB.has_sheetId (Some "") = false
    /\ SheetDB.run (Some "") (SheetDB.mount (Some "") one_slot) [SheetDB.Unmount] = Some w
    /\ SheetDB.trace w = []
    /\ SheetDB.render (SheetDB.comp w)
       = SheetDB.MainScreen (Some no_sheetId_message) SheetDB.NoSlotsPanel.
Proof.
  eexists. split; [reflexivity |]. split; [vm_compute; reflexivity |].
  exact (@no_sheetId_no_request Engine_platform (Some "") one_slot [SheetDB.Unmount] _
           eq_refl eq_refl).
Defined.

(** ** A refresh that brings no slot while the form is displayed *)

Lemma render_form (st : Backend.State) (slot : Slot) (form : list Input) :
  Backend.render st = Backend.BookingFormScreen slot form ->
  Backend.isLoading st = false /\ Backend.bookingComplete st = false
  /\ Backend.errorMessage st = "" /\ Backend.selectedSlot st = Some slot
  /\ form = Backend.bookingForm (Backend.userInfo st).
Proof.
  unfold Backend.render.
  destruct (Backend.isLoading st) eqn:Hl, (Backend.bookingComplete st) eqn:Hb;
    cbn [andb negb]; try discriminate;
    try (destruct (Backend.selectedSlot st); discriminate).
  destruct (Backend.errorMessage st =? "")%string eqn:He; cbn [negb]; [| discriminate].
  apply String.eqb_eq in He.
  destruct (length (Backend.availableSlots st) =? 0)%nat; [discriminate |].
  destruct (Backend.selectedSlot st) as [s|]; [| discriminate].
  intros H. inversion H; subst. repeat split; auto.
Qed.

(** [X19] In the backend revision a background refresh that brings no slot
    while the booking form is displayed replaces the form by the notice that
    no appointment is available; the selection and the contents of the form
    are kept, and the form is displayed again, as it was, as soon as a later
    refresh stores a slot.  In the SheetDB revision the form stays
    displayed. *)
Theorem empty_refresh_hides_form {P : Platform} :
  (forall st slot form o tr tr',
      Backend.render st = Backend.BookingFormScreen slot form ->
      let st1 := state_after (Backend.fetchAvailableSlots false (Response true (Rows []))
                                                          (st, tr)) in
      let st2 := state_after (Backend.fetchAvailableSlots false o (st1, tr')) in
      Backend.render st1 = Backend.NoSlotsScreen
      /\ Backend.selectedSlot st1 = Some slot
      /\ Backend.userInfo st1 = Backend.userInfo st
      /\ (completion_of (Backend.fetchAvailableSlots_try o (st1, tr')) = JS.Normal tt ->
          Backend.availableSlots st2 <> [] ->
          Backend.render st2 = Backend.BookingFormScreen slot form))
  /\ (forall sheetId st banner slot form tr,
      SheetDB.render st = SheetDB.MainScreen banner (SheetDB.BookingFormPanel slot form) ->
      let st1 := state_after (SheetDB.fetchAvailableSlots sheetId false
                                (Response true (Rows [])) (st, tr)) in
      SheetDB.render st1 = SheetDB.MainScreen banner (SheetDB.BookingFormPanel slot form)).
Proof.
  split.
  - intros st slot form o tr tr' Hr st1 st2. subst st1 st2.
    destruct (render_form st slot form Hr) as (Hl & Hb & He & Hs & ->).
    rewrite !Backend_refreshed_correct, !Backend_fetchAvailableSlots_run.
    unfold state_after, completion_of. cbn [fst snd Backend.refreshed ArraySort.sort].
    split; [| split; [exact Hs | split; [reflexivity |]]].
    + unfold Backend.render. cbn. now rewrite Hl, Hb, He.
    + destruct (Backend.refreshed o) as [sorted|]; [| discriminate].
      intros _ Hne. unfold Backend.render. cbn in *. rewrite Hl, Hb, He, Hs. cbn.
      destruct sorted; [congruence | reflexivity].
  - intros sheetId st banner slot form tr Hr st1. subst st1.
    rewrite SheetDB_fetchAvailableSlots_run.
    unfold state_after. cbn [fst snd SheetDB.refreshed filter ArraySort.sort].
    revert Hr. unfold SheetDB.render. cbn.
    destruct (SheetDB.isLoading st && negb (SheetDB.bookingComplete st))%bool;
      [discriminate |].
    destruct (SheetDB.bookingComplete st);
      [destruct (SheetDB.selectedSlot st); discriminate |].
    destruct (SheetDB.selectedSlot st); [auto |].
    destruct (SheetDB.availableSlots st); discriminate.
Qed.

Lemma empty_refresh_hides_form_witness :
  let st1 := state_after (Backend.fetchAvailableSlots false (Response true (Rows []))
                                                      (filling_form, [])) in
  let st2 := state_after (Backend.fetchAvailableSlots false one_slot (st1, [])) in
  Backend.render st1 = Backend.NoSlotsScreen
  /\ Backend.selectedSlot st1 = Some slot_0900
  /\ Backend.userInfo st1 = Backend.userInfo filling_form
  /\ (completion_of (Backend.fetchAvailableSlots_try one_slot (st1, [])) = JS.Normal tt ->
      Backend.availableSlots st2 <> [] ->
      Backend.render st2
      = Backend.BookingFormScreen slot_0900
          (Backend.bookingForm (Backend.userInfo filling_form))).
Proof.
  exact (proj1 (@empty_refresh_hides_form Engine_platform) filling_form slot_0900 _
               one_slot [] [] eq_refl).
Defined.

(** ** The first screen *)

(** [X3] The screen after the mount of the backend revision, by the outcome
    of the first refresh: the error screen with the message of the failure
    when it fails, the empty notice when it stores no slot, and otherwise
    the slot list, whose groups partition the snapshot by date.  The dates
    are supposed not to be names of inherited members of the object that
    holds the groups; the order in which the groups are listed is left
    open. *)
Theorem first_refresh_screen {P : Platform} (first : FetchOutcome) :
  let st := Backend.comp (Backend.mount first) in
  Forall (fun s => plain_key (date s) = true) (Backend.availableSlots st) ->
  match completion_of (Backend.fetchAvailableSlots_try first (Backend.initialState, [])) with
  | JS.Throw m => Backend.render st = Backend.ErrorScreen (refresh_error m)
  | JS.Normal _ =>
      match Backend.availableSlots st with
      | [] => Backend.render st = Backend.NoSlotsScreen
      | _ :: _ =>
          exists groups,
            Backend.render st = Backend.SlotListScreen groups
            /\ grouped_inv groups (Backend.availableSlots st)
      end
  end.
Proof.
  cbv zeta. intros _.
  rewrite mount_world, Backend_refreshed_correct, Backend_fetchAvailableSlots_run.
  unfold state_after, completion_of. cbn [Backend.comp fst snd].
  destruct (Backend.refreshed first) as [[|slot sorted] | m]; cbn [fst]; try reflexivity.
  eexists. split; [reflexivity |]. apply grouping_inv.
Qed.

Lemma first_refresh_screen_witness :
  Forall (fun s => plain_key (date s) = true)
         (Backend.availableSlots (Backend.comp (Backend.mount one_slot)))
  /\ exists groups,
      Backend.render (Backend.comp (Backend.mount one_slot)) = Backend.SlotListScreen groups
      /\ grouped_inv groups (Backend.availableSlots (Backend.comp (Backend.mount one_slot))).
Proof.
  assert (H : Forall (fun s => plain_key (date s) = true)
                (Backend.availableSlots (Backend.comp (Backend.mount one_slot))))
    by (repeat constructor).
  split; [exact H |]. exact (@first_refresh_screen Engine_platform one_slot H).
Defined.

(** ** After the confirmation *)

Section Late.
Context {P : Platform}.

(** The rest of a refresh as one state update: no call is made. *)
Lemma Backend_settle_run (showLoading : bool) (o : FetchOutcome)
      (st : Backend.State) (tr : list Call) :
  Backend.fetchAvailableSlots_settle showLoading o (st, tr) =
  (JS.Normal tt,
   (let st2 := match Backend.refreshed o with
               | JS.Normal sorted => Backend.with_availableSlots sorted st
               | JS.Throw m =>
                   Backend.with_errorMessage ("Error loading available slots: " ++ m) st
               end in
    if showLoading then Backend.with_isLoading false st2 else st2,
    tr)).
Proof.
  unfold Backend.fetchAvailableSlots_settle, Backend.refreshed, try_finally, try_catch,
    bind, when, throw, ret, lift.
  destruct o as [m | [] [m | | | rows]]; destruct showLoading; cbn; try reflexivity;
    now destruct (ArraySort.sort compareSlots rows).
Qed.

(** A refresh is its start, the request, and then its rest. *)
Lemma Backend_refresh_then_settle (showLoading : bool) (o : FetchOutcome)
      (st : Backend.State) (tr : list Call) :
  Backend.fetchAvailableSlots showLoading o (st, tr)
  = (when showLoading (Backend.setIsLoading true) ;;
     call Backend.list_request ;;
     Backend.fetchAvailableSlots_settle showLoading o)%eff (st, tr).
Proof.
  rewrite Backend_fetchAvailableSlots_run. unfold bind, when, call.
  destruct showLoading; cbn [Backend.setIsLoading set ret fst snd];
    rewrite Backend_settle_run; reflexivity.
Qed.

Lemma step_late_confirmed (w w' : Backend.World) (x : Backend.Occurrence) (slot : Slot) :
  Backend.bookingComplete (Backend.comp w) = true ->
  Backend.selectedSlot (Backend.comp w) = Some slot ->
  timers (Backend.trace w) = [] ->
  Backend.step_late w x = Some w' ->
  Backend.bookingComplete (Backend.comp w') = true
  /\ Backend.selectedSlot (Backend.comp w') = Some slot
  /\ Backend.userInfo (Backend.comp w') = Backend.userInfo (Backend.comp w)
  /\ Backend.trace w' = Backend.trace w.
Proof.
  intros Hb Hs Ht H. destruct x as [e | showLoading o]; cbn [Backend.step_late] in H.
  - destruct (step_confirmed w w' e Hb Ht H) as [-> ->]. auto.
  - inversion H; subst w'. unfold Backend.exec. rewrite Backend_settle_run.
    cbn [Backend.comp Backend.trace].
    destruct (Backend.mounted w); [| auto].
    destruct showLoading, (Backend.refreshed o); cbn; auto.
Qed.

Lemma run_late_confirmed (xs : list Backend.Occurrence) (w w' : Backend.World)
      (slot : Slot) :
  Backend.bookingComplete (Backend.comp w) = true ->
  Backend.selectedSlot (Backend.comp w) = Some slot ->
  timers (Backend.trace w) = [] ->
  Backend.run_late w xs = Some w' ->
  Backend.render (Backend.comp w')
  = Backend.ConfirmationScreen slot (Backend.userInfo (Backend.comp w))
  /\ Backend.trace w' = Backend.trace w.
Proof.
  revert w. induction xs as [|x xs IH]; intros w Hb Hs Ht H; cbn in H.
  - inversion H; subst w'. split; [| reflexivity].
    unfold Backend.render. now rewrite Hb, Hs, andb_false_r.
  - destruct (Backend.step_late w x) as [w1|] eqn:E; [| discriminate].
    destruct (step_late_confirmed w w1 x slot Hb Hs Ht E) as (Hb1 & Hs1 & Hu1 & Ht1).
    destruct (IH w1 Hb1 Hs1) as [Hr Htr]; [congruence | exact H |].
    split; congruence.
Qed.
End Late.

(** [X10] The confirmation is terminal.  Once the booking is complete, a
    slot is selected and no interval runs, whatever still reaches the
    component (the unmount, or the response of a refresh that was in flight,
    which may still replace the snapshot or set the error message) sends no
    call and leaves the confirmation screen displayed, with that slot and
    the user of the booking.  In a session this is the case from the moment
    [bookingComplete] is set. *)
Theorem confirmed_is_terminal {P : Platform} :
  (forall (w w' : Backend.World) (slot : Slot) (after : list Backend.Occurrence),
      Backend.bookingComplete (Backend.comp w) = true ->
      Backend.selectedSlot (Backend.comp w) = Some slot ->
      timers (Backend.trace w) = [] ->
      Backend.run_late w after = Some w' ->
      Backend.render (Backend.comp w')
      = Backend.ConfirmationScreen slot (Backend.userInfo (Backend.comp w))
      /\ Backend.trace w' = Backend.trace w)
  /\ (forall (first : FetchOutcome) (before : list Backend.Event) (w w' : Backend.World)
             (after : list Backend.Occurrence),
      Backend.run (Backend.mount first) before = Some w ->
      Backend.bookingComplete (Backend.comp w) = true ->
      Backend.run_late w after = Some w' ->
      Backend.trace w' = Backend.trace w
      /\ exists slot,
          Backend.selectedSlot (Backend.comp w) = Some slot
          /\ Backend.render (Backend.comp w')
             = Backend.ConfirmationScreen slot (Backend.userInfo (Backend.comp w))).
Proof.
  split.
  - intros w w' slot after. apply run_late_confirmed.
  - intros first before w w' after Hrun Hb Hafter.
    destruct (run_inv before _ _ (mount_inv first) Hrun) as (_ & Ht & _).
    rewrite Hb in Ht.
    pose proof (run_selection_inv before _ _ (mount_selection_inv first) Hrun Hb) as Hs.
    destruct (Backend.selectedSlot (Backend.comp w)) as [slot|] eqn:Es; [| congruence].
    destruct (run_late_confirmed after w w' slot Hb Es Ht Hafter) as [Hr Htr].
    split; [exact Htr |]. now exists slot.
Qed.

Lemma confirmed_is_terminal_witness :
  Backend.run_late booked_world late_arrivals = Some after_late
  /\ Backend.errorMessage (Backend.comp after_late)
     = "Error loading available slots: Failed to fetch"
  /\ Backend.render (Backend.comp after_late)
     = Backend.ConfirmationScreen slot_0900 (Backend.userInfo (Backend.comp booked_world))
  /\ Backend.trace after_late = Backend.trace booked_world.
Proof.
  assert (H : Backend.run_late booked_world late_arrivals = Some after_late)
    by (vm_compute; reflexivity).
  split; [exact H |]. split; [reflexivity |].
  exact (proj1 (@confirmed_is_terminal Engine_platform)
               booked_world after_late slot_0900 late_arrivals eq_refl eq_refl eq_refl H).
Defined.

(** ** The selection is of the snapshot *)

Section Selection.
Context {P : Platform}.

Lemma Backend_select_refused (w : Backend.World) (slot : Slot) :
  ~ In slot (Backend.availableSlots (Backend.comp w)) ->
  Backend.step w (Backend.SelectSlot slot) = None.
Proof.
  intros Hn. unfold Backend.step.
  destruct (existsb (Backend.slot_eqb slot) (Backend.offered (Backend.comp w))) eqn:E.
  - apply existsb_exists in E as (x & Hx & Heq). apply slot_eqb_eq in Heq. subst x.
    destruct Hn. now apply Backend_offered_In.
  - now rewrite andb_false_r.
Qed.

Lemma Backend_select_accepted (w w' : Backend.World) (slot : Slot) :
  Backend.step w (Backend.SelectSlot slot) = Some w' ->
  In slot (Backend.availableSlots (Backend.comp w))
  /\ Backend.selectedSlot (Backend.comp w') = Some slot.
Proof.
  intros H. unfold Backend.step in H.
  destruct (Backend.mounted w) eqn:Hm; [| discriminate]. cbn [andb] in H.
  destruct (existsb (Backend.slot_eqb slot) (Backend.offered (Backend.comp w))) eqn:E;
    [| discriminate].
  apply existsb_exists in E as (x & Hx & Heq). apply slot_eqb_eq in Heq. subst x.
  split; [now apply Backend_offered_In |].
  inversion H; subst w'. unfold Backend.exec. cbn. now rewrite Hm.
Qed.

(** An event leaves the selection as it is, removes it, or is the
    selection of a slot of the snapshot. *)
Lemma Backend_step_selection (w w' : Backend.World) (e : Backend.Event) (slot : Slot) :
  Backend.step w e = Some w' ->
  Backend.selectedSlot (Backend.comp w') = Some slot ->
  (e = Backend.SelectSlot slot /\ In slot (Backend.availableSlots (Backend.comp w)))
  \/ Backend.selectedSlot (Backend.comp w) = Some slot.
Proof.
  intros H Hs. destruct e.
  - right. unfold Backend.step in H; cbv beta iota zeta in H.
    destruct (existsb _ _); [| discriminate]. inversion H; subst w'.
    revert Hs. unfold Backend.exec. rewrite Backend_fetchAvailableSlots_run.
    cbn [Backend.comp]. destruct (Backend.mounted w); [| auto].
    destruct (Backend.refreshed o); cbn; auto.
  - left. destruct (Backend_select_accepted w w' slot0 H) as [Hin Hsel].
    rewrite Hsel in Hs. inversion Hs; subst slot0. now split.
  - unfold Backend.step in H; cbv beta iota zeta in H.
    destruct (Backend.mounted w) eqn:Hm; [| discriminate]. cbn [andb] in H.
    destruct (Backend.on_form _); [| discriminate]. inversion H; subst w'.
    unfold Backend.exec in Hs. cbn in Hs. rewrite Hm in Hs. discriminate.
  - right. unfold Backend.step in H; cbv beta iota zeta in H.
    destruct (Backend.mounted w && _)%bool; [| discriminate]. inversion H; subst w'.
    unfold Backend.exec in Hs. cbn in Hs. now destruct (Backend.mounted w).
  - right. unfold Backend.step in H; cbv beta iota zeta in H.
    destruct (Backend.mounted w && _)%bool; [| discriminate]. inversion H; subst w'.
    unfold Backend.exec in Hs. cbn in Hs. now destruct (Backend.mounted w).
  - right. unfold Backend.step in H; cbv beta iota zeta in H.
    destruct (Backend.mounted w && _)%bool; [| discriminate]. inversion H; subst w'.
    unfold Backend.exec in Hs. cbn in Hs. now destruct (Backend.mounted w).
  - right. unfold Backend.step in H; cbv beta iota zeta in H.
    destruct (Backend.mounted w && _)%bool; [| discriminate]. inversion H; subst w'.
    unfold Backend.exec in Hs. cbn in Hs. now destruct (Backend.mounted w).
  - right. unfold Backend.step in H; cbv beta iota zeta in H.
    destruct (Backend.mounted w) eqn:Hm; [| discriminate]. cbn [andb] in H.
    destruct (Backend.on_form (Backend.comp w)) eqn:Hf; [| discriminate].
    inversion H; subst w'. destruct (on_form_selected _ Hf) as (_ & s & Hsel).
    revert Hs. unfold Backend.exec, Backend.submitForm.
    destruct (checkValidity _); [| cbn; now rewrite Hm].
    rewrite (Backend_handleBooking_run _ s commit owner client _ _ Hsel), Hm.
    destruct commit as [m | [] b]; cbn; auto.
  - right. unfold Backend.step in H; cbv beta iota zeta in H.
    destruct (Backend.mounted w && _)%bool; [| discriminate]. inversion H; subst w'.
    revert Hs. unfold Backend.exec. rewrite Backend_fetchAvailableSlots_run.
    cbn [Backend.comp]. destruct (Backend.mounted w); [| auto].
    destruct (Backend.refreshed o); cbn; auto.
  - right. unfold Backend.step in H; cbv beta iota zeta in H.
    destruct (Backend.mounted w) eqn:Hm; [| discriminate]. inversion H; subst w'.
    unfold Backend.exec in Hs. cbn in Hs. now rewrite Hm in Hs.
Qed.

Lemma Backend_run_selection (events : list Backend.Event) (w w' : Backend.World)
      (slot : Slot) :
  Backend.run w events = Some w' ->
  Backend.selectedSlot (Backend.comp w') = Some slot ->
  Backend.selectedSlot (Backend.comp w) = Some slot
  \/ exists before after w0,
      events = (before ++ Backend.SelectSlot slot :: after)%list
      /\ Backend.run w before = Some w0
      /\ In slot (Backend.availableSlots (Backend.comp w0)).
Proof.
  revert w. induction events as [|e events IH]; intros w H Hs; cbn in H.
  - inversion H; subst w'. now left.
  - destruct (Backend.step w e) as [w1|] eqn:E; [| discriminate].
    destruct (IH w1 H Hs) as [Hs1 | (before & after & w0 & -> & Hrun & Hin)].
    + destruct (Backend_step_selection w w1 e slot E Hs1) as [[-> Hin] | Hsw];
        [| now left].
      right. exists [], events, w. now repeat split.
    + right. exists (e :: before), after, w0. repeat split; [| exact Hin].
      cbn. now rewrite E.
Qed.

Lemma SheetDB_select_refused (sheetId : option string) (w : SheetDB.World) (slot : Slot) :
  ~ In slot (SheetDB.availableSlots (SheetDB.comp w)) ->
  SheetDB.step sheetId w (SheetDB.SelectSlot slot) = None.
Proof.
  intros Hn. unfold SheetDB.step.
  destruct (existsb (Backend.slot_eqb slot) (SheetDB.offered (SheetDB.comp w))) eqn:E.
  - apply existsb_exists in E as (x & Hx & Heq). apply slot_eqb_eq in Heq. subst x.
    destruct Hn. now apply SheetDB_offered_In.
  - now rewrite andb_false_r.
Qed.

Lemma SheetDB_select_accepted (sheetId : option string) (w w' : SheetDB.World)
      (slot : Slot) :
  SheetDB.step sheetId w (SheetDB.SelectSlot slot) = Some w' ->
  In slot (SheetDB.availableSlots (SheetDB.comp w))
  /\ SheetDB.selectedSlot (SheetDB.comp w') = Some slot.
Proof.
  intros H. unfold SheetDB.step in H.
  destruct (SheetDB.mounted w) eqn:Hm; [| discriminate]. cbn [andb] in H.
  destruct (existsb (Backend.slot_eqb slot) (SheetDB.offered (SheetDB.comp w))) eqn:E;
    [| discriminate].
  apply existsb_exists in E as (x & Hx & Heq). apply slot_eqb_eq in Heq. subst x.
  split; [now apply SheetDB_offered_In |].
  inversion H; subst w'. unfold SheetDB.exec. cbn. now rewrite Hm.
Qed.

Lemma SheetDB_step_selection (sheetId : option string) (w w' : SheetDB.World)
      (e : SheetDB.Event) (slot : Slot) :
  SheetDB.step sheetId w e = Some w' ->
  SheetDB.selectedSlot (SheetDB.comp w') = Some slot ->
  (e = SheetDB.SelectSlot slot /\ In slot (SheetDB.availableSlots (SheetDB.comp w)))
  \/ SheetDB.selectedSlot (SheetDB.comp w) = Some slot.
Proof.
  intros H Hs. destruct e.
  - right. unfold SheetDB.step in H; cbv beta iota zeta in H.
    destruct (existsb _ _); [| discriminate]. inversion H; subst w'.
    revert Hs. unfold SheetDB.exec. rewrite SheetDB_fetchAvailableSlots_run.
    cbn [SheetDB.comp]. destruct (SheetDB.mounted w); [| auto].
    destruct (SheetDB.refreshed o); cbn; auto.
  - left. destruct (SheetDB_select_accepted sheetId w w' slot0 H) as [Hin Hsel].
    rewrite Hsel in Hs. inversion Hs; subst slot0. now split.
  - unfold SheetDB.step in H; cbv beta iota zeta in H.
    destruct (SheetDB.mounted w) eqn:Hm; [| discriminate]. cbn [andb] in H.
    destruct (SheetDB.on_form _); [| discriminate]. inversion H; subst w'.
    unfold SheetDB.exec in Hs. cbn in Hs. rewrite Hm in Hs. discriminate.
  - right. unfold SheetDB.step in H; cbv beta iota zeta in H.
    destruct (SheetDB.mounted w && _)%bool; [| discriminate]. inversion H; subst w'.
    unfold SheetDB.exec in Hs. cbn in Hs. now destruct (SheetDB.mounted w).
  - right. unfold SheetDB.step in H; cbv beta iota zeta in H.
    destruct (SheetDB.mounted w && _)%bool; [| discriminate]. inversion H; subst w'.
    unfold SheetDB.exec in Hs. cbn in Hs. now destruct (SheetDB.mounted w).
  - right. unfold SheetDB.step in H; cbv beta iota zeta in H.
    destruct (SheetDB.mounted w && _)%bool; [| discriminate]. inversion H; subst w'.
    unfold SheetDB.exec in Hs. cbn in Hs. now destruct (SheetDB.mounted w).
  - right. unfold SheetDB.step in H; cbv beta iota zeta in H.
    destruct (SheetDB.mounted w) eqn:Hm; [| discriminate]. cbn [andb] in H.
    destruct (SheetDB.on_form (SheetDB.comp w)) eqn:Hf; [| discriminate].
    inversion H; subst w'. destruct (sheet_on_form_selected _ Hf) as (_ & s & Hsel).
    revert Hs. unfold SheetDB.exec, SheetDB.submitForm.
    destruct (checkValidity _); [| cbn; now rewrite Hm].
    rewrite (SheetDB_handleBooking_run sheetId _ s commit owner client _ _ Hsel), Hm.
    destruct commit as [m | [] b]; cbn; auto.
  - right. unfold SheetDB.step in H; cbv beta iota zeta in H.
    destruct (SheetDB.mounted w) eqn:Hm; [| discriminate]. inversion H; subst w'.
    revert Hs. unfold SheetDB.exec. destruct (SheetDB.has_sheetId sheetId); cbn; [| auto].
    now rewrite Hm.
Qed.

Lemma SheetDB_run_selection (sheetId : option string) (events : list SheetDB.Event)
      (w w' : SheetDB.World) (slot : Slot) :
  SheetDB.run sheetId w events = Some w' ->
  SheetDB.selectedSlot (SheetDB.comp w') = Some slot ->
  SheetDB.selectedSlot (SheetDB.comp w) = Some slot
  \/ exists before after w0,
      events = (before ++ SheetDB.SelectSlot slot :: after)%list
      /\ SheetDB.run sheetId w before = Some w0
      /\ In slot (SheetDB.availableSlots (SheetDB.comp w0)).
Proof.
  revert w. induction events as [|e events IH]; intros w H Hs; cbn in H.
  - inversion H; subst w'. now left.
  - destruct (SheetDB.step sheetId w e) as [w1|] eqn:E; [| discriminate].
    destruct (IH w1 H Hs) as [Hs1 | (before & after & w0 & -> & Hrun & Hin)].
    + destruct (SheetDB_step_selection sheetId w w1 e slot E Hs1) as [[-> Hin] | Hsw];
        [| now left].
      right. exists [], events, w. now repeat split.
    + right. exists (e :: before), after, w0. repeat split; [| exact Hin].
      cbn. now rewrite E.
Qed.

Lemma Backend_mount_unselected (first : FetchOutcome) :
  Backend.selectedSlot (Backend.comp (Backend.mount first)) = None.
Proof.
  rewrite mount_world, Backend_fetchAvailableSlots_run. unfold state_after.
  cbn [Backend.comp fst snd]. now destruct (Backend.refreshed first).
Qed.

Lemma SheetDB_mount_unselected (sheetId : option string) (first : FetchOutcome) :
  SheetDB.selectedSlot (SheetDB.comp (SheetDB.mount sheetId first)) = None.
Proof.
  unfold SheetDB.mount, SheetDB.exec, SheetDB.mountEffect.
  destruct (SheetDB.has_sheetId sheetId); [| reflexivity].
  unfold bind. rewrite SheetDB_fetchAvailableSlots_run. cbn.
  now destruct (SheetDB.refreshed first).
Qed.
End Selection.

(** The handler alone stores the slot it is given: it holds no test.  The
    check of the select operation is that of the screen, which calls the
    handler from the buttons of the snapshot only. *)
Example handleSelectSlot_has_no_check :
  Backend.handleSelectSlot slot_booked (browsing, [])
  = (JS.Normal tt, (Backend.with_selectedSlot (Some slot_booked) browsing, [])).
Proof. reflexivity. Qed.

(** [C9] A selection is a slot of the snapshot that was current when it
    was made.  The select operation exists on the screen only as the
    buttons of the slot list, which are built from the snapshot of the
    render; so in both revisions
    - selecting a slot that is not in the current snapshot is refused;
    - a select that is accepted is of a slot of the current snapshot, and
      makes it the selection;
    - in a session, whenever a slot is selected, a select of that slot was
      accepted earlier, in a state whose snapshot held it. *)
Theorem selection_from_snapshot {P : Platform} :
  (forall w slot,
      ~ In slot (Backend.availableSlots (Backend.comp w)) ->
      Backend.step w (Backend.SelectSlot slot) = None)
  /\ (forall w slot w',
      Backend.step w (Backend.SelectSlot slot) = Some w' ->
      In slot (Backend.availableSlots (Backend.comp w))
      /\ Backend.selectedSlot (Backend.comp w') = Some slot)
  /\ (forall first events w slot,
      Backend.run (Backend.mount first) events = Some w ->
      Backend.selectedSlot (Backend.comp w) = Some slot ->
      exists before after w0,
        events = (before ++ Backend.SelectSlot slot :: after)%list
        /\ Backend.run (Backend.mount first) before = Some w0
        /\ In slot (Backend.availableSlots (Backend.comp w0)))
  /\ (forall sheetId w slot,
      ~ In slot (SheetDB.availableSlots (SheetDB.comp w)) ->
      SheetDB.step sheetId w (SheetDB.SelectSlot slot) = None)
  /\ (forall sheetId w slot w',
      SheetDB.step sheetId w (SheetDB.SelectSlot slot) = Some w' ->
      In slot (SheetDB.availableSlots (SheetDB.comp w))
      /\ SheetDB.selectedSlot (SheetDB.comp w') = Some slot)
  /\ (forall sheetId first events w slot,
      SheetDB.run sheetId (SheetDB.mount sheetId first) events = Some w ->
      SheetDB.selectedSlot (SheetDB.comp w) = Some slot ->
      exists before after w0,
        events = (before ++ SheetDB.SelectSlot slot :: after)%list
        /\ SheetDB.run sheetId (SheetDB.mount sheetId first) before = Some w0
        /\ In slot (SheetDB.availableSlots (SheetDB.comp w0))).
Proof.
  split; [exact Backend_select_refused |].
  split; [intros w slot w'; apply Backend_select_accepted |].
  split.
  { intros first events w slot Hrun Hs.
    destruct (Backend_run_selection events _ w slot Hrun Hs) as [Hm | H]; [| exact H].
    rewrite Backend_mount_unselected in Hm. discriminate. }
  split; [exact SheetDB_select_refused |].
  split; [intros sheetId w slot w'; apply SheetDB_select_accepted |].
  intros sheetId first events w slot Hrun Hs.
  destruct (SheetDB_run_selection sheetId events _ w slot Hrun Hs) as [Hm | H]; [| exact H].
  rewrite SheetDB_mount_unselected in Hm. discriminate.
Qed.

Lemma selection_from_snapshot_witness :
  ~ In slot_booked (Backend.availableSlots (Backend.comp (Backend.mount one_slot)))
  /\ Backend.step (Backend.mount one_slot) (Backend.SelectSlot slot_booked) = None.
Proof.
  assert (H : ~ In slot_booked
                (Backend.availableSlots (Backend.comp (Backend.mount one_slot)))).
  { vm_compute. intros [H | []]. discriminate. }
  split; [exact H |].
  exact (proj1 (@selection_from_snapshot Engine_platform) (Backend.mount one_slot)
               slot_booked H).
Defined.
